(** * Build orchestration of [pkg/image/build.go]

    A shallow embedding of [Build] and of its helpers, and the properties
    of the build pipeline stated over it.

    The Go code is sequential and effectful: it renames and rewrites files
    (the [.dockerignore] file, its backup, the bundled schema), reads the
    process environment, and calls collaborators that live in other
    packages (the build engine, the Dockerfile generator, the weights
    manifest, the schema tooling, the registry client, [git]).  The
    embedding threads an explicit [State] through a small state-and-error
    monad:
    - files are a finite map from paths to contents, and every [os.*] call
      of the source is a function on that map;
    - a collaborator call asks an oracle of the record [Externals] for its
      outcome and appends the call, with its outcome, to the [trace];
    - Go's [return fmt.Errorf(...)] is the error of the monad, and the
      state reached so far is kept: a failed build leaves its files behind. *)

From Stdlib Require Import DecimalString.
From stdpp Require Import gmap strings list fin_maps.

Open Scope string_scope.

(** ** Errors *)

(** Go [error] values, as chains: [os] reports a missing file with an
    error for which [os.IsNotExist] holds; [errors.New] and collaborators
    give a message; [fmt.Errorf("pre%wpost", err)] wraps a cause. *)
Inductive error : Type :=
| ErrNotExist (path : string)
| ErrMsg (msg : string)
| ErrWrap (pre : string) (cause : error) (post : string).

Fixpoint err_text (e : error) : string :=
  match e with
  | ErrNotExist path => path ++ ": no such file or directory"
  | ErrMsg msg => msg
  | ErrWrap pre cause post => pre ++ err_text cause ++ post
  end.

Definition os_IsNotExist (e : error) : bool :=
  match e with
  | ErrNotExist _ => true
  | _ => false
  end.

(** [fmt.Errorf(pre ++ "%w", err)] *)
Definition Errorf_w (pre : string) (e : error) : error := ErrWrap pre e "".

(** [fmt.Errorf(pre ++ "%s", err)]: the cause is rendered, not wrapped. *)
Definition Errorf_s (pre : string) (e : error) : error := ErrMsg (pre ++ err_text e).

Inductive Res (A : Type) : Type :=
| Ok (a : A)
| Err (e : error).
Arguments Ok {A} a.
Arguments Err {A} e.

Definition is_ok {A} (r : Res A) : bool :=
  match r with
  | Ok _ => true
  | Err _ => false
  end.

(** The string of a Go pair [(v, err)]: the functions of this file return
    the empty string together with an error. *)
Definition res_value (r : Res string) : string :=
  match r with
  | Ok v => v
  | Err _ => ""
  end.

(** ** Data of the collaborating packages *)

(** Modelled from the spec: [config.Config] is declared in [pkg/config];
    the build reads the accelerator flag [cfg.Build.GPU] and otherwise
    passes the configuration on as a whole. *)
Record Config : Type := mkConfig {
  Build_GPU : bool;
  cfg_source : string
}.

(** Modelled from the spec: the instruction generator of [pkg/dockerfile]
    is an object built from the configuration, the directory and two flags,
    with mutators for the strip, precompile, accelerator-base and
    managed-base-image settings. *)
Record Generator : Type := mkGenerator {
  g_cfg : Config;
  g_dir : string;
  g_fast : bool;
  g_localImage : bool;
  g_strip : bool;
  g_precompile : bool;
  g_useCudaBaseImage : string;
  g_useCogBaseImage : bool
}.

Definition SetStrip (g : Generator) (b : bool) : Generator :=
  mkGenerator (g_cfg g) (g_dir g) (g_fast g) (g_localImage g)
    b (g_precompile g) (g_useCudaBaseImage g) (g_useCogBaseImage g).

Definition SetPrecompile (g : Generator) (b : bool) : Generator :=
  mkGenerator (g_cfg g) (g_dir g) (g_fast g) (g_localImage g)
    (g_strip g) b (g_useCudaBaseImage g) (g_useCogBaseImage g).

Definition SetUseCudaBaseImage (g : Generator) (s : string) : Generator :=
  mkGenerator (g_cfg g) (g_dir g) (g_fast g) (g_localImage g)
    (g_strip g) (g_precompile g) s (g_useCogBaseImage g).

Definition SetUseCogBaseImage (g : Generator) (b : bool) : Generator :=
  mkGenerator (g_cfg g) (g_dir g) (g_fast g) (g_localImage g)
    (g_strip g) (g_precompile g) (g_useCudaBaseImage g) b.

(** Modelled from the spec: a weights manifest of [pkg/weights] describes
    the weight files by path and content hash, and two manifests are
    [Equal] iff they have the same paths with the same hashes. *)
Definition Manifest_Equal (m other : gmap string string) : bool :=
  bool_decide (m = other).

(** A compiled ignore file answers whether it matches a path. *)
Definition Matcher : Type := string -> bool.
Definition MatchesPath (m : Matcher) (path : string) : bool := m path.

(** The arguments of one [docker.Build] call. *)
Record BuildArgs : Type := mkBuildArgs {
  b_dir : string;
  b_dockerfile : string;
  b_imageName : string;
  b_secrets : list string;
  b_noCache : bool;
  b_progressOutput : string;
  b_epoch : Z;
  b_contextDir : string;
  b_buildContexts : gmap string string
}.

(** The three results of [GenerateModelBaseWithSeparateWeights]. *)
Record SplitDockerfiles : Type := mkSplit {
  weightsDockerfile : string;
  runnerDockerfile : string;
  dockerignoreContents : string
}.

(** ** Operations on files *)

Inductive FsOp : Type :=
| OpStat (path : string)
| OpReadFile (path : string)
| OpWriteFile (path data : string) (perm : N)
| OpRename (oldpath newpath : string)
| OpRemove (path : string)
| OpLoadManifest (path : string)
| OpSaveManifest (path : string) (m : gmap string string).

(** ** The trace of collaborator calls

    Each event is a call with its arguments and its outcome. *)
Inductive Event : Type :=
| EConsole (level msg : string)
| ECreateMatcher (dir : string) (r : Res (option Matcher))
| EDockerBuild (a : BuildArgs) (r : Res unit)
| ENewGenerator (cfg : Config) (dir : string) (fast localImage : bool) (r : Res Generator)
| EBuildDir (g : Generator) (r : Res string)
| EBuildContexts (g : Generator) (r : Res (gmap string string))
| ECleanup (g : Generator) (r : Res unit)
| EBaseImage (g : Generator) (r : Res string)
| EGenerateModelBaseWithSeparateWeights (g : Generator) (imageName : string) (r : Res SplitDockerfiles)
| EGenerateWeightsManifest (g : Generator) (r : Res (gmap string string))
| EGenerateDockerfileWithoutSeparateWeights (g : Generator) (r : Res string)
| ELoadManifest (path : string) (r : option (gmap string string) * option error)
| ESaveManifest (m : gmap string string) (path : string) (r : Res unit)
| EGenerateOpenAPISchema (imageName : string) (gpu : bool) (r : Res string)
| EMarshalSchema (schema : string) (r : Res string)
| ELoadFromData (data : string) (r : Res string)
| EValidate (doc : string) (r : Res unit)
| EMarshalConfig (cfg : Config) (r : Res string)
| EGeneratePipFreeze (imageName : string) (fast : bool) (r : Res string)
| EParseReference (name : string) (r : Res string)
| ERemoteImage (ref : string) (r : Res string)
| ELayers (img : string) (r : Res (list string))
| EDiffID (layer : string) (r : Res string)
| EExec (timeout : Z) (argv : list string) (r : Res string)
| EAddLabels (imageName : string) (labels : gmap string string) (schemaFile schemaPy : string) (r : Res unit).

(** ** State *)

Record State : Type := mkState {
  fs : gmap string string;                    (* files read and written through [os] *)
  manifests : gmap string (gmap string string); (* persisted weights manifests, by path *)
  environ : gmap string string;               (* the process environment *)
  trace : list Event;                         (* collaborator calls, most recent first *)
  defers : list Generator                     (* pending [defer generator.Cleanup()] *)
}.

Definition set_fs (f : gmap string string -> gmap string string) (w : State) : State :=
  mkState (f (fs w)) (manifests w) (environ w) (trace w) (defers w).

Definition set_manifests
    (f : gmap string (gmap string string) -> gmap string (gmap string string))
    (w : State) : State :=
  mkState (fs w) (f (manifests w)) (environ w) (trace w) (defers w).

Definition push (e : Event) (w : State) : State :=
  mkState (fs w) (manifests w) (environ w) (e :: trace w) (defers w).

Definition set_defers (d : list Generator) (w : State) : State :=
  mkState (fs w) (manifests w) (environ w) (trace w) d.

(** The state in which a build starts: nothing called, nothing deferred. *)
Definition initial
    (files : gmap string string) (persisted : gmap string (gmap string string))
    (env : gmap string string) : State :=
  mkState files persisted env [] [].

(** ** The collaborators

    The outcome of every call the source makes outside this file.  An
    oracle sees the arguments of the call and the state in which it is
    made, so its answers may differ from one call to the next. *)
Record Externals : Type := mkExternals {
  (* constants declared in other packages *)
  global_Version : string;
  global_LabelNamespace : string;
  CogVersionLabelKey : string;
  CogConfigLabelKey : string;
  DockerignoreHeader : string;
  BuildSourceEpochTimestamp : Z;
  StandardBuildDirectory : string;
  (* bytes.TrimSpace and strings.TrimSpace *)
  TrimSpace : string -> string;
  (* a file operation may fail for a reason of the operating system *)
  os_fault : FsOp -> State -> option error;
  (* pkg/dockerignore *)
  x_CreateMatcher : string -> State -> Res (option Matcher);
  (* pkg/docker *)
  x_docker_Build : BuildArgs -> State -> Res unit;
  x_AddLabels : string -> gmap string string -> string -> string -> State -> Res unit;
  (* pkg/dockerfile *)
  x_NewGenerator : Config -> string -> bool -> bool -> State -> Res Generator;
  x_BuildDir : Generator -> State -> Res string;
  x_BuildContexts : Generator -> State -> Res (gmap string string);
  x_Cleanup : Generator -> State -> Res unit;
  x_IsUsingCogBaseImage : Generator -> bool;
  x_BaseImage : Generator -> State -> Res string;
  x_GenerateModelBaseWithSeparateWeights : Generator -> string -> State -> Res SplitDockerfiles;
  x_GenerateWeightsManifest : Generator -> State -> Res (gmap string string);
  x_GenerateDockerfileWithoutSeparateWeights : Generator -> State -> Res string;
  (* schema tooling: image introspection, encoding/json, kin-openapi *)
  x_GenerateOpenAPISchema : string -> bool -> State -> Res string;
  x_MarshalSchema : string -> State -> Res string;
  x_LoadFromData : string -> State -> Res string;
  x_Validate : string -> State -> Res unit;
  x_MarshalConfig : Config -> State -> Res string;
  x_GeneratePipFreeze : string -> bool -> State -> Res string;
  (* go-containerregistry *)
  x_ParseReference : string -> State -> Res string;
  x_RemoteImage : string -> State -> Res string;
  x_Layers : string -> State -> Res (list string);
  x_DiffID : string -> State -> Res string;
  (* os/exec, with the timeout of the context in seconds *)
  x_exec_Output : Z -> list string -> State -> Res string
}.

(** ** The monad *)

Definition M (A : Type) : Type := State -> Res A * State.

Definition ret {A} (a : A) : M A := fun w => (Ok a, w).

Definition fail {A} (e : error) : M A := fun w => (Err e, w).

Definition bind {A B} (m : M A) (k : A -> M B) : M B := fun w =>
  match m w with
  | (Ok a, w') => k a w'
  | (Err e, w') => (Err e, w')
  end.

(** [if err := m; err != nil { return f(err) }] *)
Definition wrap {A} (f : error -> error) (m : M A) : M A := fun w =>
  match m w with
  | (Ok a, w') => (Ok a, w')
  | (Err e, w') => (Err (f e), w')
  end.

(** The caller inspects the error itself: [v, err := m]. *)
Definition try {A} (m : M A) : M (Res A) := fun w =>
  let '(r, w') := m w in (Ok r, w').

(** [_ = m] *)
Definition ignore {A} (m : M A) : M unit := fun w =>
  let '(_, w') := m w in (Ok tt, w').

Declare Scope build_scope.
Delimit Scope build_scope with build.
Notation "x <- m ;; k" := (bind m (fun x => k))
  (at level 100, m at next level, k at level 200, right associativity) : build_scope.
Notation "m ;; k" := (bind m (fun _ => k))
  (at level 100, k at level 200, right associativity) : build_scope.
Open Scope build_scope.

Definition emit (e : Event) : M unit := fun w => (Ok tt, push e w).

(** A collaborator call: ask the oracle, log the call with its outcome. *)
Definition extern {A} (oracle : State -> Res A) (ev : Res A -> Event) : M A := fun w =>
  let r := oracle w in (r, push (ev r) w).

Definition console_Info (msg : string) : M unit := emit (EConsole "info" msg).
Definition console_Warn (msg : string) : M unit := emit (EConsole "warn" msg).
Definition console_Debug (msg : string) : M unit := emit (EConsole "debug" msg).

(** [fmt.Sprintf("%d", n)] for a non-negative [n] *)
Definition Sprintf_d (n : nat) : string := NilZero.string_of_uint (Nat.to_uint n).

(** The string of the one character [\n]. *)
Definition newline : string := String (Ascii.ascii_of_nat 10) EmptyString.

(** ** Constants of the file *)

Definition dockerignorePath : string := ".dockerignore".
Definition dockerignoreBackupPath : string := ".dockerignore.cog.bak".
Definition weightsManifestPath : string := ".cog/cache/weights_manifest.json".
Definition bundledSchemaFile : string := ".cog/openapi_schema.json".
Definition bundledSchemaPy : string := ".cog/schema.py".
Definition errGit : error := ErrMsg "git error".

Section Model.

Variable X : Externals.

(** ** The [os] package over the file map

    Each call first asks [os_fault] whether the operating system refuses
    it; a refused call changes nothing.  Otherwise it has its effect on
    the map, and fails only on a missing file. *)

Definition os_Stat (path : string) : M unit := fun w =>
  match os_fault X (OpStat path) w with
  | Some e => (Err e, w)
  | None =>
      match fs w !! path with
      | Some _ => (Ok tt, w)
      | None => (Err (ErrNotExist path), w)
      end
  end.

Definition os_ReadFile (path : string) : M string := fun w =>
  match os_fault X (OpReadFile path) w with
  | Some e => (Err e, w)
  | None =>
      match fs w !! path with
      | Some data => (Ok data, w)
      | None => (Err (ErrNotExist path), w)
      end
  end.

Definition os_WriteFile (path data : string) (perm : N) : M unit := fun w =>
  match os_fault X (OpWriteFile path data perm) w with
  | Some e => (Err e, w)
  | None => (Ok tt, set_fs (insert path data) w)
  end.

Definition os_Rename (oldpath newpath : string) : M unit := fun w =>
  match os_fault X (OpRename oldpath newpath) w with
  | Some e => (Err e, w)
  | None =>
      match fs w !! oldpath with
      | Some data => (Ok tt, set_fs (fun f => <[newpath := data]> (delete oldpath f)) w)
      | None => (Err (ErrNotExist oldpath), w)
      end
  end.

Definition os_Remove (path : string) : M unit := fun w =>
  match os_fault X (OpRemove path) w with
  | Some e => (Err e, w)
  | None =>
      match fs w !! path with
      | Some _ => (Ok tt, set_fs (delete path) w)
      | None => (Err (ErrNotExist path), w)
      end
  end.

(** [v, ok := os.LookupEnv(key)] *)
Definition os_LookupEnv (key : string) : M (string * bool) := fun w =>
  match environ w !! key with
  | Some v => (Ok (v, true), w)
  | None => (Ok ("", false), w)
  end.

(** ** The weights manifest on disk *)

(** Modelled from the spec: [weights.LoadManifest] of [pkg/weights] reads
    the manifest persisted at [path], if any; it gives a manifest or an
    error, never both. *)
Definition weights_LoadManifest (path : string)
    : M (option (gmap string string) * option error) := fun w =>
  let r :=
    match os_fault X (OpLoadManifest path) w with
    | Some e => (None, Some e)
    | None =>
        match manifests w !! path with
        | Some m => (Some m, None)
        | None => (None, Some (ErrNotExist path))
        end
    end in
  (Ok r, push (ELoadManifest path r) w).

(** Modelled from the spec: [Manifest.Save] of [pkg/weights] persists the
    manifest at [path], replacing the one of an earlier build. *)
Definition Manifest_Save (m : gmap string string) (path : string) : M unit := fun w =>
  match os_fault X (OpSaveManifest path m) w with
  | Some e => (Err e, push (ESaveManifest m path (Err e)) w)
  | None => (Ok tt, push (ESaveManifest m path (Ok tt)) (set_manifests (insert path m) w))
  end.

(** ** Collaborator calls *)

Definition dockerignore_CreateMatcher (dir : string) : M (option Matcher) :=
  extern (x_CreateMatcher X dir) (ECreateMatcher dir).

Definition docker_Build
    (dir dockerfileContents imageName : string) (secrets : list string)
    (noCache : bool) (progressOutput : string) (epoch : Z) (contextDir : string)
    (buildContexts : gmap string string) : M unit :=
  let a := mkBuildArgs dir dockerfileContents imageName secrets noCache
             progressOutput epoch contextDir buildContexts in
  extern (x_docker_Build X a) (EDockerBuild a).

Definition docker_BuildAddLabelsAndSchemaToImage
    (imageName : string) (labels : gmap string string) (schemaFile schemaPy : string)
    : M unit :=
  extern (x_AddLabels X imageName labels schemaFile schemaPy)
         (EAddLabels imageName labels schemaFile schemaPy).

Definition dockerfile_NewGenerator
    (cfg : Config) (dir : string) (fastFlag localImage : bool) : M Generator :=
  extern (x_NewGenerator X cfg dir fastFlag localImage)
         (ENewGenerator cfg dir fastFlag localImage).

Definition generator_BuildDir (g : Generator) : M string :=
  extern (x_BuildDir X g) (EBuildDir g).

Definition generator_BuildContexts (g : Generator) : M (gmap string string) :=
  extern (x_BuildContexts X g) (EBuildContexts g).

Definition generator_Cleanup (g : Generator) : M unit :=
  extern (x_Cleanup X g) (ECleanup g).

Definition generator_BaseImage (g : Generator) : M string :=
  extern (x_BaseImage X g) (EBaseImage g).

Definition generator_GenerateModelBaseWithSeparateWeights
    (g : Generator) (imageName : string) : M SplitDockerfiles :=
  extern (x_GenerateModelBaseWithSeparateWeights X g imageName)
         (EGenerateModelBaseWithSeparateWeights g imageName).

Definition generator_GenerateWeightsManifest (g : Generator) : M (gmap string string) :=
  extern (x_GenerateWeightsManifest X g) (EGenerateWeightsManifest g).

Definition generator_GenerateDockerfileWithoutSeparateWeights (g : Generator) : M string :=
  extern (x_GenerateDockerfileWithoutSeparateWeights X g)
         (EGenerateDockerfileWithoutSeparateWeights g).

Definition GenerateOpenAPISchema (imageName : string) (gpu : bool) : M string :=
  extern (x_GenerateOpenAPISchema X imageName gpu) (EGenerateOpenAPISchema imageName gpu).

Definition json_Marshal_schema (schema : string) : M string :=
  extern (x_MarshalSchema X schema) (EMarshalSchema schema).

Definition json_Marshal_config (cfg : Config) : M string :=
  extern (x_MarshalConfig X cfg) (EMarshalConfig cfg).

Definition loader_LoadFromData (data : string) : M string :=
  extern (x_LoadFromData X data) (ELoadFromData data).

Definition doc_Validate (doc : string) : M unit :=
  extern (x_Validate X doc) (EValidate doc).

Definition GeneratePipFreeze (imageName : string) (fastFlag : bool) : M string :=
  extern (x_GeneratePipFreeze X imageName fastFlag) (EGeneratePipFreeze imageName fastFlag).

Definition name_ParseReference (name : string) : M string :=
  extern (x_ParseReference X name) (EParseReference name).

Definition remote_Image (ref : string) : M string :=
  extern (x_RemoteImage X ref) (ERemoteImage ref).

Definition img_Layers (img : string) : M (list string) :=
  extern (x_Layers X img) (ELayers img).

Definition layer_DiffID (layer : string) : M string :=
  extern (x_DiffID X layer) (EDiffID layer).

(** [exec.CommandContext(ctx, argv...).Output()] under a context that
    times out after [timeout] seconds. *)
Definition exec_Output (timeout : Z) (argv : list string) : M string :=
  extern (x_exec_Output X timeout argv) (EExec timeout argv).

(** ** The ignore file: backup, write, restore (lines 386-426) *)

Definition writeDockerignore (contents : string) : M unit :=
  st <- try (os_Stat dockerignoreBackupPath) ;;
  contents <-
    match st with
    | Ok _ =>
        existingContents <- os_ReadFile dockerignoreBackupPath ;;
        ret (existingContents ++ newline ++ contents)
    | Err _ => ret contents
    end ;;
  os_WriteFile dockerignorePath contents 420.

Definition backupDockerignore : M unit :=
  st <- try (os_Stat dockerignorePath) ;;
  match st with
  | Err err =>
      if os_IsNotExist err then ret tt else fail err
  | Ok _ => os_Rename dockerignorePath dockerignoreBackupPath
  end.

Definition restoreDockerignore : M unit :=
  os_Remove dockerignorePath ;;
  st <- try (os_Stat dockerignoreBackupPath) ;;
  match st with
  | Err err =>
      if os_IsNotExist err then ret tt else fail err
  | Ok _ => os_Rename dockerignoreBackupPath dockerignorePath
  end.

(** ** The two image builds (lines 352-384) *)

Definition makeDockerignoreForWeightsImage : M unit :=
  wrap (Errorf_w "Failed to backup .dockerignore file: ") backupDockerignore ;;
  wrap (Errorf_w "Failed to write .dockerignore file: ")
       (writeDockerignore (DockerignoreHeader X)).

Definition buildWeightsImage
    (dir dockerfileContents imageName : string) (secrets : list string)
    (noCache : bool) (progressOutput contextDir : string)
    (buildContexts : gmap string string) : M unit :=
  wrap (Errorf_w "Failed to create .dockerignore file: ") makeDockerignoreForWeightsImage ;;
  wrap (Errorf_w "Failed to build Docker image for model weights: ")
       (docker_Build dir dockerfileContents imageName secrets noCache progressOutput
          (BuildSourceEpochTimestamp X) contextDir buildContexts).

Definition buildRunnerImage
    (dir dockerfileContents dockerignoreContents imageName : string)
    (secrets : list string) (noCache : bool) (progressOutput contextDir : string)
    (buildContexts : gmap string string) : M unit :=
  wrap (Errorf_w "Failed to write .dockerignore file with weights included: ")
       (writeDockerignore dockerignoreContents) ;;
  wrap (Errorf_w "Failed to build Docker image: ")
       (docker_Build dir dockerfileContents imageName secrets noCache progressOutput
          (BuildSourceEpochTimestamp X) contextDir buildContexts) ;;
  wrap (Errorf_w "Failed to restore backup .dockerignore file: ") restoreDockerignore.

(** ** The check of the ignore file (lines 428-441) *)

Definition checkCompatibleDockerIgnore (dir : string) : M unit :=
  matcher <- dockerignore_CreateMatcher dir ;;
  match matcher with
  | None => ret tt
  | Some m =>
      if MatchesPath m ".cog"
      then fail (ErrMsg "The .cog tmp path cannot be ignored by docker in .dockerignore.")
      else ret tt
  end.

(** ** Commit and tag (lines 300-350) *)

Definition isGitWorkTree (dir : string) : M bool :=
  r <- try (exec_Output 3 ["git"; "-C"; dir; "rev-parse"; "--is-inside-work-tree"]) ;;
  match r with
  | Err _ => ret false
  | Ok out => ret (bool_decide (TrimSpace X out = "true"))
  end.

(** The Go functions return [(v, nil)] or [("", err)]: a [Res string]. *)
Definition gitHead (dir : string) : M string :=
  env <- os_LookupEnv "GITHUB_SHA" ;;
  if snd env && bool_decide (fst env <> "") then ret (fst env)
  else
    inTree <- isGitWorkTree dir ;;
    if inTree : bool then
      out <- exec_Output 3 ["git"; "-C"; dir; "rev-parse"; "HEAD"] ;;
      ret (TrimSpace X out)
    else fail (Errorf_w "Failed to find HEAD commit: " errGit).

Definition gitTag (dir : string) : M string :=
  env <- os_LookupEnv "GITHUB_REF_NAME" ;;
  if snd env && bool_decide (fst env <> "") then ret (fst env)
  else
    inTree <- isGitWorkTree dir ;;
    if inTree : bool then
      out <- exec_Output 3 ["git"; "-C"; dir; "describe"; "--tags"; "--dirty"] ;;
      ret (TrimSpace X out)
    else fail (Errorf_w "Failed to find ref name: " errGit).

(** ** [Build] (lines 39-258)

    The body of [Build] is cut into blocks that follow the source from top
    to bottom; the parameters of [Build] are in scope in each of them, as
    they are in the Go function. *)

Section BuildFunction.

Variables (cfg : Config) (dir imageName : string) (secrets : list string)
  (noCache separateWeights : bool)
  (useCudaBaseImage progressOutput schemaFile dockerfileFile : string)
  (useCogBaseImage : option bool) (strip precompile fastFlag : bool)
  (annotations : gmap string string) (localImage : bool).

(** Lines 56-62: the Dockerfile given by the caller is built as it is.
    [buildContexts] is [nil] here, the empty map. *)
Definition Build_withDockerfile : M unit :=
  dockerfileContents <-
    wrap (Errorf_w ("Failed to read Dockerfile at " ++ dockerfileFile ++ ": "))
         (os_ReadFile dockerfileFile) ;;
  wrap (Errorf_w "Failed to build Docker image: ")
       (docker_Build dir dockerfileContents imageName secrets noCache progressOutput
          (BuildSourceEpochTimestamp X) (StandardBuildDirectory X) ∅).

(** Lines 97-126: weights image, if the manifest changed, then runner image. *)
Definition Build_withSeparateWeights
    (generator : Generator) (contextDir : string) (buildContexts : gmap string string)
    : M unit :=
  split <-
    wrap (Errorf_w "Failed to generate Dockerfile: ")
         (generator_GenerateModelBaseWithSeparateWeights generator imageName) ;;
  wrap (Errorf_w "Failed to backup .dockerignore file: ") backupDockerignore ;;
  weightsManifest <-
    wrap (Errorf_w "Failed to generate weights manifest: ")
         (generator_GenerateWeightsManifest generator) ;;
  loaded <- weights_LoadManifest weightsManifestPath ;;
  let cachedManifest := fst loaded in
  let changed :=
    match cachedManifest with
    | None => true
    | Some cached => negb (Manifest_Equal weightsManifest cached)
    end in
  (if changed then
     wrap (Errorf_w "Failed to build model weights Docker image: ")
          (buildWeightsImage dir (weightsDockerfile split) (imageName ++ "-weights")
             secrets noCache progressOutput contextDir buildContexts) ;;
     wrap (Errorf_w "Failed to save weights hash: ")
          (Manifest_Save weightsManifest weightsManifestPath)
   else
     console_Info "Weights unchanged, skip rebuilding and use cached image...") ;;
  wrap (Errorf_w "Failed to build runner Docker image: ")
       (buildRunnerImage dir (runnerDockerfile split) (dockerignoreContents split)
          imageName secrets noCache progressOutput contextDir buildContexts).

(** Lines 128-134: one image from one generated Dockerfile. *)
Definition Build_withoutSeparateWeights
    (generator : Generator) (contextDir : string) (buildContexts : gmap string string)
    : M unit :=
  dockerfileContents <-
    wrap (Errorf_w "Failed to generate Dockerfile: ")
         (generator_GenerateDockerfileWithoutSeparateWeights generator) ;;
  wrap (Errorf_w "Failed to build Docker image: ")
       (docker_Build dir dockerfileContents imageName secrets noCache progressOutput
          (BuildSourceEpochTimestamp X) contextDir buildContexts).

(** [defer func() { generator.Cleanup() ... }()]: runs when [Build] returns. *)
Definition defer_Cleanup (generator : Generator) : M unit := fun w =>
  (Ok tt, set_defers (generator :: defers w) w).

(** Lines 64-135: the image is built from generated instructions; the
    result is [cogBaseImageName].  The deferred cleanup acts on the
    generator object, which the four setters that follow the [defer]
    statement mutate and which cannot fail: the object it will see is the
    one registered here. *)
Definition Build_withGenerator : M string :=
  generator <-
    wrap (Errorf_w "Error creating Dockerfile generator: ")
         (dockerfile_NewGenerator cfg dir fastFlag localImage) ;;
  contextDir <- generator_BuildDir generator ;;
  buildContexts <- generator_BuildContexts generator ;;
  let generator := SetStrip generator strip in
  let generator := SetPrecompile generator precompile in
  let generator := SetUseCudaBaseImage generator useCudaBaseImage in
  let generator :=
    match useCogBaseImage with
    | Some b => SetUseCogBaseImage generator b
    | None => generator
    end in
  defer_Cleanup generator ;;
  cogBaseImageName <-
    (if x_IsUsingCogBaseImage X generator
     then wrap (Errorf_s "Failed to get cog base image name: ")
               (generator_BaseImage generator)
     else ret "") ;;
  (if separateWeights
   then Build_withSeparateWeights generator contextDir buildContexts
   else Build_withoutSeparateWeights generator contextDir buildContexts) ;;
  ret cogBaseImageName.

(** Lines 53-136. *)
Definition Build_image : M string :=
  if decide (dockerfileFile ≠ "")
  then Build_withDockerfile ;; ret ""
  else Build_withGenerator.

(** Lines 138-176: the schema is read or generated, stored, then validated;
    the result is [schemaJSON]. *)
Definition Build_schema : M string :=
  schemaJSON <-
    (if decide (schemaFile ≠ "") then
       console_Info ("Validating model schema from " ++ schemaFile ++ "...") ;;
       wrap (Errorf_w "Failed to read schema file: ") (os_ReadFile schemaFile)
     else
       console_Info "Validating model schema..." ;;
       schema <-
         wrap (Errorf_w "Failed to get type signature: ")
              (GenerateOpenAPISchema imageName (Build_GPU cfg)) ;;
       wrap (Errorf_w "Failed to convert type signature to JSON: ")
            (json_Marshal_schema schema)) ;;
  wrap (Errorf_w ("failed to store bundled schema file " ++ bundledSchemaFile ++ ": "))
       (os_WriteFile bundledSchemaFile schemaJSON 420) ;;
  doc <-
    wrap (Errorf_w "Failed to load model schema JSON: ") (loader_LoadFromData schemaJSON) ;;
  wrap (fun err => ErrWrap "Model schema is invalid: " err (newline ++ newline ++ schemaJSON))
       (doc_Validate doc) ;;
  ret schemaJSON.

(** Lines 193-201: the labels every image gets. *)
Definition Build_baseLabels (configJSON schemaJSON pipFreeze : string) : gmap string string :=
  <[global_LabelNamespace X ++ "has_init" := "true"]>
  (<[global_LabelNamespace X ++ "pip_freeze" := pipFreeze]>
  (<[global_LabelNamespace X ++ "openapi_schema" := schemaJSON]>
  (<[CogConfigLabelKey X := TrimSpace X configJSON]>
  (<[CogVersionLabelKey X := global_Version X]> ∅)))).

(** Lines 203-236: the lineage of a managed base image. *)
Definition Build_cogBaseImageLabels
    (cogBaseImageName : string) (labels : gmap string string) : M (gmap string string) :=
  if decide (cogBaseImageName ≠ "") then
    let labels := <[global_LabelNamespace X ++ "cog-base-image-name" := cogBaseImageName]> labels in
    ref <-
      wrap (Errorf_w "Failed to parse cog base image reference: ")
           (name_ParseReference cogBaseImageName) ;;
    img <- wrap (Errorf_w "Failed to fetch cog base image: ") (remote_Image ref) ;;
    layers <- wrap (Errorf_w "Failed to get layers for cog base image: ") (img_Layers img) ;;
    if decide (length layers = 0) then
      fail (ErrMsg ("Cog base image has no layers: " ++ cogBaseImageName))
    else
      let lastLayerIndex := length layers - 1 in
      match layers !! lastLayerIndex with
      | None => fail (ErrMsg "index out of range")
      | Some layer =>
          lastLayer <-
            wrap (Errorf_w "Failed to get last layer digest for cog base image: ")
                 (layer_DiffID layer) ;;
          console_Debug ("Last layer of the cog base image: " ++ lastLayer) ;;
          let labels :=
            <[global_LabelNamespace X ++ "cog-base-image-last-layer-sha" := lastLayer]> labels in
          let labels :=
            <[global_LabelNamespace X ++ "cog-base-image-last-layer-idx"
                := Sprintf_d lastLayerIndex]> labels in
          ret labels
      end
  else ret labels.

(** Lines 238-248: commit and tag, when they can be found. *)
Definition Build_provenanceLabels (labels : gmap string string) : M (gmap string string) :=
  head <- try (gitHead dir) ;;
  let commit := res_value head in
  labels <-
    (if bool_decide (commit <> "") && is_ok head
     then ret (<["org.opencontainers.image.revision" := commit]> labels)
     else console_Info "Unable to determine Git commit" ;; ret labels) ;;
  tag <- try (gitTag dir) ;;
  let tag' := res_value tag in
  if bool_decide (tag' <> "") && is_ok tag
  then ret (<["org.opencontainers.image.version" := tag']> labels)
  else console_Info "Unable to determine Git tag" ;; ret labels.

(** Lines 250-252: [for key, val := range annotations { labels[key] = val }] *)
Definition Build_annotate (labels : gmap string string) : gmap string string :=
  map_fold (fun key val acc => <[key := val]> acc) labels annotations.

(** Lines 178-257. *)
Definition Build_labels (cogBaseImageName schemaJSON : string) : M unit :=
  console_Info "Adding labels to image..." ;;
  configJSON <-
    wrap (Errorf_w "Failed to convert config to JSON: ") (json_Marshal_config cfg) ;;
  pipFreeze <-
    wrap (Errorf_w "Failed to generate pip freeze from image: ")
         (GeneratePipFreeze imageName fastFlag) ;;
  let labels := Build_baseLabels configJSON schemaJSON pipFreeze in
  labels <- Build_cogBaseImageLabels cogBaseImageName labels ;;
  labels <- Build_provenanceLabels labels ;;
  let labels := Build_annotate labels in
  wrap (Errorf_w "Failed to add labels to image: ")
       (docker_BuildAddLabelsAndSchemaToImage imageName labels
          bundledSchemaFile bundledSchemaPy).

(** Lines 40-51: stale bundled schema files go, the ignore file is checked. *)
Definition Build_init : M unit :=
  console_Info ("Building Docker image from environment in cog.yaml as " ++ imageName ++ "...") ;;
  (if fastFlag then console_Info "Fast build enabled." else ret tt) ;;
  ignore (os_Remove bundledSchemaFile) ;;
  ignore (os_Remove bundledSchemaPy) ;;
  checkCompatibleDockerIgnore dir.

(** Lines 40-257, up to the deferred calls. *)
Definition Build_body : M unit :=
  Build_init ;;
  cogBaseImageName <- Build_image ;;
  schemaJSON <- Build_schema ;;
  Build_labels cogBaseImageName schemaJSON.

(** The deferred calls, last registered first; a failed cleanup is only
    warned about. *)
Fixpoint run_defers (ds : list Generator) (w : State) : State :=
  match ds with
  | [] => w
  | generator :: ds' =>
      let '(r, w1) := generator_Cleanup generator w in
      let w2 :=
        match r with
        | Err err =>
            snd (console_Warn ("Error cleaning up Dockerfile generator: " ++ err_text err) w1)
        | Ok _ => w1
        end in
      run_defers ds' w2
  end.

Definition Build : M unit := fun w =>
  let '(r, w') := Build_body w in
  (r, run_defers (defers w') (set_defers [] w')).

End BuildFunction.

End Model.

(** ** Reading a trace *)

(** The [docker.Build] calls of a trace with their outcomes, oldest first. *)
Fixpoint docker_builds_rev (t : list Event) : list (BuildArgs * Res unit) :=
  match t with
  | [] => []
  | EDockerBuild a r :: t' => (a, r) :: docker_builds_rev t'
  | _ :: t' => docker_builds_rev t'
  end.

Definition docker_builds (t : list Event) : list (BuildArgs * Res unit) :=
  rev (docker_builds_rev t).

(** The part of [Build] in which a call is made. *)
Inductive Phase : Type := PCheck | PImage | PSchema | PLabels | PCleanup.

Definition phase_eqb (p q : Phase) : bool :=
  match p, q with
  | PCheck, PCheck | PImage, PImage | PSchema, PSchema
  | PLabels, PLabels | PCleanup, PCleanup => true
  | _, _ => false
  end.

(** The two notes of lines 241 and 247. *)
Definition provenance_note (msg : string) : bool :=
  String.prefix "Unable to determine Git" msg.

(** [in_phase p e]: the event [e] can come from phase [p].  Console
    output comes from every phase, except that only the labelling phase
    writes the provenance notes. *)
Definition in_phase (p : Phase) (e : Event) : bool :=
  match e with
  | EConsole _ msg => if provenance_note msg then phase_eqb p PLabels else true
  | ECreateMatcher _ _ => phase_eqb p PCheck
  | EDockerBuild _ _
  | ENewGenerator _ _ _ _ _
  | EBuildDir _ _
  | EBuildContexts _ _
  | EBaseImage _ _
  | EGenerateModelBaseWithSeparateWeights _ _ _
  | EGenerateWeightsManifest _ _
  | EGenerateDockerfileWithoutSeparateWeights _ _
  | ELoadManifest _ _
  | ESaveManifest _ _ _ => phase_eqb p PImage
  | EGenerateOpenAPISchema _ _ _
  | EMarshalSchema _ _
  | ELoadFromData _ _
  | EValidate _ _ => phase_eqb p PSchema
  | EMarshalConfig _ _
  | EGeneratePipFreeze _ _ _
  | EParseReference _ _
  | ERemoteImage _ _
  | ELayers _ _
  | EDiffID _ _
  | EExec _ _ _
  | EAddLabels _ _ _ _ _ => phase_eqb p PLabels
  | ECleanup _ _ => phase_eqb p PCleanup
  end.

(** What a piece of the program may touch: the events it may log, the
    files it may change, and whether it may persist manifests or register
    deferred calls. *)
Record Frame : Type := mkFrame {
  f_event : Event -> bool;
  f_path : string -> bool;
  f_manifest : bool;
  f_defer : bool
}.

Definition within (F : Frame) (w w' : State) : Prop :=
  (exists new, trace w' = (new ++ trace w)%list /\ forallb (f_event F) new = true)
  /\ (forall p, f_path F p = false -> fs w' !! p = fs w !! p)
  /\ (f_manifest F = false -> manifests w' = manifests w)
  /\ environ w' = environ w
  /\ (f_defer F = false -> defers w' = defers w).

(** Every run of [m] stays in the relation [R]. *)
Definition run_rel {A} (m : M A) (R : State -> State -> Prop) : Prop :=
  forall w r w', m w = (r, w') -> R w w'.

Definition is_path (l : list string) (p : string) : bool :=
  bool_decide (p ∈ l).

Definition F_check : Frame :=
  mkFrame (in_phase PCheck) (is_path [bundledSchemaFile; bundledSchemaPy]) false false.
Definition F_image : Frame :=
  mkFrame (in_phase PImage) (is_path [dockerignorePath; dockerignoreBackupPath]) true true.
Definition F_schema : Frame :=
  mkFrame (in_phase PSchema) (is_path [bundledSchemaFile]) false false.
Definition F_labels : Frame :=
  mkFrame (in_phase PLabels) (is_path []) false false.
Definition F_cleanup : Frame :=
  mkFrame (in_phase PCleanup) (is_path []) false true.

(** The operating system refuses no file operation. *)
Definition no_faults (X : Externals) : Prop :=
  forall op w, os_fault X op w = None.

(** The operating system refuses nothing but, possibly, the read of a
    persisted manifest. *)
Definition only_load_faults (X : Externals) : Prop :=
  forall op w, (forall p, op <> OpLoadManifest p) -> os_fault X op w = None.

(** ** Names used in the statements *)

(** What [writeDockerignore] writes: the backup, if there is one, then the
    new contents. *)
Definition written (contents : string) (w : State) : string :=
  match fs w !! dockerignoreBackupPath with
  | Some existingContents => existingContents ++ newline ++ contents
  | None => contents
  end.

Definition git_probe (dir : string) : list string :=
  ["git"; "-C"; dir; "rev-parse"; "--is-inside-work-tree"].
Definition git_head (dir : string) : list string :=
  ["git"; "-C"; dir; "rev-parse"; "HEAD"].
Definition git_describe (dir : string) : list string :=
  ["git"; "-C"; dir; "describe"; "--tags"; "--dirty"].

Definition revision_key : string := "org.opencontainers.image.revision".
Definition version_key : string := "org.opencontainers.image.version".
Definition commit_note : Event := EConsole "info" "Unable to determine Git commit".
Definition tag_note : Event := EConsole "info" "Unable to determine Git tag".

Definition base_name_key (X : Externals) : string :=
  global_LabelNamespace X ++ "cog-base-image-name".
Definition base_sha_key (X : Externals) : string :=
  global_LabelNamespace X ++ "cog-base-image-last-layer-sha".
Definition base_idx_key (X : Externals) : string :=
  global_LabelNamespace X ++ "cog-base-image-last-layer-idx".

(** The version and configuration keys are declared in another package;
    they are not keys of the base-image lineage or of the provenance. *)
Definition label_keys_apart (X : Externals) : Prop :=
  forall k, In k [CogVersionLabelKey X; CogConfigLabelKey X] ->
    ~ In k [base_name_key X; base_sha_key X; base_idx_key X; revision_key; version_key].

(** Events of one kind. *)
Definition is_exec (e : Event) : bool :=
  match e with
  | EExec _ _ _ => true
  | _ => false
  end.

Definition is_provenance_event (e : Event) : bool :=
  match e with
  | EExec _ _ _ => true
  | EConsole _ msg => provenance_note msg
  | _ => false
  end.

Definition is_lineage_event (e : Event) : bool :=
  match e with
  | EParseReference _ _ | ERemoteImage _ _ | ELayers _ _ | EDiffID _ _ => true
  | EConsole _ msg => negb (provenance_note msg)
  | _ => false
  end.


Definition is_attach (e : Event) : bool :=
  match e with
  | EAddLabels _ _ _ _ _ => true
  | _ => false
  end.

Definition is_docker_build (e : Event) : bool :=
  match e with
  | EDockerBuild _ _ => true
  | _ => false
  end.

Definition F_git : Frame := mkFrame is_exec (is_path []) false false.
Definition F_provenance : Frame := mkFrame is_provenance_event (is_path []) false false.
Definition F_lineage : Frame := mkFrame is_lineage_event (is_path []) false false.

(** ** How far a run of [Build_body] gets *)

Section Stages.

Variable X : Externals.

Variables (cfg : Config) (dir imageName : string) (secrets : list string)
  (noCache separateWeights : bool)
  (useCudaBaseImage progressOutput schemaFile dockerfileFile : string)
  (useCogBaseImage : option bool) (strip precompile fastFlag : bool)
  (annotations : gmap string string) (localImage : bool).

Inductive Build_stages (w : State) : Res unit -> State -> Prop :=
| stop_init e w1 :
    Build_init X dir imageName fastFlag w = (Err e, w1) ->
    Build_stages w (Err e) w1
| stop_image w1 e w2 :
    Build_init X dir imageName fastFlag w = (Ok tt, w1) ->
    Build_image X cfg dir imageName secrets noCache separateWeights
      useCudaBaseImage progressOutput dockerfileFile useCogBaseImage
      strip precompile fastFlag localImage w1 = (Err e, w2) ->
    Build_stages w (Err e) w2
| stop_schema w1 cogBaseImageName w2 e w3 :
    Build_init X dir imageName fastFlag w = (Ok tt, w1) ->
    Build_image X cfg dir imageName secrets noCache separateWeights
      useCudaBaseImage progressOutput dockerfileFile useCogBaseImage
      strip precompile fastFlag localImage w1 = (Ok cogBaseImageName, w2) ->
    Build_schema X cfg imageName schemaFile w2 = (Err e, w3) ->
    Build_stages w (Err e) w3
| reach_labels w1 cogBaseImageName w2 schemaJSON w3 r w4 :
    Build_init X dir imageName fastFlag w = (Ok tt, w1) ->
    Build_image X cfg dir imageName secrets noCache separateWeights
      useCudaBaseImage progressOutput dockerfileFile useCogBaseImage
      strip precompile fastFlag localImage w1 = (Ok cogBaseImageName, w2) ->
    Build_schema X cfg imageName schemaFile w2 = (Ok schemaJSON, w3) ->
    Build_labels X cfg dir imageName fastFlag annotations
      cogBaseImageName schemaJSON w3 = (r, w4) ->
    Build_stages w r w4.

End Stages.

(** The last character of a string, to tell label keys apart. *)
Fixpoint last_ascii (s : string) : option Ascii.ascii :=
  match s with
  | EmptyString => None
  | String c EmptyString => Some c
  | String _ s' => last_ascii s'
  end.

Definition lineage_keys (X : Externals) : list string :=
  [base_name_key X; base_sha_key X; base_idx_key X].

(** The outcome of [Build] when its last step, the attachment of the
    labels, has outcome [ra]. *)
Definition attach_result (ra : Res unit) : Res unit :=
  match ra with
  | Ok _ => Ok tt
  | Err e => Err (Errorf_w "Failed to add labels to image: " e)
  end.

(** ** An instance of the collaborators

    Everything succeeds, except what the parameters say: [failing] tells
    the image names whose build fails, [layers] are the layers of the base
    image, [managed] whether the generator uses a managed base image,
    [valid] whether the schema validates, [git] whether [git] runs. *)
Definition demo (failing : string -> bool) (layers : list string)
    (managed valid git : bool) : Externals :=
  {| global_Version := "0.9.0";
     global_LabelNamespace := "run.cog.";
     CogVersionLabelKey := "run.cog.version";
     CogConfigLabelKey := "run.cog.config";
     DockerignoreHeader := "# generated by replicate/cog";
     BuildSourceEpochTimestamp := 0%Z;
     StandardBuildDirectory := ".";
     TrimSpace := fun s => s;
     os_fault := fun _ _ => None;
     x_CreateMatcher := fun _ w =>
       Ok (match fs w !! dockerignorePath with
           | Some pattern => Some (fun p => bool_decide (p = pattern))
           | None => None
           end);
     x_docker_Build := fun a _ =>
       if failing (b_imageName a) then Err (ErrMsg "exit status 1") else Ok tt;
     x_AddLabels := fun _ _ _ _ _ => Ok tt;
     x_NewGenerator := fun c d f l _ => Ok (mkGenerator c d f l false false "" managed);
     x_BuildDir := fun _ _ => Ok ".cog/tmp/build";
     x_BuildContexts := fun _ _ => Ok ∅;
     x_Cleanup := fun _ _ => Ok tt;
     x_IsUsingCogBaseImage := g_useCogBaseImage;
     x_BaseImage := fun _ _ => Ok "r8.im/cog-base:python3.12";
     x_GenerateModelBaseWithSeparateWeights := fun _ n _ =>
       Ok (mkSplit "FROM scratch" ("FROM " ++ n ++ "-weights") "weights/");
     x_GenerateWeightsManifest := fun _ _ => Ok {[ "weights/model.bin" := "sha256:aa" ]};
     x_GenerateDockerfileWithoutSeparateWeights := fun _ _ => Ok "FROM python:3.12";
     x_GenerateOpenAPISchema := fun _ _ _ => Ok "{}";
     x_MarshalSchema := fun s _ => Ok s;
     x_LoadFromData := fun d _ => Ok d;
     x_Validate := fun _ _ =>
       if valid then Ok tt else Err (ErrMsg "invalid components");
     x_MarshalConfig := fun c _ => Ok (cfg_source c);
     x_GeneratePipFreeze := fun _ _ _ => Ok "pip==24.0";
     x_ParseReference := fun n _ => Ok n;
     x_RemoteImage := fun r _ => Ok r;
     x_Layers := fun _ _ => Ok layers;
     x_DiffID := fun l _ => Ok ("sha256:" ++ l);
     x_exec_Output := fun _ argv _ =>
       if git then
         match last argv with
         | Some "--is-inside-work-tree" => Ok "true"
         | Some "HEAD" => Ok "4f2a9c1"
         | _ => Ok "v1.2.0"
         end
       else Err (ErrMsg "exec: git: executable file not found in $PATH") |}.

Definition demo_cfg : Config := mkConfig false "build: {}".

(** A run of [Build] on the instance, from given files and manifests, with
    an empty environment; the parameters that vary are those of the
    statements below. *)
Definition demo_Build (X : Externals) (separateWeights : bool)
    (schemaFile dockerfileFile : string) (annotations : gmap string string)
    (files : gmap string string) (persisted : gmap string (gmap string string))
    : Res unit * State :=
  Build X demo_cfg "." "model" [] false separateWeights "" "auto"
    schemaFile dockerfileFile None false false false annotations false
    (initial files persisted ∅).




(** The effect of the backup and of the restore on the files, when the
    operating system refuses nothing. *)
Definition backup_files (f : gmap string string) : gmap string string :=
  match f !! dockerignorePath with
  | Some contents => <[dockerignoreBackupPath := contents]> (delete dockerignorePath f)
  | None => f
  end.

Definition restore_files (f : gmap string string) : gmap string string :=
  match f !! dockerignoreBackupPath with
  | Some contents =>
      <[dockerignorePath := contents]> (delete dockerignoreBackupPath (delete dockerignorePath f))
  | None => delete dockerignorePath f
  end.

(** Image name, instructions and outcome of each build of a trace, oldest
    first. *)
Definition built (t : list Event) : list (string * string * Res unit) :=
  map (fun ar => (b_imageName (fst ar), b_dockerfile (fst ar), snd ar)) (docker_builds t).

(** Line 111. *)
Definition manifest_changed (weightsManifest : gmap string string)
    (cachedManifest : option (gmap string string)) : bool :=
  match cachedManifest with
  | None => true
  | Some cached => negb (Manifest_Equal weightsManifest cached)
  end.

(** The two ways a run goes on when the manifest changed: the weights
    build fails, and the persisted manifests stay; or it succeeds, the
    fresh manifest is persisted, and the runner image is built. *)
Definition rebuilt (imageName : string) (sp : SplitDockerfiles)
    (wm : gmap string string) (before : gmap string (gmap string string))
    (builds : list (string * string * Res unit))
    (after : gmap string (gmap string string)) : Prop :=
  (exists e, builds = [(imageName ++ "-weights", weightsDockerfile sp, Err e)]
             /\ after = before)
  \/ (exists rr, builds = [(imageName ++ "-weights", weightsDockerfile sp, Ok tt);
                          (imageName, runnerDockerfile sp, rr)]
                /\ after = <[weightsManifestPath := wm]> before).

(** The way it goes on when the manifest did not change: the runner image
    alone is built. *)
Definition reused (imageName : string) (sp : SplitDockerfiles)
    (before : gmap string (gmap string string))
    (builds : list (string * string * Res unit))
    (after : gmap string (gmap string string)) : Prop :=
  exists rr, builds = [(imageName, runnerDockerfile sp, rr)] /\ after = before.


(** ** The ignore file and its backup as a pair *)

(** What the pair of files holds: the ignore file, then its backup. *)
Definition ignore_pair (w : State) : option string * option string :=
  (fs w !! dockerignorePath, fs w !! dockerignoreBackupPath).

(** Two states that differ at most in the ignore file and its backup. *)
Definition same_but_ignore_files (w w' : State) : Prop :=
  trace w' = trace w
  /\ manifests w' = manifests w
  /\ environ w' = environ w
  /\ defers w' = defers w
  /\ forall p, p <> dockerignorePath -> p <> dockerignoreBackupPath ->
       fs w' !! p = fs w !! p.

(** The scope the three operations are used in (lines 102-126): backup,
    any number of writes, restore. *)
Definition scoped_write (X : Externals) (contents : string) : M unit :=
  backupDockerignore X ;; writeDockerignore X contents ;; restoreDockerignore X.

(** Frames of the three operations: no event, the two files at most. *)
Definition F_ignore : Frame :=
  mkFrame (fun _ => false) (is_path [dockerignorePath; dockerignoreBackupPath]) false false.
Definition F_write : Frame :=
  mkFrame (fun _ => false) (is_path [dockerignorePath]) false false.

(** ** One image from one generated Dockerfile *)

(** The calls that only a build with separate weights makes. *)
Definition is_weights_event (e : Event) : bool :=
  match e with
  | EGenerateModelBaseWithSeparateWeights _ _ _
  | EGenerateWeightsManifest _ _
  | ELoadManifest _ _
  | ESaveManifest _ _ _ => true
  | _ => false
  end.

(** The image phase of such a build: no call of the weights path, no file
    changed, no manifest persisted. *)
Definition F_plain : Frame :=
  mkFrame (fun e => in_phase PImage e && negb (is_weights_event e)) (is_path []) false true.

(** [frame_le F G]: whatever stays within [F] stays within [G]. *)
Definition frame_le (F G : Frame) : Prop :=
  (forall e, f_event F e = true -> f_event G e = true)
  /\ (forall p, f_path F p = true -> f_path G p = true)
  /\ (f_manifest F = true -> f_manifest G = true)
  /\ (f_defer F = true -> f_defer G = true).

(** A whole run that makes no call of the weights path: the bundled
    schema files at most are changed. *)
Definition F_plain_run : Frame :=
  mkFrame (fun e => negb (is_weights_event e))
          (is_path [bundledSchemaFile; bundledSchemaPy]) false true.

(** ** The deferred cleanup *)

(** The [Cleanup] calls of a trace with their outcomes, most recent first. *)
Fixpoint cleanups (t : list Event) : list (Generator * Res unit) :=
  match t with
  | [] => []
  | ECleanup g r :: t' => (g, r) :: cleanups t'
  | _ :: t' => cleanups t'
  end.

(** The generator after the setters of lines 82-87. *)
Definition configured (strip precompile : bool) (useCudaBaseImage : string)
    (useCogBaseImage : option bool) (generator : Generator) : Generator :=
  let generator := SetStrip generator strip in
  let generator := SetPrecompile generator precompile in
  let generator := SetUseCudaBaseImage generator useCudaBaseImage in
  match useCogBaseImage with
  | Some b => SetUseCogBaseImage generator b
  | None => generator
  end.

(** The two blocks that build from a generator: they register no
    deferred call and do not set the generator up. *)
Definition is_setup_event (e : Event) : bool :=
  match e with
  | ENewGenerator _ _ _ _ _ | EBuildDir _ _ | EBuildContexts _ _ | EBaseImage _ _ => true
  | _ => false
  end.

Definition F_built : Frame :=
  mkFrame (fun e => in_phase PImage e && negb (is_setup_event e))
          (is_path [dockerignorePath; dockerignoreBackupPath]) true false.

(** ** The labels *)

(** The keys that lines 203-248 may set after the base labels. *)
Definition late_keys (X : Externals) : list string :=
  [base_name_key X; base_sha_key X; base_idx_key X; revision_key; version_key].

(** The three namespaced keys of lines 196-200. *)
Definition schema_key (X : Externals) : string := global_LabelNamespace X ++ "openapi_schema".
Definition freeze_key (X : Externals) : string := global_LabelNamespace X ++ "pip_freeze".
Definition init_key (X : Externals) : string := global_LabelNamespace X ++ "has_init".

(** ** The schema given by the caller *)


(** The paths that [Build] itself removes, moves or writes. *)
Definition build_paths : list string :=
  [bundledSchemaFile; bundledSchemaPy; dockerignorePath; dockerignoreBackupPath].

(** ** The arguments of the builds *)

(** What every build of a run of [Build] is given: the directory, the
    secrets, the cache flag and the progress output of the caller, the
    fixed source epoch, and the name of the image or of its weights
    image. *)
Definition caller_args (X : Externals) (dir imageName : string)
    (secrets : list string) (noCache : bool) (progressOutput : string)
    (a : BuildArgs) : Prop :=
  b_dir a = dir /\ b_secrets a = secrets /\ b_noCache a = noCache
  /\ b_progressOutput a = progressOutput
  /\ b_epoch a = BuildSourceEpochTimestamp X
  /\ (b_imageName a = imageName \/ b_imageName a = imageName ++ "-weights").

Definition F_args (X : Externals) (dir imageName : string)
    (secrets : list string) (noCache : bool) (progressOutput : string) : Frame :=
  mkFrame (fun e =>
             match e with
             | EDockerBuild a _ =>
                 bool_decide (caller_args X dir imageName secrets noCache progressOutput a)
             | _ => true
             end)
          (fun _ => true) true true.

(** ** [BuildBase] (lines 260-298) *)

Section BuildBaseFunction.

Variable X : Externals.

(** [config.BaseDockerImageName] and [Generator.GenerateModelBase] are
    declared in other packages: the name of the base image of a
    directory, and the Dockerfile of the base image or an error. The
    trace has no event for [GenerateModelBase]: its call is not logged. *)
Variable BaseDockerImageName : string -> string.
Variable x_GenerateModelBase : Generator -> State -> Res string.

Variables (cfg : Config) (dir useCudaBaseImage : string)
  (useCogBaseImage : option bool) (progressOutput : string).

Definition generator_GenerateModelBase (g : Generator) : M string := fun w =>
  (x_GenerateModelBase g w, w).

(** Lines 263-297, up to the deferred call. As in [Build], the deferred
    cleanup sees the generator that the setters have changed. *)
Definition BuildBase_body : M string :=
  let imageName := BaseDockerImageName dir in
  console_Info "Building Docker image from environment in cog.yaml..." ;;
  generator <-
    wrap (Errorf_w "Error creating Dockerfile generator: ")
         (dockerfile_NewGenerator X cfg dir false false) ;;
  contextDir <- generator_BuildDir X generator ;;
  buildContexts <- generator_BuildContexts X generator ;;
  let generator := SetUseCudaBaseImage generator useCudaBaseImage in
  let generator :=
    match useCogBaseImage with
    | Some b => SetUseCogBaseImage generator b
    | None => generator
    end in
  defer_Cleanup generator ;;
  dockerfileContents <-
    wrap (Errorf_w "Failed to generate Dockerfile: ")
         (generator_GenerateModelBase generator) ;;
  wrap (Errorf_w "Failed to build Docker image: ")
       (docker_Build X dir dockerfileContents imageName [] false progressOutput
          (BuildSourceEpochTimestamp X) contextDir buildContexts) ;;
  ret imageName.

Definition BuildBase : M string := fun w =>
  let '(r, w') := BuildBase_body w in
  (r, run_defers X (defers w') (set_defers [] w')).

End BuildBaseFunction.

(** The generator of [BuildBase] after its two setters. *)
Definition configured_base (useCudaBaseImage : string) (useCogBaseImage : option bool)
    (generator : Generator) : Generator :=
  let generator := SetUseCudaBaseImage generator useCudaBaseImage in
  match useCogBaseImage with
  | Some b => SetUseCogBaseImage generator b
  | None => generator
  end.

(** ** A second instance of the collaborators

    The instance [demo] with a managed base image, in which compiling the
    ignore file or naming the base image fails when an error is given. *)
Definition demo_failing (matcher_error base_error : option error) : Externals :=
  let d := demo (fun _ => false) [] true true false in
  {| global_Version := global_Version d;
     global_LabelNamespace := global_LabelNamespace d;
     CogVersionLabelKey := CogVersionLabelKey d;
     CogConfigLabelKey := CogConfigLabelKey d;
     DockerignoreHeader := DockerignoreHeader d;
     BuildSourceEpochTimestamp := BuildSourceEpochTimestamp d;
     StandardBuildDirectory := StandardBuildDirectory d;
     TrimSpace := TrimSpace d;
     os_fault := os_fault d;
     x_CreateMatcher := fun dir w =>
       match matcher_error with
       | Some e => Err e
       | None => x_CreateMatcher d dir w
       end;
     x_docker_Build := x_docker_Build d;
     x_AddLabels := x_AddLabels d;
     x_NewGenerator := x_NewGenerator d;
     x_BuildDir := x_BuildDir d;
     x_BuildContexts := x_BuildContexts d;
     x_Cleanup := x_Cleanup d;
     x_IsUsingCogBaseImage := x_IsUsingCogBaseImage d;
     x_BaseImage := fun g w =>
       match base_error with
       | Some e => Err e
       | None => x_BaseImage d g w
       end;
     x_GenerateModelBaseWithSeparateWeights := x_GenerateModelBaseWithSeparateWeights d;
     x_GenerateWeightsManifest := x_GenerateWeightsManifest d;
     x_GenerateDockerfileWithoutSeparateWeights :=
       x_GenerateDockerfileWithoutSeparateWeights d;
     x_GenerateOpenAPISchema := x_GenerateOpenAPISchema d;
     x_MarshalSchema := x_MarshalSchema d;
     x_LoadFromData := x_LoadFromData d;
     x_Validate := x_Validate d;
     x_MarshalConfig := x_MarshalConfig d;
     x_GeneratePipFreeze := x_GeneratePipFreeze d;
     x_ParseReference := x_ParseReference d;
     x_RemoteImage := x_RemoteImage d;
     x_Layers := x_Layers d;
     x_DiffID := x_DiffID d;
     x_exec_Output := x_exec_Output d |}.

(** ** Files and subprocesses of a run *)


(** The subprocesses of [Build]: [git -C dir ...] under a timeout of three
    seconds. *)
Definition git_call (dir : string) (timeout : Z) (argv : list string) : Prop :=
  timeout = 3%Z /\ exists rest, argv = "git" :: "-C" :: dir :: rest.

Definition git_call_b (dir : string) (timeout : Z) (argv : list string) : bool :=
  bool_decide (timeout = 3%Z)
  && match argv with
     | a :: b :: c :: _ =>
         bool_decide (a = "git") && bool_decide (b = "-C") && bool_decide (c = dir)
     | _ => false
     end.

Definition F_git_calls (dir : string) : Frame :=
  mkFrame (fun e =>
             match e with
             | EExec timeout argv _ => git_call_b dir timeout argv
             | _ => true
             end)
          (fun _ => true) true true.

(** ** Errors *)

(** The innermost error of a chain of [%w] wrappings: what
    [errors.Unwrap] reaches in the end. *)
Fixpoint cause (e : error) : error :=
  match e with
  | ErrWrap _ c _ => cause c
  | _ => e
  end.

(** The calls of the schema and of the labelling phase. *)
Definition after_image (e : Event) : bool :=
  match e with
  | EGenerateOpenAPISchema _ _ _ | EMarshalSchema _ _ | ELoadFromData _ _
  | EValidate _ _ | EMarshalConfig _ _ | EGeneratePipFreeze _ _ _
  | EParseReference _ _ | ERemoteImage _ _ | ELayers _ _ | EDiffID _ _
  | EExec _ _ _ | EAddLabels _ _ _ _ _ => true
  | _ => false
  end.

(** ** Commit and tag that cannot be found *)

(** The commit is not resolved: the environment gives no commit that is
    not empty, and no query of [git] for the commit gave one. *)
Definition commit_unresolved (X : Externals) (dir : string)
    (env : gmap string string) (t : list Event) : Prop :=
  (forall v, env !! "GITHUB_SHA" = Some v -> v = "")
  /\ forall out, In (EExec 3 (git_head dir) (Ok out)) t -> TrimSpace X out = "".

(** The same for the tag. *)
Definition tag_unresolved (X : Externals) (dir : string)
    (env : gmap string string) (t : list Event) : Prop :=
  (forall v, env !! "GITHUB_REF_NAME" = Some v -> v = "")
  /\ forall out, In (EExec 3 (git_describe dir) (Ok out)) t -> TrimSpace X out = "".

(** The lineage block did not fail: no base image was looked up, or the
    digest of its last layer was read. *)
Definition lineage_passed (t : list Event) : Prop :=
  (forall n rr, ~ In (EParseReference n rr) t)
  \/ exists l digest, In (EDiffID l (Ok digest)) t.

(** The subprocess runs of a trace, with their outcomes. *)
Fixpoint exec_reads (t : list Event) : list (list string * Res string) :=
  match t with
  | [] => []
  | EExec _ argv r :: t' => (argv, r) :: exec_reads t'
  | _ :: t' => exec_reads t'
  end.
(** * Proofs *)

(** ** Frames: what each phase may touch *)

Lemma within_refl F w : within F w w.
Proof.
  repeat split; auto.
  exists []. split; reflexivity.
Qed.

Lemma within_trans F w1 w2 w3 : within F w1 w2 -> within F w2 w3 -> within F w1 w3.
Proof.
  intros ([n1 [T1 A1]] & P1 & M1 & E1 & D1) ([n2 [T2 A2]] & P2 & M2 & E2 & D2).
  repeat split.
  - exists (n2 ++ n1)%list. split.
    + rewrite T2, T1. apply app_assoc.
    + rewrite forallb_app, A1, A2. reflexivity.
  - intros p Hp. rewrite P2, P1; auto.
  - intros Hm. rewrite M2, M1; auto.
  - congruence.
  - intros Hd. rewrite D2, D1; auto.
Qed.

Lemma within_push F e w : f_event F e = true -> within F w (push e w).
Proof.
  intros He. repeat split; auto.
  exists [e]. split; [reflexivity | simpl; rewrite He; reflexivity].
Qed.

Lemma within_set_fs F f w :
  (forall p, f_path F p = false -> f (fs w) !! p = fs w !! p) -> within F w (set_fs f w).
Proof.
  intros Hf. repeat split; auto.
  exists []. split; reflexivity.
Qed.

Lemma within_trace_In F w w' e :
  within F w w' -> In e (trace w') -> f_event F e = true \/ In e (trace w).
Proof.
  intros ([new [T A]] & _) Hin. rewrite T in Hin.
  apply in_app_or in Hin as [Hin | Hin]; [left | right; assumption].
  rewrite forallb_forall in A. auto.
Qed.

Lemma within_trace_mono F w w' e :
  within F w w' -> In e (trace w) -> In e (trace w').
Proof.
  intros ([new [T A]] & _) Hin. rewrite T. apply in_or_app. right. assumption.
Qed.

Section RunRel.

Context {A B : Type} (F : Frame).

Lemma rr_ret (a : A) : run_rel (ret a) (within F).
Proof. intros w r w' [= <- <-]. apply within_refl. Qed.

Lemma rr_fail (e : error) : run_rel (@fail A e) (within F).
Proof. intros w r w' [= <- <-]. apply within_refl. Qed.

Lemma rr_bind (m : M A) (k : A -> M B) :
  run_rel m (within F) -> (forall a, run_rel (k a) (within F)) ->
  run_rel (bind m k) (within F).
Proof.
  intros Hm Hk w r w'. unfold bind.
  destruct (m w) as [[a | e] w1] eqn:E; intros H.
  - eapply within_trans; [eapply Hm, E | eapply Hk, H].
  - injection H as <- <-. eapply Hm, E.
Qed.

Lemma rr_wrap (f : error -> error) (m : M A) :
  run_rel m (within F) -> run_rel (wrap f m) (within F).
Proof.
  intros Hm w r w'. unfold wrap.
  destruct (m w) as [[a | e] w1] eqn:E; intros [= <- <-]; eapply Hm, E.
Qed.

Lemma rr_try (m : M A) : run_rel m (within F) -> run_rel (try m) (within F).
Proof.
  intros Hm w r w'. unfold try.
  destruct (m w) as [r1 w1] eqn:E; intros [= <- <-]; eapply Hm, E.
Qed.

Lemma rr_ignore (m : M A) : run_rel m (within F) -> run_rel (ignore m) (within F).
Proof.
  intros Hm w r w'. unfold ignore.
  destruct (m w) as [r1 w1] eqn:E; intros [= <- <-]; eapply Hm, E.
Qed.

Lemma rr_extern (oracle : State -> Res A) (ev : Res A -> Event) :
  (forall r, f_event F (ev r) = true) -> run_rel (extern oracle ev) (within F).
Proof. intros He w r w' [= <- <-]. apply within_push, He. Qed.

End RunRel.

Section RunRelOs.

Variable X : Externals.
Variable F : Frame.

Lemma rr_emit e : f_event F e = true -> run_rel (emit e) (within F).
Proof. intros He w r w' [= <- <-]. apply within_push, He. Qed.

Lemma rr_os_Stat path : run_rel (os_Stat X path) (within F).
Proof.
  intros w r w'. unfold os_Stat.
  destruct (os_fault X _ w); [| destruct (fs w !! path)];
    intros [= <- <-]; apply within_refl.
Qed.

Lemma rr_os_ReadFile path : run_rel (os_ReadFile X path) (within F).
Proof.
  intros w r w'. unfold os_ReadFile.
  destruct (os_fault X _ w); [| destruct (fs w !! path)];
    intros [= <- <-]; apply within_refl.
Qed.

Lemma rr_os_LookupEnv key : run_rel (os_LookupEnv key) (within F).
Proof.
  intros w r w'. unfold os_LookupEnv.
  destruct (environ w !! key); intros [= <- <-]; apply within_refl.
Qed.

Lemma rr_os_WriteFile path data perm :
  f_path F path = true -> run_rel (os_WriteFile X path data perm) (within F).
Proof.
  intros Hp w r w'. unfold os_WriteFile.
  destruct (os_fault X _ w); intros [= <- <-]; [apply within_refl |].
  apply within_set_fs. intros p Hq. apply lookup_insert_ne. congruence.
Qed.

Lemma rr_os_Remove path :
  f_path F path = true -> run_rel (os_Remove X path) (within F).
Proof.
  intros Hp w r w'. unfold os_Remove.
  destruct (os_fault X _ w); [| destruct (fs w !! path)];
    intros [= <- <-]; try apply within_refl.
  apply within_set_fs. intros p Hq. apply lookup_delete_ne. congruence.
Qed.

Lemma rr_os_Rename oldpath newpath :
  f_path F oldpath = true -> f_path F newpath = true ->
  run_rel (os_Rename X oldpath newpath) (within F).
Proof.
  intros Ho Hn w r w'. unfold os_Rename.
  destruct (os_fault X _ w); [| destruct (fs w !! oldpath)];
    intros [= <- <-]; try apply within_refl.
  apply within_set_fs. intros p Hq.
  rewrite lookup_insert_ne, lookup_delete_ne; congruence.
Qed.

Lemma rr_LoadManifest path :
  (forall r, f_event F (ELoadManifest path r) = true) ->
  run_rel (weights_LoadManifest X path) (within F).
Proof. intros He w r w' [= <- <-]. apply within_push, He. Qed.

Lemma rr_Manifest_Save m path :
  f_manifest F = true -> (forall r, f_event F (ESaveManifest m path r) = true) ->
  run_rel (Manifest_Save X m path) (within F).
Proof.
  intros Hm He w r w'. unfold Manifest_Save.
  destruct (os_fault X _ w); intros [= <- <-]; [apply within_push, He |].
  repeat split; auto; simpl.
  - eexists [_]. split; [reflexivity |]. simpl. rewrite He. reflexivity.
  - congruence.
Qed.

Lemma rr_defer_Cleanup g : f_defer F = true -> run_rel (defer_Cleanup g) (within F).
Proof.
  intros Hd w r w' [= <- <-]. repeat split; auto; simpl.
  - exists []. split; reflexivity.
  - congruence.
Qed.

End RunRelOs.

Create HintDb build_unfold.
Create HintDb build_calls.

#[local] Hint Unfold
  console_Info console_Warn console_Debug
  dockerignore_CreateMatcher docker_Build docker_BuildAddLabelsAndSchemaToImage
  dockerfile_NewGenerator generator_BuildDir generator_BuildContexts generator_Cleanup
  generator_BaseImage generator_GenerateModelBaseWithSeparateWeights
  generator_GenerateWeightsManifest generator_GenerateDockerfileWithoutSeparateWeights
  GenerateOpenAPISchema json_Marshal_schema json_Marshal_config loader_LoadFromData
  doc_Validate GeneratePipFreeze name_ParseReference remote_Image img_Layers layer_DiffID
  exec_Output : build_calls.

#[local] Hint Unfold
  console_Info console_Warn console_Debug
  dockerignore_CreateMatcher docker_Build docker_BuildAddLabelsAndSchemaToImage
  dockerfile_NewGenerator generator_BuildDir generator_BuildContexts generator_Cleanup
  generator_BaseImage generator_GenerateModelBaseWithSeparateWeights
  generator_GenerateWeightsManifest generator_GenerateDockerfileWithoutSeparateWeights
  GenerateOpenAPISchema json_Marshal_schema json_Marshal_config loader_LoadFromData
  doc_Validate GeneratePipFreeze name_ParseReference remote_Image img_Layers layer_DiffID
  exec_Output
  writeDockerignore backupDockerignore restoreDockerignore
  makeDockerignoreForWeightsImage buildWeightsImage buildRunnerImage
  checkCompatibleDockerIgnore isGitWorkTree gitHead gitTag
  Build_withDockerfile Build_withSeparateWeights Build_withoutSeparateWeights
  Build_withGenerator Build_image Build_schema Build_cogBaseImageLabels
  Build_provenanceLabels Build_labels Build_init : build_unfold.

(** One step of a proof that a program stays within a frame: follow the
    shape of the program. *)
Ltac frame_step :=
  lazymatch goal with
  | |- run_rel (bind _ _) _ => apply rr_bind; [| intros ?]
  | |- run_rel (ret _) _ => apply rr_ret
  | |- run_rel (fail _) _ => apply rr_fail
  | |- run_rel (wrap _ _) _ => apply rr_wrap
  | |- run_rel (try _) _ => apply rr_try
  | |- run_rel (ignore _) _ => apply rr_ignore
  | |- run_rel (emit _) _ => apply rr_emit; reflexivity
  | |- run_rel (extern _ _) _ => apply rr_extern; intros ?; reflexivity
  | |- run_rel (os_Stat _ _) _ => apply rr_os_Stat
  | |- run_rel (os_ReadFile _ _) _ => apply rr_os_ReadFile
  | |- run_rel (os_LookupEnv _) _ => apply rr_os_LookupEnv
  | |- run_rel (os_WriteFile _ _ _ _) _ => apply rr_os_WriteFile; reflexivity
  | |- run_rel (os_Remove _ _) _ => apply rr_os_Remove; reflexivity
  | |- run_rel (os_Rename _ _ _) _ => apply rr_os_Rename; reflexivity
  | |- run_rel (weights_LoadManifest _ _) _ => apply rr_LoadManifest; intros ?; reflexivity
  | |- run_rel (Manifest_Save _ _ _) _ =>
      apply rr_Manifest_Save; [reflexivity | intros ?; reflexivity]
  | |- run_rel (defer_Cleanup _) _ => apply rr_defer_Cleanup; reflexivity
  | |- run_rel (match ?x with _ => _ end) _ => destruct x
  | |- run_rel _ _ => progress (autounfold with build_unfold; cbv zeta)
  end.

Ltac frame := repeat frame_step.

Section PhaseFrames.

Variable X : Externals.

Variables (cfg : Config) (dir imageName : string) (secrets : list string)
  (noCache separateWeights : bool)
  (useCudaBaseImage progressOutput schemaFile dockerfileFile : string)
  (useCogBaseImage : option bool) (strip precompile fastFlag : bool)
  (annotations : gmap string string) (localImage : bool).

Lemma Build_init_frame :
  run_rel (Build_init X dir imageName fastFlag) (within F_check).
Proof. frame. Qed.

Lemma Build_image_frame :
  run_rel (Build_image X cfg dir imageName secrets noCache separateWeights
             useCudaBaseImage progressOutput dockerfileFile useCogBaseImage
             strip precompile fastFlag localImage)
          (within F_image).
Proof. frame. Qed.

Lemma Build_withSeparateWeights_frame generator contextDir buildContexts :
  run_rel (Build_withSeparateWeights X dir imageName secrets noCache progressOutput
             generator contextDir buildContexts)
          (within F_image).
Proof. frame. Qed.

Lemma Build_withoutSeparateWeights_frame generator contextDir buildContexts :
  run_rel (Build_withoutSeparateWeights X dir imageName secrets noCache progressOutput
             generator contextDir buildContexts)
          (within F_image).
Proof. frame. Qed.

Lemma Build_withDockerfile_frame :
  run_rel (Build_withDockerfile X dir imageName secrets noCache progressOutput
             dockerfileFile)
          (within F_image).
Proof. frame. Qed.

Lemma Build_schema_frame :
  run_rel (Build_schema X cfg imageName schemaFile) (within F_schema).
Proof. frame. Qed.

Lemma Build_labels_frame cogBaseImageName schemaJSON :
  run_rel (Build_labels X cfg dir imageName fastFlag annotations cogBaseImageName schemaJSON)
          (within F_labels).
Proof. frame. Qed.

Lemma run_defers_frame ds w : within F_cleanup w (run_defers X ds w).
Proof.
  revert w. induction ds as [| g ds IH]; intros w; simpl.
  - apply within_refl.
  - eapply within_trans; [| apply IH].
    destruct (x_Cleanup X g w); simpl.
    + apply within_push. reflexivity.
    + eapply within_trans; apply within_push; reflexivity.
Qed.

End PhaseFrames.

(** ** Symbolic execution of a run *)

Ltac red_run H :=
  cbv beta iota zeta delta
    [bind wrap try ignore ret fail emit extern
     os_Stat os_ReadFile os_WriteFile os_Rename os_Remove os_LookupEnv
     weights_LoadManifest Manifest_Save defer_Cleanup] in H;
  cbn [fs trace manifests environ defers push set_fs set_manifests set_defers
       fst snd is_ok res_value andb negb] in H.

Ltac plain_scrutinee x :=
  lazymatch x with
  | context [match _ with _ => _ end] => fail
  | _ => idtac
  end.

Ltac run_step H :=
  match type of H with
  | context [match ?x with _ => _ end] =>
      plain_scrutinee x; destruct x eqn:?; red_run H
  end.

(** Follow a run [H : m w = (r, w')] through every branch of [m]. *)
Ltac run H :=
  autounfold with build_calls in H; red_run H; repeat run_step H;
  simplify_eq.

(** ** The stages of a build *)

Section StagesFacts.

Variable X : Externals.

Variables (cfg : Config) (dir imageName : string) (secrets : list string)
  (noCache separateWeights : bool)
  (useCudaBaseImage progressOutput schemaFile dockerfileFile : string)
  (useCogBaseImage : option bool) (strip precompile fastFlag : bool)
  (annotations : gmap string string) (localImage : bool).

Lemma Build_inv w r w' :
  Build X cfg dir imageName secrets noCache separateWeights useCudaBaseImage
    progressOutput schemaFile dockerfileFile useCogBaseImage strip precompile
    fastFlag annotations localImage w = (r, w') ->
  exists wb,
    Build_stages X cfg dir imageName secrets noCache separateWeights
      useCudaBaseImage progressOutput schemaFile dockerfileFile useCogBaseImage
      strip precompile fastFlag annotations localImage w r wb
    /\ w' = run_defers X (defers wb) (set_defers [] wb).
Proof.
  unfold Build, Build_body, bind. intros H.
  destruct (Build_init _ _ _ _ w) as [[[] | e1] w1] eqn:E1.
  - destruct (Build_image _ _ _ _ _ _ _ _ _ _ _ _ _ _ _ w1) as [[name | e2] w2] eqn:E2.
    + destruct (Build_schema _ _ _ _ w2) as [[js | e3] w3] eqn:E3.
      * destruct (Build_labels _ _ _ _ _ _ _ _ w3) as [r4 w4] eqn:E4.
        injection H as <- <-. eexists. split; [eapply reach_labels; eauto | reflexivity].
      * injection H as <- <-. eexists. split; [eapply stop_schema; eauto | reflexivity].
    + injection H as <- <-. eexists. split; [eapply stop_image; eauto | reflexivity].
  - injection H as <- <-. eexists. split; [eapply stop_init; eauto | reflexivity].
Qed.

End StagesFacts.

(** ** The events a run adds *)

Lemma new_events_cons {A} (e : A) (t new base : list A) :
  t = (new ++ base)%list -> e :: t = ((e :: new) ++ base)%list.
Proof. intros ->. reflexivity. Qed.

Lemma new_events_app {A} (l t new base : list A) :
  t = (new ++ base)%list -> (l ++ t)%list = ((l ++ new) ++ base)%list.
Proof. intros ->. apply app_assoc. Qed.

Lemma new_events_nil {A} (base : list A) : base = ([] ++ base)%list.
Proof. reflexivity. Qed.

(** Solve [e1 :: l2 ++ ... :: en :: base = ?new ++ base]. *)
Ltac new_events :=
  cbn [trace push];
  repeat first [apply new_events_cons | apply new_events_app];
  apply new_events_nil.

(** Take a membership in an explicit list of events apart. *)
Ltac in_events H :=
  repeat first
    [ apply in_app_or in H as [H | H]
    | destruct H as [H | H]; [try discriminate H |] ];
  try contradiction.

(** ** Label keys *)

Lemma last_ascii_app s c t : last_ascii (s ++ String c t) = last_ascii (String c t).
Proof.
  induction s as [| a s IH]; [reflexivity |].
  change (String a s ++ String c t) with (String a (s ++ String c t)).
  cbn [last_ascii]. destruct (s ++ String c t) eqn:E; [| exact IH].
  destruct s; discriminate.
Qed.

Lemma app_neq_by_last s c t u :
  last_ascii (String c t) <> last_ascii u -> s ++ String c t <> u.
Proof. intros Hne <-. apply Hne. symmetry. apply last_ascii_app. Qed.

Lemma app_neq_same_prefix (s t u : string) : t <> u -> s ++ t <> s ++ u.
Proof.
  intros Hne Heq. apply Hne. induction s; [exact Heq |].
  injection Heq as Heq. auto.
Qed.

(** Two keys differ: by their suffix after the namespace, or by their
    last character. *)
Ltac keys_differ :=
  unfold base_name_key, base_sha_key, base_idx_key, revision_key, version_key;
  first
    [ apply app_neq_same_prefix; discriminate
    | apply app_neq_by_last; cbn; discriminate
    | apply not_eq_sym; apply app_neq_by_last; cbn; discriminate
    | discriminate ].

Lemma Build_annotate_lookup (annotations labels : gmap string string) k :
  Build_annotate annotations labels !! k
  = match annotations !! k with
    | Some v => Some v
    | None => labels !! k
    end.
Proof.
  unfold Build_annotate.
  apply (map_fold_weak_ind
           (fun (acc : gmap string string) (m : gmap string string) =>
              acc !! k = match m !! k with Some v => Some v | None => labels !! k end)).
  - rewrite lookup_empty. reflexivity.
  - intros i x m acc Hi IH.
    destruct (decide (i = k)) as [-> | Hne].
    + rewrite !lookup_insert_eq. reflexivity.
    + rewrite !lookup_insert_ne by assumption. exact IH.
Qed.

Section BaseLabels.

Variable X : Externals.

Lemma Build_baseLabels_provenance configJSON schemaJSON pipFreeze k :
  label_keys_apart X -> In k [revision_key; version_key] ->
  Build_baseLabels X configJSON schemaJSON pipFreeze !! k = None.
Proof.
  intros Hk Hin. unfold Build_baseLabels.
  assert (Hv : CogVersionLabelKey X <> k).
  { intros E. eapply (Hk k); [rewrite <- E; simpl; auto |].
    simpl in *. tauto. }
  assert (Hc : CogConfigLabelKey X <> k).
  { intros E. eapply (Hk k); [rewrite <- E; simpl; auto |].
    simpl in *. tauto. }
  destruct Hin as [<- | [<- | []]];
    rewrite !lookup_insert_ne; try assumption; try apply lookup_empty; keys_differ.
Qed.


End BaseLabels.

(** ** Commit and tag *)

Ltac decide_hyps :=
  repeat match goal with
  | H : bool_decide _ = true |- _ => apply bool_decide_eq_true in H
  | H : bool_decide _ = false |- _ => apply bool_decide_eq_false in H
  end.

Ltac git_cases :=
  decide_hyps;
  first
    [ solve [left; eauto 10]
    | solve [right; right; do 2 eexists; split; [eassumption | split; reflexivity]]
    | solve [right; left; eexists; split; [reflexivity |];
             split; [intros ? [= <-]; assumption | reflexivity]]
    | solve [right; left; eexists; split; [reflexivity |];
             split; [intros ? [=] | reflexivity]] ].

Section Provenance.

Variable X : Externals.

Lemma gitHead_frame dir : run_rel (gitHead X dir) (within F_git).
Proof. frame. Qed.

Lemma gitTag_frame dir : run_rel (gitTag X dir) (within F_git).
Proof. frame. Qed.

Lemma gitHead_env dir w v :
  environ w !! "GITHUB_SHA" = Some v -> v <> "" -> gitHead X dir w = (Ok v, w).
Proof.
  intros Hv Hne. unfold gitHead, bind, os_LookupEnv. rewrite Hv. simpl.
  rewrite bool_decide_eq_true_2 by assumption. reflexivity.
Qed.

Lemma gitTag_env dir w v :
  environ w !! "GITHUB_REF_NAME" = Some v -> v <> "" -> gitTag X dir w = (Ok v, w).
Proof.
  intros Hv Hne. unfold gitTag, bind, os_LookupEnv. rewrite Hv. simpl.
  rewrite bool_decide_eq_true_2 by assumption. reflexivity.
Qed.

(** A run of [gitHead] that does not take the environment value probes
    the work tree, and reads the commit only when the probe says [true]. *)
Lemma gitHead_run dir w r w' :
  gitHead X dir w = (r, w') ->
  (exists v, environ w !! "GITHUB_SHA" = Some v /\ v <> "" /\ r = Ok v /\ w' = w)
  \/ (exists rp, w' = push (EExec 3 (git_probe dir) rp) w
        /\ (forall out, rp = Ok out -> TrimSpace X out <> "true")
        /\ r = Err (Errorf_w "Failed to find HEAD commit: " errGit))
  \/ (exists out rq, TrimSpace X out = "true"
        /\ w' = push (EExec 3 (git_head dir) rq) (push (EExec 3 (git_probe dir) (Ok out)) w)
        /\ r = match rq with Ok o => Ok (TrimSpace X o) | Err e => Err e end).
Proof.
  intros H. unfold gitHead, isGitWorkTree in H. run H; git_cases.
Qed.

Lemma gitTag_run dir w r w' :
  gitTag X dir w = (r, w') ->
  (exists v, environ w !! "GITHUB_REF_NAME" = Some v /\ v <> "" /\ r = Ok v /\ w' = w)
  \/ (exists rp, w' = push (EExec 3 (git_probe dir) rp) w
        /\ (forall out, rp = Ok out -> TrimSpace X out <> "true")
        /\ r = Err (Errorf_w "Failed to find ref name: " errGit))
  \/ (exists out rq, TrimSpace X out = "true"
        /\ w' = push (EExec 3 (git_describe dir) rq) (push (EExec 3 (git_probe dir) (Ok out)) w)
        /\ r = match rq with Ok o => Ok (TrimSpace X o) | Err e => Err e end).
Proof.
  intros H. unfold gitTag, isGitWorkTree in H. run H; git_cases.
Qed.

(** Lines 238-248 never fail; a note is logged exactly when the label is
    left as it was. *)
Lemma Build_provenanceLabels_run dir labels w r w' :
  Build_provenanceLabels X dir labels w = (r, w') ->
  exists L new,
    r = Ok L /\ trace w' = (new ++ trace w)%list
    /\ forallb is_provenance_event new = true
    /\ (In commit_note new -> L !! revision_key = labels !! revision_key)
    /\ (In tag_note new -> L !! version_key = labels !! version_key)
    /\ (forall k, k <> revision_key -> k <> version_key -> L !! k = labels !! k).
Proof.
  intros H. unfold Build_provenanceLabels in H. run H.
  all: apply gitHead_frame in Heqp as ([n1 [T1 A1]] & _);
    apply gitTag_frame in Heqp0 as ([n2 [T2 A2]] & _);
    cbn [trace push] in *; rewrite forallb_forall in A1, A2;
    do 2 eexists; split; [reflexivity |]; rewrite T2, ?T1; cbn [trace push];
    rewrite ?T1, ?app_comm_cons, ?app_assoc; (split; [reflexivity |]).
  all: split;
    [ apply forallb_forall; intros e He;
      repeat (apply in_app_or in He as [He | He] || destruct He as [<- | He]);
      try reflexivity;
      first [ apply A1 in He | apply A2 in He ]; destruct e; try discriminate; reflexivity |].
  all: split; [intros He | split; [intros He | intros k Hk1 Hk2]].
  all: try (repeat first
              [ apply in_app_or in He as [He | He]
              | destruct He as [He | He]; [try discriminate He |] ];
            try (first [apply A1 in He | apply A2 in He]; discriminate He)).
  all: rewrite ?lookup_insert_ne; try reflexivity;
    first [ discriminate | apply not_eq_sym; assumption ].
Qed.

End Provenance.

(** ** The lineage of the base image *)

Section Lineage.

Variable X : Externals.

Lemma Build_cogBaseImageLabels_run name labels w r w' :
  Build_cogBaseImageLabels X name labels w = (r, w') ->
  exists new,
    trace w' = (new ++ trace w)%list
    /\ forallb is_lineage_event new = true
    /\ (name = "" -> r = Ok labels)
    /\ (forall n rr, In (EParseReference n rr) new -> n = name)
    /\ (forall img, In (ELayers img (Ok [])) new ->
          r = Err (ErrMsg ("Cog base image has no layers: " ++ name))
          /\ forall l rd, ~ In (EDiffID l rd) new)
    /\ (forall img layers, In (ELayers img (Ok layers)) new -> 0 < length layers ->
          exists l rd,
            layers !! (length layers - 1) = Some l /\ In (EDiffID l rd) new
            /\ forall digest, rd = Ok digest ->
                 r = Ok (<[base_idx_key X := Sprintf_d (length layers - 1)]>
                        (<[base_sha_key X := digest]>
                        (<[base_name_key X := name]> labels))))
    /\ (forall img layers l digest,
          In (ELayers img (Ok layers)) new -> In (EDiffID l (Ok digest)) new ->
          r = Ok (<[base_idx_key X := Sprintf_d (length layers - 1)]>
                 (<[base_sha_key X := digest]>
                 (<[base_name_key X := name]> labels))))
    /\ (forall L, r = Ok L ->
          forall k, k <> base_name_key X -> k <> base_sha_key X -> k <> base_idx_key X ->
            L !! k = labels !! k).
Proof.
  intros H. unfold Build_cogBaseImageLabels in H. run H.
  all: eexists; (split; [new_events |]).
  all: split; [reflexivity |].
  all: repeat apply conj; intros.
  all: try congruence.
  all: repeat match goal with H : In _ _ |- _ => in_events H end; simplify_eq.
  all: try (simpl in *; lia).
  all: try (split; [reflexivity | intros ? ? Hd; in_events Hd]).
  all: try (rewrite !lookup_insert_ne by (apply not_eq_sym; assumption); reflexivity).
  all: try reflexivity.
  all: try (do 2 eexists; split; [eassumption |];
            split; [simpl; auto | intros ? [=]; subst; reflexivity]).
  match goal with H : _ !! _ = None |- _ => apply lookup_ge_None in H; lia end.
Qed.

End Lineage.

(** ** The labelling phase *)

Lemma forallb_In {A} (f : A -> bool) (l : list A) (x : A) :
  forallb f l = true -> In x l -> f x = true.
Proof. intros H. rewrite forallb_forall in H. apply H. Qed.

(** Take a membership in the events of the labelling phase apart, using
    what is known of the events of its blocks. *)
Ltac in_labels H :=
  repeat first
    [ apply in_app_or in H as [H | H]
    | destruct H as [H | H]; [try discriminate H |] ];
  try contradiction;
  try (match type of H with
       | In _ ?l =>
           match goal with
           | A : forallb _ l = true |- _ =>
               apply (forallb_In _ _ _ A) in H; discriminate H
           end
       end).

Ltac attach_shape :=
  repeat match goal with u : unit |- _ => destruct u end;
  repeat (split; [reflexivity |]);
  do 3 eexists; cbv zeta; split; [reflexivity |]; repeat apply conj.

Section Labels.

Variable X : Externals.
Variables (cfg : Config) (dir imageName : string) (fastFlag : bool)
  (annotations : gmap string string).

Lemma Build_labels_run name js w r w' :
  Build_labels X cfg dir imageName fastFlag annotations name js w = (r, w') ->
  exists new,
    trace w' = (new ++ trace w)%list
    /\ (forall n L s p ra, In (EAddLabels n L s p ra) new ->
          n = imageName /\ s = bundledSchemaFile /\ p = bundledSchemaPy
          /\ r = attach_result ra
          /\ exists Lp configJSON pipFreeze,
             let Lb := Build_baseLabels X configJSON js pipFreeze in
             L = Build_annotate annotations Lp
             /\ (In commit_note new -> Lp !! revision_key = Lb !! revision_key)
             /\ (In tag_note new -> Lp !! version_key = Lb !! version_key)
             /\ (name = "" -> forall k, In k (lineage_keys X) -> Lp !! k = Lb !! k)
             /\ (forall img layers l digest,
                   In (ELayers img (Ok layers)) new -> In (EDiffID l (Ok digest)) new ->
                   Lp !! base_name_key X = Some name
                   /\ Lp !! base_sha_key X = Some digest
                   /\ Lp !! base_idx_key X = Some (Sprintf_d (length layers - 1))))
    /\ (In commit_note new \/ In tag_note new ->
          exists L ra, In (EAddLabels imageName L bundledSchemaFile bundledSchemaPy ra) new)
    /\ (forall n rr, In (EParseReference n rr) new -> n = name)
    /\ (forall img, In (ELayers img (Ok [])) new ->
          r = Err (ErrMsg ("Cog base image has no layers: " ++ name))
          /\ forall l rd, ~ In (EDiffID l rd) new)
    /\ (forall img layers, In (ELayers img (Ok layers)) new -> 0 < length layers ->
          exists l rd,
            layers !! (length layers - 1) = Some l /\ In (EDiffID l rd) new
            /\ forall digest, rd = Ok digest ->
                 exists L ra,
                   In (EAddLabels imageName L bundledSchemaFile bundledSchemaPy ra) new).
Proof.
  intros H. unfold Build_labels in H. run H.
  all: repeat match goal with
    | H : Build_cogBaseImageLabels _ _ _ _ = _ |- _ =>
        apply Build_cogBaseImageLabels_run in H as (nl & Tl & Al & Hl0 & Hl1 & Hl2 & Hl3 & Hl5 & Hl4)
    | H : Build_provenanceLabels _ _ _ _ = _ |- _ =>
        apply Build_provenanceLabels_run in H as (Lp & np & Hp0 & Tp & Ap & Hp1 & Hp2 & Hp3)
    end; simplify_eq.
  all: cbn [trace push] in *;
    eexists; (split; [rewrite ?Tp, ?Tl; new_events |]).
  all: repeat apply conj.
  (* what an attached label set is *)
  all: try (intros ? ? ? ? ? Hin; in_labels Hin; simplify_eq; attach_shape).
  all: try match goal with
    | |- In commit_note _ -> _ !! revision_key = _ =>
        intros Hc; in_labels Hc;
        rewrite (Hp1 Hc), (Hl4 _ eq_refl) by keys_differ; reflexivity
    | |- In tag_note _ -> _ !! version_key = _ =>
        intros Hc; in_labels Hc;
        rewrite (Hp2 Hc), (Hl4 _ eq_refl) by keys_differ; reflexivity
    | |- _ = "" -> _ =>
        intros Hn k Hk; specialize (Hl0 Hn); injection Hl0 as ->;
        simpl in Hk; destruct Hk as [<- | [<- | [<- | []]]];
        rewrite Hp3 by keys_differ; reflexivity
    | |- forall img layers l digest, In (ELayers _ _) _ -> In (EDiffID _ _) _ -> _ =>
        intros img layers l digest H1 H2; in_labels H1; in_labels H2;
        specialize (Hl5 _ _ _ _ H1 H2); injection Hl5 as ->;
        rewrite !Hp3 by keys_differ;
        repeat split;
        rewrite ?lookup_insert_eq, ?lookup_insert_ne by keys_differ;
        rewrite ?lookup_insert_eq, ?lookup_insert_ne by keys_differ;
        try reflexivity; apply lookup_insert_eq
    | |- In commit_note _ \/ In tag_note _ -> _ =>
        intros [Hc | Hc]; first [ do 2 eexists; left; reflexivity | in_labels Hc ]
    | |- forall n rr, In (EParseReference _ _) _ -> _ =>
        intros n' rr Hin; in_labels Hin; eauto
    | |- forall img, In (ELayers _ (Ok [])) _ -> _ =>
        intros img Hin; in_labels Hin; destruct (Hl2 _ Hin) as [E Hno];
        split; [congruence | intros l rd Hd; in_labels Hd; eapply Hno; eauto]
    | |- forall img layers, In (ELayers _ _) _ -> 0 < _ -> _ =>
        intros img layers Hin Hlen; in_labels Hin;
        destruct (Hl3 _ _ Hin Hlen) as (l & rd & Hl & Hd & Hr);
        exists l, rd; split; [assumption |];
        split; [cbn [In]; rewrite ?in_app_iff; cbn [In]; tauto |];
        intros digest ->;
        first [ do 2 eexists; left; reflexivity | specialize (Hr _ eq_refl); discriminate ]
    end.
  all: intros; match goal with H : In _ _ |- _ => in_labels H end.
Qed.

End Labels.

(** ** From a run of [Build] to its stages *)

(** Keep [H : m w = (r, w')] and add the frame that [lem] gives for it. *)
Ltac frame_of H lem :=
  let F := fresh "F" in pose proof H as F; apply lem in F.

(** Cut a run of [Build] into its stages, each with its frame. *)
Ltac build_stages H :=
  let wb := fresh "wb" in
  let Hst := fresh "Hst" in
  apply Build_inv in H as (wb & Hst & ->);
  destruct Hst as
    [ e1 w1 Hi
    | w1 e2 w2 Hi Him
    | w1 name w2 e3 w3 Hi Him Hs
    | w1 name w2 js w3 r4 w4 Hi Him Hs Hl ];
  frame_of Hi Build_init_frame;
  try frame_of Him Build_image_frame;
  try frame_of Hs Build_schema_frame;
  try frame_of Hl Build_labels_frame.

(** Push [H : In e (trace w)] back through the frames of the stages that
    cannot have logged [e]. *)
Ltac trace_back H :=
  repeat first
    [ progress cbn [trace set_defers initial] in H
    | match type of H with
      | In _ (trace (run_defers ?X ?ds ?w)) =>
          apply (within_trace_In _ _ _ _ (run_defers_frame X ds w)) in H as [H | H];
          [first [discriminate H | cbv in H; discriminate H] |]
      | In _ (trace ?w') =>
          match goal with
          | F : within _ _ w' |- _ =>
              apply (within_trace_In _ _ _ _ F) in H as [H | H];
              [first [discriminate H | cbv in H; discriminate H] |]
          end
      end ];
  try contradiction.

(** Carry [In e (trace w)] forward through the stages that follow. *)
Ltac trace_fwd :=
  try (eapply within_trace_mono; [apply run_defers_frame |]; cbn [trace set_defers]);
  repeat first
    [ eassumption
    | match goal with
      | F : within _ _ ?w' |- In _ (trace ?w') =>
          eapply within_trace_mono; [exact F |]
      end ].

Section Annotations.

Variable X : Externals.

Variables (cfg : Config) (dir imageName : string) (secrets : list string)
  (noCache separateWeights : bool)
  (useCudaBaseImage progressOutput schemaFile dockerfileFile : string)
  (useCogBaseImage : option bool) (strip precompile fastFlag : bool)
  (annotations : gmap string string) (localImage : bool).

(** C8. Annotations are applied after every computed label: in every run
    of [Build], the label set handed to the build engine has, at each key
    of the caller's annotations, the value of the annotation. *)
Theorem annotations_override_computed_labels
    files persisted env r w' n L s p ra key val :
  Build X cfg dir imageName secrets noCache separateWeights useCudaBaseImage
    progressOutput schemaFile dockerfileFile useCogBaseImage strip precompile
    fastFlag annotations localImage (initial files persisted env) = (r, w') ->
  In (EAddLabels n L s p ra) (trace w') ->
  annotations !! key = Some val ->
  L !! key = Some val.
Proof.
  intros Hrun Hin Hkey. build_stages Hrun; trace_back Hin.
  apply Build_labels_run in Hl as (new & Tn & Hat & _).
  rewrite Tn in Hin. apply in_app_or in Hin as [Hin | Hin]; [| trace_back Hin].
  destruct (Hat _ _ _ _ _ Hin) as (_ & _ & _ & _ & Lp & cj & pf & -> & _).
  rewrite Build_annotate_lookup, Hkey. reflexivity.
Qed.

End Annotations.

Lemma annotations_override_computed_labels_witness :
  let X := demo (fun _ => false) [] false true false in
  let annotations : gmap string string := {[ "run.cog.has_init" := "false" ]} in
  exists n L s p ra,
    In (EAddLabels n L s p ra) (trace (snd (demo_Build X false "" "" annotations ∅ ∅)))
    /\ L !! "run.cog.has_init" = Some "false".
Proof.
  intros X annotations.
  assert (Hex : existsb is_attach (trace (snd (demo_Build X false "" "" annotations ∅ ∅)))
                = true)
    by (vm_compute; reflexivity).
  apply existsb_exists in Hex as (e & Hin & He).
  destruct e; try discriminate He.
  do 5 eexists. split; [exact Hin |].
  eapply (annotations_override_computed_labels
            X demo_cfg "." "model" [] false false "" "auto" "" "" None
            false false false annotations false ∅ ∅ ∅);
    [apply surjective_pairing | exact Hin | reflexivity].
Defined.

Lemma demo_keys_apart failing layers managed valid git :
  label_keys_apart (demo failing layers managed valid git).
Proof.
  intros k [<- | [<- | []]] Hin; simpl in Hin;
    repeat (destruct Hin as [Hin | Hin]; [discriminate Hin |]); exact Hin.
Qed.

(** Find an event in an evaluated trace. *)
Ltac find_event := vm_compute; repeat first [left; reflexivity | right].

(** ** The base image *)

Section BaseImageClaim.

Variable X : Externals.

Variables (cfg : Config) (dir imageName : string) (secrets : list string)
  (noCache separateWeights : bool)
  (useCudaBaseImage progressOutput schemaFile dockerfileFile : string)
  (useCogBaseImage : option bool) (strip precompile fastFlag : bool)
  (annotations : gmap string string) (localImage : bool).



End BaseImageClaim.

(** ** The schema *)

Section SchemaClaim.

Variable X : Externals.

Variables (cfg : Config) (dir imageName : string) (secrets : list string)
  (noCache separateWeights : bool)
  (useCudaBaseImage progressOutput schemaFile dockerfileFile : string)
  (useCogBaseImage : option bool) (strip precompile fastFlag : bool)
  (annotations : gmap string string) (localImage : bool).

Lemma Build_schema_run w r w' :
  Build_schema X cfg imageName schemaFile w = (r, w') ->
  exists new,
    trace w' = (new ++ trace w)%list
    /\ (forall data e, In (ELoadFromData data (Err e)) new ->
          r = Err (Errorf_w "Failed to load model schema JSON: " e)
          /\ fs w' !! bundledSchemaFile = Some data)
    /\ (forall doc e, In (EValidate doc (Err e)) new ->
          exists data,
            In (ELoadFromData data (Ok doc)) new
            /\ r = Err (ErrWrap "Model schema is invalid: " e (newline ++ newline ++ data))
            /\ fs w' !! bundledSchemaFile = Some data).
Proof.
  intros H. unfold Build_schema in H. run H.
  all: eexists; (split; [new_events |]).
  all: split; [intros data' e' Hin | intros doc' e' Hin]; in_events Hin; simplify_eq.
  all: try (eexists; split; [repeat first [left; reflexivity | right] |]).
  all: split; try reflexivity; cbn [fs set_fs push]; apply lookup_insert_eq.
Qed.

(** C9. When the schema document cannot be loaded or does not validate,
    [Build] returns an error, and the bundled schema file holds that
    document: it was written before the document was parsed. *)
Theorem invalid_schema_is_already_stored files persisted env r w' :
  Build X cfg dir imageName secrets noCache separateWeights useCudaBaseImage
    progressOutput schemaFile dockerfileFile useCogBaseImage strip precompile
    fastFlag annotations localImage (initial files persisted env) = (r, w') ->
  (forall data e, In (ELoadFromData data (Err e)) (trace w') ->
     r = Err (Errorf_w "Failed to load model schema JSON: " e)
     /\ fs w' !! bundledSchemaFile = Some data)
  /\ (forall doc e, In (EValidate doc (Err e)) (trace w') ->
        exists data,
          In (ELoadFromData data (Ok doc)) (trace w')
          /\ r = Err (ErrWrap "Model schema is invalid: " e (newline ++ newline ++ data))
          /\ fs w' !! bundledSchemaFile = Some data).
Proof.
  intros Hrun. build_stages Hrun.
  1-2: split; intros; match goal with H : In _ (trace _) |- _ => trace_back H end.
  - (* the schema phase fails *)
    apply Build_schema_run in Hs as (new & Tn & Hload & Hval).
    split.
    + intros data e Hin. trace_back Hin. rewrite Tn in Hin.
      apply in_app_or in Hin as [Hin | Hin]; [| trace_back Hin].
      destruct (Hload _ _ Hin) as [Hr Hfs]. split; [injection Hr as ->; reflexivity |].
      destruct (run_defers_frame X (defers w3) (set_defers [] w3)) as (_ & Hp & _).
      rewrite Hp by reflexivity. exact Hfs.
    + intros doc e Hin. trace_back Hin. rewrite Tn in Hin.
      apply in_app_or in Hin as [Hin | Hin]; [| trace_back Hin].
      destruct (Hval _ _ Hin) as (data & Hl & Hr & Hfs). exists data.
      split; [| split; [injection Hr as ->; reflexivity |]].
      * eapply within_trace_mono; [apply run_defers_frame |].
        cbn [trace set_defers]. rewrite Tn. apply in_or_app. left. exact Hl.
      * destruct (run_defers_frame X (defers w3) (set_defers [] w3)) as (_ & Hp & _).
        rewrite Hp by reflexivity. exact Hfs.
  - (* the schema phase succeeds: nothing failed to load or validate *)
    apply Build_schema_run in Hs as (new & Tn & Hload & Hval).
    frame_of Hl Build_labels_frame.
    split.
    + intros data e Hin. trace_back Hin. rewrite Tn in Hin.
      apply in_app_or in Hin as [Hin | Hin]; [| trace_back Hin].
      destruct (Hload _ _ Hin) as [[=] _].
    + intros doc e Hin. trace_back Hin. rewrite Tn in Hin.
      apply in_app_or in Hin as [Hin | Hin]; [| trace_back Hin].
      destruct (Hval _ _ Hin) as (data & _ & [=] & _).
Qed.

End SchemaClaim.

Lemma invalid_schema_is_already_stored_witness :
  let X := demo (fun _ => false) [] false false false in
  let run := demo_Build X false "" "" ∅ ∅ ∅ in
  In (EValidate "{}" (Err (ErrMsg "invalid components"))) (trace (snd run))
  /\ exists data,
       In (ELoadFromData data (Ok "{}")) (trace (snd run))
       /\ is_ok (fst run) = false
       /\ fs (snd run) !! bundledSchemaFile = Some data.
Proof.
  intros X run.
  assert (Hv : In (EValidate "{}" (Err (ErrMsg "invalid components"))) (trace (snd run)))
    by find_event.
  split; [exact Hv |].
  destruct (invalid_schema_is_already_stored
              X demo_cfg "." "model" [] false false "" "auto" "" "" None
              false false false ∅ false ∅ ∅ ∅ (fst run) (snd run)
              (surjective_pairing run))
    as (_ & Hval).
  destruct (Hval _ _ Hv) as (data & Hl & Hr & Hfs).
  exists data. split; [exact Hl |]. split; [rewrite Hr; reflexivity | exact Hfs].
Defined.

(** ** The check of the ignore file *)

(** An event is in a trace that is given explicitly, or that a block of the
    image phase extends. *)
Ltac event_in_trace :=
  try match goal with
      | H : Build_withSeparateWeights _ _ _ _ _ _ _ _ _ _ = _ |- _ =>
          apply Build_withSeparateWeights_frame in H;
          eapply within_trace_mono; [exact H |]
      | H : Build_withoutSeparateWeights _ _ _ _ _ _ _ _ _ _ = _ |- _ =>
          apply Build_withoutSeparateWeights_frame in H;
          eapply within_trace_mono; [exact H |]
      end;
  cbn [trace push set_defers set_fs set_manifests];
  repeat first [left; reflexivity | right].

Section CheckClaim.

Variable X : Externals.

Variables (cfg : Config) (dir imageName : string) (secrets : list string)
  (noCache separateWeights : bool)
  (useCudaBaseImage progressOutput schemaFile dockerfileFile : string)
  (useCogBaseImage : option bool) (strip precompile fastFlag : bool)
  (annotations : gmap string string) (localImage : bool).

(** The outcome of the check, from the outcome of [CreateMatcher]. *)
Lemma Build_init_run w r w' :
  Build_init X dir imageName fastFlag w = (r, w') ->
  exists new,
    trace w' = (new ++ trace w)%list
    /\ (forall p c, fs w' !! p = Some c -> fs w !! p = Some c)
    /\ forall d rm, In (ECreateMatcher d rm) new ->
         d = dir
         /\ r = match rm with
                | Err e => Err e
                | Ok None => Ok tt
                | Ok (Some m) =>
                    if MatchesPath m ".cog"
                    then Err (ErrMsg "The .cog tmp path cannot be ignored by docker in .dockerignore.")
                    else Ok tt
                end.
Proof.
  intros H. unfold Build_init, checkCompatibleDockerIgnore in H. run H.
  all: eexists; (split; [new_events |]).
  all: split;
    [ intros p c; cbn [fs set_fs push]; rewrite ?lookup_delete_Some; tauto |].
  all: intros d rm Hin; in_events Hin; simplify_eq; split; try reflexivity.
  all: repeat match goal with u : unit |- _ => destruct u end;
    try match goal with H : MatchesPath _ _ = _ |- _ => rewrite H end; reflexivity.
Qed.

(** The first step of the image phase. *)
Lemma Build_image_starts w r w' :
  Build_image X cfg dir imageName secrets noCache separateWeights useCudaBaseImage
    progressOutput dockerfileFile useCogBaseImage strip precompile fastFlag
    localImage w = (r, w') ->
  (dockerfileFile = "" ->
     exists rg, In (ENewGenerator cfg dir fastFlag localImage rg) (trace w'))
  /\ (dockerfileFile <> "" ->
        (exists a rb, In (EDockerBuild a rb) (trace w'))
        \/ exists e,
             r = Err (Errorf_w ("Failed to read Dockerfile at " ++ dockerfileFile ++ ": ") e)).
Proof.
  intros H. unfold Build_image, Build_withGenerator, Build_withDockerfile in H. run H.
  all: split; intros Hd; try contradiction.
  all: try (eexists; event_in_trace; fail).
  all: try (left; do 2 eexists; event_in_trace; fail).
  all: right; eexists; reflexivity.
Qed.


End CheckClaim.

(** ** The ignore file *)

Section IgnoreFile.

Variable X : Externals.
Hypothesis Hnf : no_faults X.

Lemma writeDockerignore_ok contents w :
  writeDockerignore X contents w
  = (Ok tt, set_fs (insert dockerignorePath (written contents w)) w).
Proof.
  unfold writeDockerignore, written, bind, try, os_Stat, os_ReadFile, os_WriteFile, ret.
  rewrite !Hnf. destruct (fs w !! dockerignoreBackupPath) eqn:E.
  - rewrite !Hnf, E, !Hnf. reflexivity.
  - rewrite !Hnf. reflexivity.
Qed.

Lemma written_after_write contents c w :
  written contents (set_fs (insert dockerignorePath c) w) = written contents w.
Proof.
  unfold written. cbn [fs set_fs]. rewrite lookup_insert_ne; [reflexivity | discriminate].
Qed.

(** C6. [writeDockerignore contents] makes the active ignore file the
    backup's content, a newline and [contents] when there is a backup, and
    [contents] alone when there is none; writing the same contents a second
    time leaves the state as the first write left it. *)
Theorem writeDockerignore_prepends_backup_and_is_idempotent contents w :
  writeDockerignore X contents w
  = (Ok tt,
     set_fs (insert dockerignorePath
               match fs w !! dockerignoreBackupPath with
               | Some existingContents => existingContents ++ newline ++ contents
               | None => contents
               end) w)
  /\ (writeDockerignore X contents ;; writeDockerignore X contents) w
     = writeDockerignore X contents w.
Proof.
  split; [apply writeDockerignore_ok |].
  unfold bind. rewrite !writeDockerignore_ok, written_after_write.
  f_equal. destruct w as [f m en t d]. unfold set_fs; cbn [fs manifests environ trace defers].
  f_equal. apply insert_insert_eq.
Qed.

End IgnoreFile.

Lemma demo_no_faults failing layers managed valid git :
  no_faults (demo failing layers managed valid git).
Proof. intros op w. reflexivity. Qed.

Lemma writeDockerignore_prepends_backup_and_is_idempotent_witness :
  let X := demo (fun _ => false) [] false true false in
  let w := initial {[ dockerignoreBackupPath := "*.pyc" ]} ∅ ∅ in
  no_faults X
  /\ fs (snd (writeDockerignore X "weights/" w)) !! dockerignorePath
     = Some ("*.pyc" ++ newline ++ "weights/").
Proof.
  intros X w. split; [apply demo_no_faults |].
  rewrite (proj1 (writeDockerignore_prepends_backup_and_is_idempotent
                    X (demo_no_faults _ _ _ _ _) "weights/" w)).
  vm_compute. reflexivity.
Defined.

(** ** The builds of a trace *)

Lemma docker_builds_rev_app t1 t2 :
  docker_builds_rev (t1 ++ t2) = (docker_builds_rev t1 ++ docker_builds_rev t2)%list.
Proof.
  induction t1 as [| e t1 IH]; [reflexivity |].
  destruct e; simpl; rewrite ?IH; reflexivity.
Qed.

Lemma docker_builds_rev_none f t :
  forallb f t = true -> (forall a r, f (EDockerBuild a r) = false) ->
  docker_builds_rev t = [].
Proof.
  intros Hall Hf. induction t as [| e t IH]; [reflexivity |].
  simpl in Hall. apply andb_true_iff in Hall as [He Ht].
  destruct e; simpl; auto. rewrite Hf in He. discriminate.
Qed.

(** A stage that is not the image phase adds no build. *)
Lemma docker_builds_frame F w w' :
  within F w w' -> (forall a r, f_event F (EDockerBuild a r) = false) ->
  docker_builds (trace w') = docker_builds (trace w).
Proof.
  intros ([new [-> Hall]] & _) Hf. unfold docker_builds.
  rewrite docker_builds_rev_app, (docker_builds_rev_none _ _ Hall Hf). reflexivity.
Qed.




Section OverrideClaim.

Variable X : Externals.

Variables (cfg : Config) (dir imageName : string) (secrets : list string)
  (noCache separateWeights : bool)
  (useCudaBaseImage progressOutput schemaFile dockerfileFile : string)
  (useCogBaseImage : option bool) (strip precompile fastFlag : bool)
  (annotations : gmap string string) (localImage : bool).


End OverrideClaim.






Section OverrideTheorem.

Variable X : Externals.

Variables (cfg : Config) (dir imageName : string) (secrets : list string)
  (noCache separateWeights : bool)
  (useCudaBaseImage progressOutput schemaFile dockerfileFile : string)
  (useCogBaseImage : option bool) (strip precompile fastFlag : bool)
  (annotations : gmap string string) (localImage : bool).

Hypothesis Hoverride : dockerfileFile <> "".



End OverrideTheorem.


(** ** The ignore file when the operating system refuses nothing *)

Section IgnoreOps.

Variable X : Externals.
Hypothesis Hlf : only_load_faults X.

Lemma os_ok op w : (forall p, op <> OpLoadManifest p) -> os_fault X op w = None.
Proof. apply Hlf. Qed.

Lemma backupDockerignore_eq w :
  backupDockerignore X w = (Ok tt, set_fs backup_files w).
Proof.
  unfold backupDockerignore, bind, try, os_Stat, os_Rename, ret, backup_files.
  rewrite os_ok by discriminate. destruct w as [f m en t d]; cbn [fs set_fs].
  destruct (f !! dockerignorePath) eqn:E; cbn.
  - rewrite os_ok by discriminate.
    cbv beta iota delta [set_fs fs manifests environ trace defers].
    rewrite E. reflexivity.
  - cbv beta iota delta [set_fs fs manifests environ trace defers].
    rewrite E. reflexivity.
Qed.

Lemma writeDockerignore_eq contents w :
  writeDockerignore X contents w
  = (Ok tt, set_fs (insert dockerignorePath (written contents w)) w).
Proof.
  unfold writeDockerignore, written, bind, try, os_Stat, os_ReadFile, os_WriteFile, ret.
  rewrite os_ok by discriminate. destruct (fs w !! dockerignoreBackupPath) eqn:E.
  - rewrite os_ok by discriminate. rewrite E. rewrite os_ok by discriminate. reflexivity.
  - rewrite os_ok by discriminate. reflexivity.
Qed.

Lemma restoreDockerignore_eq w :
  restoreDockerignore X w
  = match fs w !! dockerignorePath with
    | Some _ => (Ok tt, set_fs restore_files w)
    | None => (Err (ErrNotExist dockerignorePath), w)
    end.
Proof.
  unfold restoreDockerignore, bind, try, os_Stat, os_Remove, os_Rename, ret, restore_files.
  rewrite os_ok by discriminate. destruct w as [f m en t d]; cbn [fs set_fs].
  destruct (f !! dockerignorePath) eqn:E; [| reflexivity].
  rewrite os_ok by discriminate.
  cbv beta iota delta [set_fs fs manifests environ trace defers].
  rewrite (lookup_delete_ne f dockerignorePath dockerignoreBackupPath) by discriminate.
  destruct (f !! dockerignoreBackupPath) eqn:E2.
  - rewrite os_ok by discriminate.
    cbv beta iota delta [set_fs fs manifests environ trace defers].
    rewrite lookup_delete_ne by discriminate. rewrite E2. reflexivity.
  - reflexivity.
Qed.

End IgnoreOps.

(** ** The weights image *)

Ltac ops_step H Hlf :=
  first
    [ rewrite (backupDockerignore_eq _ Hlf) in H
    | rewrite (writeDockerignore_eq _ Hlf) in H
    | rewrite (restoreDockerignore_eq _ Hlf) in H
    | rewrite lookup_insert_eq in H
    | match type of H with
      | context [os_fault ?X ?op ?w] =>
          rewrite (Hlf op w) in H by (intros ?; discriminate)
      end ];
  red_run H.

(** Follow a run in which the operating system refuses no operation on
    the ignore file. *)
Ltac run_ops H Hlf :=
  autounfold with build_calls in H; red_run H;
  repeat first [ops_step H Hlf | run_step H];
  simplify_eq.

Section WeightsRun.

Variable X : Externals.
Hypothesis Hlf : only_load_faults X.

Variables (dir imageName : string) (secrets : list string) (noCache : bool)
  (progressOutput : string).

Lemma Build_withSeparateWeights_run g ctx bc w r w' :
  Build_withSeparateWeights X dir imageName secrets noCache progressOutput g ctx bc w
  = (r, w') ->
  exists new,
    trace w' = (new ++ trace w)%list
    /\ forall g1 n sp g2 wm,
         In (EGenerateModelBaseWithSeparateWeights g1 n (Ok sp)) new ->
         In (EGenerateWeightsManifest g2 (Ok wm)) new ->
         exists loaded,
           In (ELoadManifest weightsManifestPath loaded) new
           /\ (forall p l, In (ELoadManifest p l) new -> l = loaded)
           /\ (fst loaded = manifests w !! weightsManifestPath
               \/ exists w0 e,
                    os_fault X (OpLoadManifest weightsManifestPath) w0 = Some e)
           /\ (snd loaded = None \/ fst loaded = None)
           /\ if manifest_changed wm (fst loaded)
              then rebuilt imageName sp wm (manifests w) (built new) (manifests w')
              else reused imageName sp (manifests w) (built new) (manifests w').
Proof.
  intros H.
  unfold Build_withSeparateWeights, buildWeightsImage, makeDockerignoreForWeightsImage,
    buildRunnerImage in H.
  run_ops H Hlf.
  all: eexists; (split; [new_events |]).
  all: intros g1 n sp g2 wm Hg Hm; in_events Hg; in_events Hm; simplify_eq.
  all: eexists; (split; [repeat first [left; reflexivity | right] |]).
  all: split; [intros p l Hl; in_events Hl; simplify_eq; reflexivity |].
  all: cbn [fst snd manifests set_manifests set_fs push].
  all: split; [first [left; solve [eauto] | right; eauto] |].
  all: split; [first [left; reflexivity | right; reflexivity] |].
  all: unfold manifest_changed;
    repeat match goal with
      | H : negb (Manifest_Equal _ _) = _ |- _ => rewrite H
      end.
  all: repeat match goal with u : unit |- _ => destruct u end.
  all: unfold rebuilt, reused;
    first [ left; eexists; split; reflexivity
          | right; eexists; split; reflexivity
          | eexists; split; reflexivity ].
Qed.

End WeightsRun.

Lemma built_app_old new old :
  docker_builds_rev old = [] -> built (new ++ old) = built new.
Proof.
  intros H. unfold built, docker_builds.
  rewrite docker_builds_rev_app, H, app_nil_r. reflexivity.
Qed.

Lemma built_app_new new old :
  docker_builds_rev new = [] -> built (new ++ old) = built old.
Proof.
  intros H. unfold built, docker_builds.
  rewrite docker_builds_rev_app, H. reflexivity.
Qed.

Lemma built_frame F w w' :
  within F w w' -> (forall a r, f_event F (EDockerBuild a r) = false) ->
  built (trace w') = built (trace w).
Proof.
  intros H Hf. unfold built. rewrite (docker_builds_frame _ _ _ H Hf). reflexivity.
Qed.

Section WeightsClaims.

Variable X : Externals.
Hypothesis Hlf : only_load_faults X.

Variables (cfg : Config) (dir imageName : string) (secrets : list string)
  (noCache : bool)
  (useCudaBaseImage progressOutput schemaFile : string)
  (useCogBaseImage : option bool) (strip precompile fastFlag : bool)
  (annotations : gmap string string) (localImage : bool).

(** The image phase with separate weights: what follows a fresh manifest. *)
Lemma Build_image_weights_run w r w' :
  Build_image X cfg dir imageName secrets noCache true useCudaBaseImage
    progressOutput "" useCogBaseImage strip precompile fastFlag localImage w
  = (r, w') ->
  exists new,
    trace w' = (new ++ trace w)%list
    /\ forall g1 n sp g2 wm,
         In (EGenerateModelBaseWithSeparateWeights g1 n (Ok sp)) new ->
         In (EGenerateWeightsManifest g2 (Ok wm)) new ->
         exists loaded,
           In (ELoadManifest weightsManifestPath loaded) new
           /\ (forall p l, In (ELoadManifest p l) new -> l = loaded)
           /\ (fst loaded = manifests w !! weightsManifestPath
               \/ exists w0 e,
                    os_fault X (OpLoadManifest weightsManifestPath) w0 = Some e)
           /\ (snd loaded = None \/ fst loaded = None)
           /\ if manifest_changed wm (fst loaded)
              then rebuilt imageName sp wm (manifests w) (built new) (manifests w')
              else reused imageName sp (manifests w) (built new) (manifests w').
Proof.
  intros H. unfold Build_image, Build_withGenerator in H. run H.
  all: try congruence.
  all: try match goal with
         | H : Build_withSeparateWeights _ _ _ _ _ _ _ _ _ _ = _ |- _ =>
             apply (Build_withSeparateWeights_run X Hlf) in H as (nb & Tb & Hb)
         end.
  all: eexists; (split; [rewrite ?Tb; new_events |]).
  all: intros g1 nm sp g2 wm Hg Hm; in_events Hg; in_events Hm.
  all: destruct (Hb _ _ _ _ _ Hg Hm) as (loaded & Hl & Hu & Hf & Hs & Hc).
  all: exists loaded; (split; [rewrite ?in_app_iff; left; exact Hl |]).
  all: split; [intros p l Hin; in_events Hin; eauto |].
  all: cbn [manifests set_defers push] in Hf, Hc.
  all: split; [exact Hf |]; split; [exact Hs |].
  all: rewrite built_app_old by reflexivity; exact Hc.
Qed.

(** The same, for a whole run of [Build]. *)
Lemma Build_weights_decision files persisted env r w' g1 sp g2 wm :
  Build X cfg dir imageName secrets noCache true useCudaBaseImage
    progressOutput schemaFile "" useCogBaseImage strip precompile
    fastFlag annotations localImage (initial files persisted env) = (r, w') ->
  In (EGenerateModelBaseWithSeparateWeights g1 imageName (Ok sp)) (trace w') ->
  In (EGenerateWeightsManifest g2 (Ok wm)) (trace w') ->
  exists loaded,
    In (ELoadManifest weightsManifestPath loaded) (trace w')
    /\ (forall p l, In (ELoadManifest p l) (trace w') -> l = loaded)
    /\ (fst loaded = persisted !! weightsManifestPath
        \/ exists w0 e, os_fault X (OpLoadManifest weightsManifestPath) w0 = Some e)
    /\ (snd loaded = None \/ fst loaded = None)
    /\ if manifest_changed wm (fst loaded)
       then rebuilt imageName sp wm persisted (built (trace w')) (manifests w')
       else reused imageName sp persisted (built (trace w')) (manifests w').
Proof.
  intros Hrun Hg Hm. build_stages Hrun; trace_back Hg; trace_back Hm.
  all: apply Build_image_weights_run in Him as (new & Tn & Hnew).
  all: rewrite Tn in Hg, Hm;
    (apply in_app_or in Hg as [Hg | Hg]; [| trace_back Hg]);
    (apply in_app_or in Hm as [Hm | Hm]; [| trace_back Hm]).
  all: destruct (Hnew _ _ _ _ _ Hg Hm) as (loaded & Hld & Hu & Hf & Hsn & Hc).
  all: assert (M1 : manifests w1 = persisted)
    by (destruct F as (_ & _ & M & _); apply M; reflexivity).
  all: assert (B1 : docker_builds_rev (trace w1) = [])
    by (destruct F as ([n1 [T1 A1]] & _); rewrite T1; cbn [trace initial];
        rewrite app_nil_r; eapply docker_builds_rev_none; [exact A1 | reflexivity]).
  all: rewrite M1 in Hf, Hc.
  all: exists loaded.
  all: assert (Hld2 : In (ELoadManifest weightsManifestPath loaded) (trace w2))
    by (rewrite Tn; apply in_or_app; left; exact Hld).
  all: split; [trace_fwd |].
  all: split;
    [ intros p l Hin; trace_back Hin; rewrite Tn in Hin;
      apply in_app_or in Hin as [Hin | Hin]; [eauto | trace_back Hin] |].
  all: split; [exact Hf |]; split; [exact Hsn |].
  all: match goal with
       | |- context [run_defers X ?ds ?w] =>
           rewrite (built_frame _ _ _ (run_defers_frame X ds w)) by reflexivity;
           destruct (run_defers_frame X ds w) as (_ & _ & Md & _);
           rewrite (Md eq_refl); cbn [trace manifests set_defers]
       end.
  all: repeat match goal with
         | Fr : within ?F ?w ?w' |- context [built (trace ?w')] =>
             lazymatch F with
             | F_image => fail
             | _ => rewrite (built_frame _ _ _ Fr) by reflexivity;
                    let Mf := fresh "Mf" in
                    destruct Fr as (_ & _ & Mf & _); rewrite (Mf eq_refl)
             end
         end.
  all: rewrite Tn, built_app_old by exact B1; exact Hc.
Qed.


End WeightsClaims.

Section WeightsTheorems.

Variable X : Externals.

Variables (cfg : Config) (dir imageName : string) (secrets : list string)
  (noCache : bool)
  (useCudaBaseImage progressOutput schemaFile : string)
  (useCogBaseImage : option bool) (strip precompile fastFlag : bool)
  (annotations : gmap string string) (localImage : bool).


(** C10. When the persisted manifest cannot be loaded, [Build] has no
    manifest to compare with and goes on as it does when the manifest
    changed: it builds the weights image and, when that build succeeds,
    persists the fresh manifest. *)
Theorem manifest_load_failure_forces_rebuild
    files persisted env r w' g1 sp g2 wm cached e :
  only_load_faults X ->
  Build X cfg dir imageName secrets noCache true useCudaBaseImage
    progressOutput schemaFile "" useCogBaseImage strip precompile
    fastFlag annotations localImage (initial files persisted env) = (r, w') ->
  In (EGenerateModelBaseWithSeparateWeights g1 imageName (Ok sp)) (trace w') ->
  In (EGenerateWeightsManifest g2 (Ok wm)) (trace w') ->
  In (ELoadManifest weightsManifestPath (cached, Some e)) (trace w') ->
  cached = None
  /\ rebuilt imageName sp wm persisted (built (trace w')) (manifests w').
Proof.
  intros Hlf Hrun Hg Hm Hl.
  eapply Build_weights_decision in Hrun as (loaded & _ & Hu & _ & Hs & Hc);
    [| exact Hlf | exact Hg | exact Hm].
  rewrite <- (Hu _ _ Hl) in Hs, Hc. cbn [fst snd] in Hs, Hc.
  destruct Hs as [Hs | ->]; [discriminate Hs |].
  split; [reflexivity | exact Hc].
Qed.

End WeightsTheorems.


Lemma demo_only_load_faults failing layers managed valid git :
  only_load_faults (demo failing layers managed valid git).
Proof. intros op w _. reflexivity. Qed.

Lemma manifest_load_failure_forces_rebuild_witness :
  let X := demo (fun _ => false) [] false true false in
  let wm : gmap string string := {[ "weights/model.bin" := "sha256:aa" ]} in
  let sp := mkSplit "FROM scratch" "FROM model-weights" "weights/" in
  let run := demo_Build X true "" "" ∅ ∅ ∅ in
  only_load_faults X
  /\ In (ELoadManifest weightsManifestPath (None, Some (ErrNotExist weightsManifestPath)))
        (trace (snd run))
  /\ rebuilt "model" sp wm ∅ (built (trace (snd run))) (manifests (snd run)).
Proof.
  intros X wm sp run.
  assert (Hlf : only_load_faults X) by apply demo_only_load_faults.
  assert (Hl : In (ELoadManifest weightsManifestPath
                     (None, Some (ErrNotExist weightsManifestPath)))
                  (trace (snd run))) by find_event.
  split; [exact Hlf |]. split; [exact Hl |].
  apply (manifest_load_failure_forces_rebuild
           X demo_cfg "." "model" [] false "" "auto" "" None
           false false false ∅ false ∅ ∅ ∅ (fst run) (snd run)
           (mkGenerator demo_cfg "." false false false false "" false) sp
           (mkGenerator demo_cfg "." false false false false "" false) wm
           None (ErrNotExist weightsManifestPath) Hlf (surjective_pairing run));
    [find_event | find_event | exact Hl].
Defined.

(** C1. The run of [Build] with separate weights in which the build of the
    runner image fails: the caller's ignore file held ["*.pyc"] before the
    run; after it the ignore file holds the line written for the runner
    build, and the caller's file is left in the backup. [Build] returns at
    the failure (line 123) before [restoreDockerignore] (line 369 of
    [buildRunnerImage]) is reached, whereas the generator's [Cleanup] is
    deferred and runs. *)
Theorem failed_runner_build_leaves_ignore_file_rewritten :
  let X := demo (fun n => bool_decide (n = "model")) [] false true false in
  let files : gmap string string := {[ dockerignorePath := "*.pyc" ]} in
  let run := demo_Build X true "" "" ∅ files ∅ in
  is_ok (fst run) = false
  /\ fs (snd run) !! dockerignorePath = Some ("*.pyc" ++ newline ++ "weights/")
  /\ fs (snd run) !! dockerignoreBackupPath = Some "*.pyc"
  /\ existsb (fun e => match e with ECleanup _ _ => true | _ => false end)
       (trace (snd run)) = true.
Proof. vm_compute. repeat split. Qed.

(** * Further properties of the ignore-file operations *)

Lemma within_silent F w w' :
  (forall e, f_event F e = false) -> within F w w' -> trace w' = trace w.
Proof.
  intros Hf ([new [T A]] & _). destruct new as [| e new]; [exact T |].
  simpl in A. rewrite Hf in A. discriminate A.
Qed.

Lemma backupDockerignore_frame X : run_rel (backupDockerignore X) (within F_ignore).
Proof. frame. Qed.

Lemma writeDockerignore_frame X contents :
  run_rel (writeDockerignore X contents) (within F_write).
Proof. frame. Qed.

Lemma restoreDockerignore_frame X : run_rel (restoreDockerignore X) (within F_ignore).
Proof. frame. Qed.

Lemma is_path_two a b p : p <> a -> p <> b -> is_path [a; b] p = false.
Proof.
  intros Ha Hb. unfold is_path. apply bool_decide_eq_false.
  rewrite !elem_of_cons, elem_of_nil. tauto.
Qed.

Lemma is_path_one a p : p <> a -> is_path [a] p = false.
Proof.
  intros Ha. unfold is_path. apply bool_decide_eq_false.
  rewrite !elem_of_cons, elem_of_nil. tauto.
Qed.

Lemma within_F_ignore w w' : within F_ignore w w' -> same_but_ignore_files w w'.
Proof.
  intros H. assert (T : trace w' = trace w) by (eapply within_silent; [| exact H]; reflexivity).
  destruct H as (_ & P & Mf & E & D).
  repeat split; auto. intros p H1 H2. apply P, is_path_two; assumption.
Qed.

Lemma within_F_write w w' :
  within F_write w w' ->
  same_but_ignore_files w w' /\ fs w' !! dockerignoreBackupPath = fs w !! dockerignoreBackupPath.
Proof.
  intros H. assert (T : trace w' = trace w) by (eapply within_silent; [| exact H]; reflexivity).
  destruct H as (_ & P & Mf & E & D).
  repeat split; auto.
  intros p H1 H2. apply P, is_path_one; assumption.
Qed.

(** X6. Whatever the operating system answers, the three operations on the
    ignore file log nothing, leave manifests and environment alone and
    change no file but [.dockerignore] and [.dockerignore.cog.bak]; the
    write never changes the backup. *)
Theorem ignore_file_operations_touch_two_files X contents w r w' :
  backupDockerignore X w = (r, w')
  \/ writeDockerignore X contents w = (r, w')
  \/ restoreDockerignore X w = (r, w') ->
  same_but_ignore_files w w'
  /\ (writeDockerignore X contents w = (r, w') ->
      fs w' !! dockerignoreBackupPath = fs w !! dockerignoreBackupPath).
Proof.
  intros [H | [H | H]].
  - split; [apply within_F_ignore, (backupDockerignore_frame X _ _ _ H) |].
    intros H'. apply (within_F_write _ _ (writeDockerignore_frame X _ _ _ _ H')).
  - apply writeDockerignore_frame, within_F_write in H as [H1 H2].
    split; [exact H1 | intros _; exact H2].
  - split; [apply within_F_ignore, (restoreDockerignore_frame X _ _ _ H) |].
    intros H'. apply (within_F_write _ _ (writeDockerignore_frame X _ _ _ _ H')).
Qed.

(** ** Backup, write and restore together *)

Section IgnoreScope.

Variable X : Externals.
Hypothesis Hnf : no_faults X.

Lemma no_faults_load : only_load_faults X.
Proof. intros op w _. apply Hnf. Qed.

(** What the scope leaves in the two files. *)
Lemma scoped_write_run contents w :
  exists w',
    scoped_write X contents w = (Ok tt, w')
    /\ same_but_ignore_files w w'
    /\ fs w' !! dockerignorePath
       = match fs w !! dockerignorePath with
         | Some c => Some c
         | None => fs w !! dockerignoreBackupPath
         end
    /\ fs w' !! dockerignoreBackupPath = None.
Proof.
  unfold scoped_write, bind.
  rewrite (backupDockerignore_eq X no_faults_load).
  rewrite (writeDockerignore_eq X no_faults_load).
  rewrite (restoreDockerignore_eq X no_faults_load).
  cbn [fs set_fs]. rewrite lookup_insert_eq.
  eexists. split; [reflexivity |].
  destruct w as [f m en t d]; cbn [fs set_fs].
  unfold same_but_ignore_files; cbn [fs trace manifests environ defers set_fs].
  unfold restore_files, backup_files.
  destruct (f !! dockerignorePath) as [c |] eqn:E;
    [| destruct (f !! dockerignoreBackupPath) as [b |] eqn:E2].
  - rewrite lookup_insert_ne by discriminate. rewrite lookup_insert_eq.
    repeat split; try reflexivity.
    + intros p H1 H2.
      rewrite lookup_insert_ne, !lookup_delete_ne, lookup_insert_ne,
        lookup_insert_ne, lookup_delete_ne by congruence.
      reflexivity.
    + apply lookup_insert_eq.
    + rewrite lookup_insert_ne, lookup_delete_eq by discriminate. reflexivity.
  - rewrite lookup_insert_ne, E2 by discriminate.
    repeat split; try reflexivity.
    + intros p H1 H2.
      rewrite lookup_insert_ne, !lookup_delete_ne, lookup_insert_ne by congruence.
      reflexivity.
    + apply lookup_insert_eq.
    + rewrite lookup_insert_ne, lookup_delete_eq by discriminate. reflexivity.
  - rewrite lookup_insert_ne, E2 by discriminate.
    repeat split; try reflexivity.
    + intros p H1 H2.
      rewrite lookup_delete_ne, lookup_insert_ne by congruence.
      reflexivity.
    + apply lookup_delete_eq.
    + rewrite lookup_delete_ne, lookup_insert_ne by discriminate. exact E2.
Qed.

End IgnoreScope.

Lemma state_eq w w' :
  fs w' = fs w -> manifests w' = manifests w -> environ w' = environ w ->
  trace w' = trace w -> defers w' = defers w -> w' = w.
Proof. destruct w, w'; cbn; intros; subst; reflexivity. Qed.

(** X1. Round trip. When the operating system refuses nothing and no backup
    file is lying around, backup, write and restore in a row succeed and
    give back the very state they started in: the ignore file has its
    former contents, or is absent again if it was absent, and no backup is
    left. *)
Theorem backup_write_restore_round_trip X contents w :
  no_faults X ->
  fs w !! dockerignoreBackupPath = None ->
  scoped_write X contents w = (Ok tt, w).
Proof.
  intros Hnf Hb.
  destruct (scoped_write_run X Hnf contents w) as (w' & Hr & (T & Mf & E & D & P) & Hd & Hk).
  rewrite Hr. f_equal. apply state_eq; try assumption.
  apply map_eq. intros p.
  destruct (decide (p = dockerignorePath)) as [-> | H1].
  - rewrite Hd. destruct (fs w !! dockerignorePath); [reflexivity | exact Hb].
  - destruct (decide (p = dockerignoreBackupPath)) as [-> | H2].
    + rewrite Hk, Hb. reflexivity.
    + apply P; assumption.
Qed.

(** X2. A backup file left by an earlier run is taken for the caller's ignore
    file: when there is no ignore file but a backup, the same three steps
    end with the ignore file holding the old backup, and the backup gone. *)
Theorem stale_backup_becomes_the_ignore_file X contents w stale :
  no_faults X ->
  fs w !! dockerignorePath = None ->
  fs w !! dockerignoreBackupPath = Some stale ->
  exists w',
    scoped_write X contents w = (Ok tt, w')
    /\ fs w' !! dockerignorePath = Some stale
    /\ fs w' !! dockerignoreBackupPath = None.
Proof.
  intros Hnf Hd Hb.
  destruct (scoped_write_run X Hnf contents w) as (w' & Hr & _ & Hd' & Hk).
  exists w'. rewrite Hd, Hb in Hd'. auto.
Qed.

(** ** Edge cases of the single operations *)

(** X3. [restoreDockerignore] begins by removing the ignore file (line 413):
    when there is none it returns the error of that removal and does
    nothing, so a backup that exists is not put back. *)
Theorem restoreDockerignore_needs_an_ignore_file X w :
  fs w !! dockerignorePath = None ->
  exists e, restoreDockerignore X w = (Err e, w).
Proof.
  intros Hd. unfold restoreDockerignore, bind, os_Remove.
  destruct (os_fault X (OpRemove dockerignorePath) w) as [e |].
  - exists e. reflexivity.
  - rewrite Hd. eexists. reflexivity.
Qed.

Section SingleOps.

Variable X : Externals.
Hypothesis Hnf : no_faults X.

(** X4. The backup moves the ignore file, replacing an older backup; without
    an ignore file it does nothing. A second backup in a row therefore
    does nothing: the first one is not lost. *)
Theorem backupDockerignore_moves_once w :
  exists w1,
    backupDockerignore X w = (Ok tt, w1)
    /\ ignore_pair w1
       = (None, match fs w !! dockerignorePath with
                | Some c => Some c
                | None => fs w !! dockerignoreBackupPath
                end)
    /\ backupDockerignore X w1 = (Ok tt, w1).
Proof.
  rewrite (backupDockerignore_eq X (no_faults_load X Hnf)).
  eexists. split; [reflexivity |].
  rewrite (backupDockerignore_eq X (no_faults_load X Hnf)).
  destruct w as [f m en t d]. unfold ignore_pair. cbn [fs set_fs].
  assert (Hgone : backup_files f !! dockerignorePath = None).
  { unfold backup_files. destruct (f !! dockerignorePath) eqn:E; [| exact E].
    rewrite lookup_insert_ne, lookup_delete_eq by discriminate. reflexivity. }
  split.
  - rewrite Hgone. f_equal. unfold backup_files.
    destruct (f !! dockerignorePath) eqn:E; [apply lookup_insert_eq | reflexivity].
  - f_equal. unfold set_fs; cbn [fs manifests environ trace defers]. f_equal. unfold backup_files at 1. rewrite Hgone. reflexivity.
Qed.

(** X5. The ignore file of the weights build (lines 375-384) keeps the
    caller's exclusions: it is the caller's ignore file, a newline and
    the header; the header alone when the caller has no ignore file and
    no backup is lying around. *)
Theorem makeDockerignoreForWeightsImage_keeps_exclusions w :
  exists w',
    makeDockerignoreForWeightsImage X w = (Ok tt, w')
    /\ same_but_ignore_files w w'
    /\ fs w' !! dockerignorePath
       = Some match fs w !! dockerignorePath with
              | Some c => c ++ newline ++ DockerignoreHeader X
              | None =>
                  match fs w !! dockerignoreBackupPath with
                  | Some b => b ++ newline ++ DockerignoreHeader X
                  | None => DockerignoreHeader X
                  end
              end.
Proof.
  unfold makeDockerignoreForWeightsImage, bind, wrap.
  rewrite (backupDockerignore_eq X (no_faults_load X Hnf)).
  rewrite (writeDockerignore_eq X (no_faults_load X Hnf)).
  eexists. split; [reflexivity |].
  destruct w as [f m en t d].
  unfold same_but_ignore_files, written, backup_files;
    cbn [fs trace manifests environ defers set_fs].
  rewrite lookup_insert_eq.
  destruct (f !! dockerignorePath) as [c |] eqn:E.
  - rewrite lookup_insert_eq. repeat split; try reflexivity.
    intros p H1 H2.
    rewrite lookup_insert_ne, lookup_insert_ne, lookup_delete_ne by congruence.
    reflexivity.
  - repeat split; try reflexivity.
    all: try (intros p H1 H2; rewrite lookup_insert_ne by congruence; reflexivity).
    all: destruct (f !! dockerignoreBackupPath); reflexivity.
Qed.

End SingleOps.

(** ** A successful build with separate weights and the ignore file *)

Lemma backup_files_gone f : backup_files f !! dockerignorePath = None.
Proof.
  unfold backup_files. destruct (f !! dockerignorePath) eqn:E; [| exact E].
  rewrite lookup_insert_ne, lookup_delete_eq by discriminate. reflexivity.
Qed.

Lemma backup_files_twice f : backup_files (backup_files f) = backup_files f.
Proof. unfold backup_files at 1. rewrite backup_files_gone. reflexivity. Qed.

Lemma restore_after_backup f c :
  f !! dockerignoreBackupPath = None ->
  restore_files (<[dockerignorePath := c]> (backup_files f)) !! dockerignorePath
  = f !! dockerignorePath
  /\ restore_files (<[dockerignorePath := c]> (backup_files f)) !! dockerignoreBackupPath
     = None.
Proof.
  intros Hb. unfold restore_files, backup_files.
  rewrite lookup_insert_ne by discriminate.
  destruct (f !! dockerignorePath) as [d |] eqn:E.
  - rewrite lookup_insert_eq. split.
    + apply lookup_insert_eq.
    + rewrite lookup_insert_ne, lookup_delete_eq by discriminate. reflexivity.
  - rewrite Hb. split.
    + apply lookup_delete_eq.
    + rewrite lookup_delete_ne, lookup_insert_ne by discriminate. exact Hb.
Qed.

Lemma append_same_nil (s t : string) : s ++ t = s -> t = "".
Proof.
  induction s as [| c s IH]; simpl; [auto |].
  intros H. injection H as H. auto.
Qed.

Lemma weights_name_differs (imageName : string) : imageName ++ "-weights" <> imageName.
Proof. intros H. apply append_same_nil in H. discriminate H. Qed.

Section WeightsIgnoreFile.

Variable X : Externals.
Hypothesis Hlf : only_load_faults X.

Variables (dir imageName : string) (secrets : list string) (noCache : bool)
  (progressOutput : string).

Lemma Build_withSeparateWeights_restores g ctx bc w w' :
  fs w !! dockerignoreBackupPath = None ->
  Build_withSeparateWeights X dir imageName secrets noCache progressOutput g ctx bc w
  = (Ok tt, w') ->
  ignore_pair w' = ignore_pair w.
Proof.
  intros Hb H.
  unfold Build_withSeparateWeights, buildWeightsImage, makeDockerignoreForWeightsImage,
    buildRunnerImage in H.
  run_ops H Hlf.
  all: unfold ignore_pair; cbn [fs set_fs push set_manifests].
  all: clear - Hb.
  all: repeat match goal with
         | |- context [written ?c ?w] => generalize (written c w); intros ?
         end.
  all: rewrite ?insert_insert_eq, ?backup_files_twice.
  all: match goal with
       | |- context [restore_files (<[_ := ?c]> _)] =>
           destruct (restore_after_backup (fs w) c Hb) as [-> ->]
       end.
  all: rewrite Hb; reflexivity.
Qed.

(** A run in which the runner image was built went through to the end. *)
Lemma Build_withSeparateWeights_runner g ctx bc w r w' :
  Build_withSeparateWeights X dir imageName secrets noCache progressOutput g ctx bc w
  = (r, w') ->
  exists new,
    trace w' = (new ++ trace w)%list
    /\ forall a, In (EDockerBuild a (Ok tt)) new -> b_imageName a = imageName ->
         r = Ok tt.
Proof.
  intros H.
  unfold Build_withSeparateWeights, buildWeightsImage, makeDockerignoreForWeightsImage,
    buildRunnerImage in H.
  run_ops H Hlf.
  all: eexists; (split; [new_events |]).
  all: intros b Hin Hname; in_events Hin.
  all: match type of Hin with
       | EDockerBuild ?x _ = _ =>
           assert (Hx : b_imageName x = imageName) by congruence;
           cbn [b_imageName] in Hx
       end.
  all: try (apply weights_name_differs in Hx; destruct Hx).
  all: repeat match goal with u : unit |- _ => destruct u end; reflexivity.
Qed.

End WeightsIgnoreFile.

Lemma ignore_pair_frame F w w' :
  within F w w' ->
  f_path F dockerignorePath = false -> f_path F dockerignoreBackupPath = false ->
  ignore_pair w' = ignore_pair w.
Proof.
  intros (_ & P & _) H1 H2. unfold ignore_pair. rewrite !P by assumption. reflexivity.
Qed.

Section RestoredIgnoreFile.

Variable X : Externals.
Hypothesis Hlf : only_load_faults X.

Variables (cfg : Config) (dir imageName : string) (secrets : list string)
  (noCache : bool)
  (useCudaBaseImage progressOutput schemaFile : string)
  (useCogBaseImage : option bool) (strip precompile fastFlag : bool)
  (annotations : gmap string string) (localImage : bool).

Lemma Build_image_restores w r w' :
  fs w !! dockerignoreBackupPath = None ->
  Build_image X cfg dir imageName secrets noCache true useCudaBaseImage
    progressOutput "" useCogBaseImage strip precompile fastFlag localImage w
  = (r, w') ->
  exists new,
    trace w' = (new ++ trace w)%list
    /\ forall a, In (EDockerBuild a (Ok tt)) new -> b_imageName a = imageName ->
         ignore_pair w' = ignore_pair w.
Proof.
  intros Hb H. unfold Build_image, Build_withGenerator in H. run H.
  all: try congruence.
  all: try match goal with
         | H : Build_withSeparateWeights _ _ _ _ _ _ _ _ _ _ = _ |- _ =>
             pose proof (Build_withSeparateWeights_runner X Hlf _ _ _ _ _ _ _ _ _ _ _ H)
               as (nb & Tb & Hrn)
         end.
  all: eexists; (split; [rewrite ?Tb; new_events |]).
  all: intros ba Hin Hname; in_events Hin.
  all: specialize (Hrn _ Hin Hname); try discriminate Hrn.
  all: repeat match goal with u : unit |- _ => destruct u end.
  all: match goal with
       | H : Build_withSeparateWeights _ _ _ _ _ _ _ _ _ _ = _ |- _ =>
           apply Build_withSeparateWeights_restores in H; [exact H | exact Hlf | exact Hb]
       end.
Qed.

(** X7. When the runner image of a build with separate weights was built, the
    ignore file is, at the end of the run, what it was at the start, and
    no backup is left; whatever happens to the schema and the labels
    afterwards. The operating system refuses no operation on these
    files, and no backup was lying around at the start. *)
Theorem built_runner_image_means_ignore_file_restored files persisted env r w' a :
  files !! dockerignoreBackupPath = None ->
  Build X cfg dir imageName secrets noCache true useCudaBaseImage
    progressOutput schemaFile "" useCogBaseImage strip precompile
    fastFlag annotations localImage (initial files persisted env) = (r, w') ->
  In (EDockerBuild a (Ok tt)) (trace w') ->
  b_imageName a = imageName ->
  fs w' !! dockerignorePath = files !! dockerignorePath
  /\ fs w' !! dockerignoreBackupPath = None.
Proof.
  intros Hb Hrun Hin Hname.
  enough (E : ignore_pair w' = (files !! dockerignorePath, None))
    by (injection E as E1 E2; split; assumption).
  rewrite <- Hb. change (ignore_pair w' = ignore_pair (initial files persisted env)).
  build_stages Hrun; trace_back Hin.
  all: rewrite (ignore_pair_frame _ _ _ (run_defers_frame X _ _)) by reflexivity.
  all: change (ignore_pair (set_defers [] ?w)) with (ignore_pair w).
  all: repeat match goal with
         | Fr : within ?F ?w ?w' |- ignore_pair ?w' = _ =>
             lazymatch F with
             | F_image => fail
             | _ => rewrite (ignore_pair_frame _ _ _ Fr) by reflexivity
             end
         end.
  all: rewrite <- (ignore_pair_frame _ _ _ F) by reflexivity.
  all: assert (Hb1 : fs w1 !! dockerignoreBackupPath = None)
    by (destruct F as (_ & P & _); rewrite P by reflexivity; exact Hb).
  all: destruct (Build_image_restores _ _ _ Hb1 Him) as (new & Tn & Hnew).
  all: rewrite Tn in Hin; apply in_app_or in Hin as [Hin | Hin]; [| trace_back Hin].
  all: exact (Hnew _ Hin Hname).
Qed.

End RestoredIgnoreFile.

(** ** Builds without separate weights *)

Ltac one_build :=
  do 4 eexists; split; [event_in_trace |]; split; [event_in_trace |]; reflexivity.

Section PlainBuild.

Variable X : Externals.

Variables (cfg : Config) (dir imageName : string) (secrets : list string)
  (noCache : bool)
  (useCudaBaseImage progressOutput schemaFile : string)
  (useCogBaseImage : option bool) (strip precompile fastFlag : bool)
  (annotations : gmap string string) (localImage : bool).

Lemma Build_image_plain_frame :
  run_rel (Build_image X cfg dir imageName secrets noCache false useCudaBaseImage
             progressOutput "" useCogBaseImage strip precompile fastFlag localImage)
          (within F_plain).
Proof. frame. Qed.

Lemma Build_image_plain_run w r w' :
  Build_image X cfg dir imageName secrets noCache false useCudaBaseImage
    progressOutput "" useCogBaseImage strip precompile fastFlag localImage w
  = (r, w') ->
  exists new,
    trace w' = (new ++ trace w)%list
    /\ (forall g df,
          In (EGenerateDockerfileWithoutSeparateWeights g (Ok df)) new ->
          exists g0 ctx bc rb,
            In (EBuildDir g0 (Ok ctx)) new
            /\ In (EBuildContexts g0 (Ok bc)) new
            /\ docker_builds_rev new
               = [(mkBuildArgs dir df imageName secrets noCache progressOutput
                     (BuildSourceEpochTimestamp X) ctx bc, rb)])
    /\ ((forall g df, ~ In (EGenerateDockerfileWithoutSeparateWeights g (Ok df)) new) ->
        docker_builds_rev new = []).
Proof.
  intros H.
  unfold Build_image, Build_withGenerator, Build_withoutSeparateWeights in H. run H.
  all: try congruence.
  all: eexists; (split; [new_events |]).
  all: split;
    [ intros g df Hin; in_events Hin; simplify_eq; one_build
    | first [ intros _; reflexivity
            | intros Hno; exfalso; eapply Hno; event_in_trace ] ].
Qed.

End PlainBuild.

(** ** Frames of a whole run *)

Lemma within_weaken F G w w' : frame_le F G -> within F w w' -> within G w w'.
Proof.
  intros (He & Hp & Hm & Hd) ([new [T A]] & P & Mf & E & D).
  repeat split.
  - exists new. split; [exact T |].
    rewrite forallb_forall in *. auto.
  - intros p Hq. apply P. destruct (f_path F p) eqn:Ep; [| reflexivity].
    rewrite (Hp _ Ep) in Hq. discriminate Hq.
  - intros Hq. apply Mf. destruct (f_manifest F); [| reflexivity].
    rewrite Hm in Hq; [discriminate Hq | reflexivity].
  - exact E.
  - intros Hq. apply D. destruct (f_defer F); [| reflexivity].
    rewrite Hd in Hq; [discriminate Hq | reflexivity].
Qed.

Lemma within_set_defers F ds w : f_defer F = true -> within F w (set_defers ds w).
Proof.
  intros Hd. repeat split; auto.
  - exists []. split; reflexivity.
  - rewrite Hd. discriminate.
Qed.

Lemma is_path_incl l l' p : l ⊆ l' -> is_path l p = true -> is_path l' p = true.
Proof.
  unfold is_path. intros Hl Hp. apply bool_decide_eq_true in Hp.
  apply bool_decide_eq_true. auto.
Qed.

(** Inclusion of one explicit list of paths in another. *)
Ltac path_incl :=
  unfold build_paths; intros ?; rewrite ?elem_of_cons, ?elem_of_nil; tauto.

(** Inclusion of one frame in another, event by event. *)
Ltac frame_incl :=
  repeat split;
  cbn [f_event f_path f_manifest f_defer
       F_check F_image F_schema F_labels F_cleanup F_plain F_plain_run F_args];
  lazymatch goal with
  | |- forall e : Event, _ =>
      intros e He; destruct e; cbn in He |- *;
      repeat match goal with
        | H : context [if ?b then _ else _] |- _ => destruct b
        end;
      first [reflexivity | discriminate He | assumption]
  | |- forall p : string, _ =>
      intros p; first [intros _; reflexivity | apply is_path_incl; path_incl]
  | |- _ => first [reflexivity | intros H; first [discriminate H | reflexivity]]
  end.

Section WholeRun.

Variable X : Externals.

Variables (cfg : Config) (dir imageName : string) (secrets : list string)
  (noCache separateWeights : bool)
  (useCudaBaseImage progressOutput schemaFile dockerfileFile : string)
  (useCogBaseImage : option bool) (strip precompile fastFlag : bool)
  (annotations : gmap string string) (localImage : bool).

(** A run of [Build] stays within every frame that holds the frames of
    its stages, the image phase with the frame [Fi] that is proved for it. *)
Lemma Build_within Fi G w r w' :
  run_rel (Build_image X cfg dir imageName secrets noCache separateWeights
             useCudaBaseImage progressOutput dockerfileFile useCogBaseImage
             strip precompile fastFlag localImage) (within Fi) ->
  frame_le F_check G -> frame_le Fi G -> frame_le F_schema G ->
  frame_le F_labels G -> frame_le F_cleanup G -> f_defer G = true ->
  Build X cfg dir imageName secrets noCache separateWeights useCudaBaseImage
    progressOutput schemaFile dockerfileFile useCogBaseImage strip precompile
    fastFlag annotations localImage w = (r, w') ->
  within G w w'.
Proof.
  intros Hfi L1 L2 L3 L4 L5 Hd Hrun.
  build_stages Hrun.
  all: try (apply Hfi in Him).
  all: eapply within_trans;
    [| eapply within_weaken; [exact L5 | apply run_defers_frame]].
  all: eapply within_trans; [| apply within_set_defers; exact Hd].
  all: repeat match goal with
         | Fr : within ?F ?a ?b |- within _ _ ?b =>
             eapply within_trans; [| eapply within_weaken; [| exact Fr]; assumption]
         end.
  all: apply within_refl.
Qed.

End WholeRun.

Section PlainBuildTheorem.

Variable X : Externals.

Variables (cfg : Config) (dir imageName : string) (secrets : list string)
  (noCache : bool)
  (useCudaBaseImage progressOutput schemaFile : string)
  (useCogBaseImage : option bool) (strip precompile fastFlag : bool)
  (annotations : gmap string string) (localImage : bool).

(** X8. Without separate weights and without a Dockerfile of the caller,
    [Build] makes no call of the weights path, leaves the ignore file, its
    backup and the persisted manifests alone, and asks the build engine
    for exactly one build: of the Dockerfile the generator gave, under the
    image name, with the caller's secrets and cache flag, in the
    generator's build directory and contexts. When no Dockerfile was
    generated, nothing is built. *)
Theorem plain_build_is_one_build_of_the_generated_dockerfile
    files persisted env r w' :
  Build X cfg dir imageName secrets noCache false useCudaBaseImage
    progressOutput schemaFile "" useCogBaseImage strip precompile
    fastFlag annotations localImage (initial files persisted env) = (r, w') ->
  (forall e, In e (trace w') -> is_weights_event e = false)
  /\ fs w' !! dockerignorePath = files !! dockerignorePath
  /\ fs w' !! dockerignoreBackupPath = files !! dockerignoreBackupPath
  /\ manifests w' = persisted
  /\ (forall g df,
        In (EGenerateDockerfileWithoutSeparateWeights g (Ok df)) (trace w') ->
        exists g0 ctx bc rb,
          In (EBuildDir g0 (Ok ctx)) (trace w')
          /\ In (EBuildContexts g0 (Ok bc)) (trace w')
          /\ docker_builds (trace w')
             = [(mkBuildArgs dir df imageName secrets noCache progressOutput
                   (BuildSourceEpochTimestamp X) ctx bc, rb)])
  /\ ((forall g df,
         ~ In (EGenerateDockerfileWithoutSeparateWeights g (Ok df)) (trace w')) ->
      docker_builds (trace w') = []).
Proof.
  intros Hrun.
  pose proof (Build_within X _ _ _ _ _ _ _ _ _ _ _ _ _ _ _ _ F_plain F_plain_run _ _ _
                (Build_image_plain_frame X cfg dir imageName secrets noCache
                   useCudaBaseImage progressOutput useCogBaseImage strip precompile
                   fastFlag localImage)
                ltac:(frame_incl) ltac:(frame_incl) ltac:(frame_incl)
                ltac:(frame_incl) ltac:(frame_incl) eq_refl Hrun)
    as ([new [T A]] & P & Mf & _).
  split.
  { intros e He. rewrite T in He. cbn [trace initial] in He. rewrite app_nil_r in He.
    rewrite forallb_forall in A. apply A in He. cbn in He.
    destruct (is_weights_event e); [discriminate He | reflexivity]. }
  split; [apply P; reflexivity |]. split; [apply P; reflexivity |].
  split; [apply Mf; reflexivity |].
  clear new T A P Mf.
  build_stages Hrun.
  all: assert (B1 : docker_builds_rev (trace w1) = [])
    by (destruct F as ([n1 [T1 A1]] & _); rewrite T1; cbn [trace initial];
        rewrite app_nil_r; eapply docker_builds_rev_none; [exact A1 | reflexivity]).
  all: try (destruct (Build_image_plain_run _ _ _ _ _ _ _ _ _ _ _ _ _ _ _ _ Him)
              as (new & Tn & Hone & Hnone)).
  all: rewrite (docker_builds_frame _ _ _ (run_defers_frame X _ _)) by reflexivity;
    cbn [trace set_defers];
    repeat match goal with
      | Fr : within ?F ?w ?w' |- context [docker_builds (trace ?w')] =>
          lazymatch F with
          | F_image => fail
          | _ => rewrite (docker_builds_frame _ _ _ Fr) by reflexivity
          end
      end.
  all: split.
  all: try (intros g df Hin; trace_back Hin; fail).
  all: try (intros _; reflexivity).
  all: lazymatch goal with
       | |- (forall g df, ~ _) -> _ =>
           intros Hno; unfold docker_builds;
           rewrite Tn, docker_builds_rev_app, B1, Hnone; [reflexivity |];
           intros g df Hin; apply (Hno g df);
           assert (Hin' : In (EGenerateDockerfileWithoutSeparateWeights g (Ok df))
                             (trace w2))
             by (rewrite Tn; apply in_or_app; left; exact Hin);
           trace_fwd
       | |- _ =>
           intros g df Hin; trace_back Hin; rewrite Tn in Hin;
           (apply in_app_or in Hin as [Hin | Hin]; [| trace_back Hin]);
           destruct (Hone _ _ Hin) as (g0 & ctx & bc & rb & H1 & H2 & H3);
           exists g0, ctx, bc, rb;
           assert (H1' : In (EBuildDir g0 (Ok ctx)) (trace w2))
             by (rewrite Tn; apply in_or_app; left; exact H1);
           assert (H2' : In (EBuildContexts g0 (Ok bc)) (trace w2))
             by (rewrite Tn; apply in_or_app; left; exact H2);
           (split; [trace_fwd |]); (split; [trace_fwd |]);
           unfold docker_builds; rewrite Tn, docker_builds_rev_app, B1, H3; reflexivity
       end.
Qed.

End PlainBuildTheorem.

(** ** The deferred cleanup *)

Lemma cleanups_app t1 t2 : cleanups (t1 ++ t2) = (cleanups t1 ++ cleanups t2)%list.
Proof.
  induction t1 as [| e t1 IH]; [reflexivity |].
  destruct e; simpl; rewrite ?IH; reflexivity.
Qed.

Lemma cleanups_none f t :
  forallb f t = true -> (forall g r, f (ECleanup g r) = false) -> cleanups t = [].
Proof.
  intros Hall Hf. induction t as [| e t IH]; [reflexivity |].
  simpl in Hall. apply andb_true_iff in Hall as [He Ht].
  destruct e; simpl; auto. rewrite Hf in He. discriminate.
Qed.

Lemma cleanups_frame F w w' :
  within F w w' -> (forall g r, f_event F (ECleanup g r) = false) ->
  cleanups (trace w') = cleanups (trace w).
Proof.
  intros ([new [-> Hall]] & _) Hf.
  rewrite cleanups_app, (cleanups_none _ _ Hall Hf). reflexivity.
Qed.

Section Cleanup.

Variable X : Externals.

Variables (cfg : Config) (dir imageName : string) (secrets : list string)
  (noCache separateWeights : bool)
  (useCudaBaseImage progressOutput schemaFile dockerfileFile : string)
  (useCogBaseImage : option bool) (strip precompile fastFlag : bool)
  (annotations : gmap string string) (localImage : bool).

Lemma Build_withSeparateWeights_built generator contextDir buildContexts :
  run_rel (Build_withSeparateWeights X dir imageName secrets noCache progressOutput
             generator contextDir buildContexts)
          (within F_built).
Proof. frame. Qed.

Lemma Build_withoutSeparateWeights_built generator contextDir buildContexts :
  run_rel (Build_withoutSeparateWeights X dir imageName secrets noCache progressOutput
             generator contextDir buildContexts)
          (within F_built).
Proof. frame. Qed.

(** What the image phase leaves registered: the configured generator,
    once the build contexts were obtained. *)
Lemma Build_image_defers w r w' :
  Build_image X cfg dir imageName secrets noCache separateWeights useCudaBaseImage
    progressOutput dockerfileFile useCogBaseImage strip precompile fastFlag
    localImage w = (r, w') ->
  exists new,
    trace w' = (new ++ trace w)%list
    /\ (forall g bc, In (EBuildContexts g (Ok bc)) new ->
          defers w'
          = configured strip precompile useCudaBaseImage useCogBaseImage g :: defers w)
    /\ ((forall g bc, ~ In (EBuildContexts g (Ok bc)) new) -> defers w' = defers w).
Proof.
  intros H. unfold Build_image, Build_withGenerator, Build_withDockerfile in H. run H.
  all: repeat match goal with
         | H : Build_withSeparateWeights _ _ _ _ _ _ _ _ _ _ = _ |- _ =>
             apply Build_withSeparateWeights_built in H;
             destruct H as ([nb [Tb Ab]] & _ & _ & _ & Db); specialize (Db eq_refl)
         | H : Build_withoutSeparateWeights _ _ _ _ _ _ _ _ _ _ = _ |- _ =>
             apply Build_withoutSeparateWeights_built in H;
             destruct H as ([nb [Tb Ab]] & _ & _ & _ & Db); specialize (Db eq_refl)
         end.
  all: eexists; (split; [rewrite ?Tb; new_events |]).
  all: split;
    [ intros g bc Hin; in_events Hin;
      try (rewrite forallb_forall in Ab; apply Ab in Hin; discriminate Hin);
      simplify_eq; cbn [defers push set_defers]; rewrite ?Db; reflexivity
    | intros Hno;
      first [ cbn [defers push set_defers]; rewrite ?Db; reflexivity
            | exfalso; eapply Hno; try (apply in_or_app; right);
              repeat first [left; reflexivity | right] ] ].
Qed.

Lemma run_defers_one g w :
  defers w = [] ->
  exists rc warn,
    trace (run_defers X [g] w) = (warn ++ ECleanup g rc :: trace w)%list
    /\ (forall e, In e warn -> exists msg, e = EConsole "warn" msg)
    /\ cleanups warn = [].
Proof.
  intros _. unfold run_defers, generator_Cleanup, extern.
  destruct (x_Cleanup X g w) as [u | e].
  - exists (Ok u), []. split; [reflexivity |]. split; [intros e [] | reflexivity].
  - exists (Err e), [EConsole "warn" ("Error cleaning up Dockerfile generator: " ++ err_text e)].
    split; [reflexivity |]. split; [| reflexivity].
    intros e0 [<- | []]. eexists. reflexivity.
Qed.

(** X9. The cleanup of the generator is deferred (lines 77-81): in every run
    of [Build] in which the build contexts were obtained, [Cleanup] is
    called exactly once, on the generator as the setters left it, after
    every other call of the run, whether the run fails or not; at most
    the warning about a failed cleanup follows. In a run that did not get
    that far there is no cleanup. *)
Theorem deferred_cleanup_runs_once_on_every_path files persisted env r w' :
  Build X cfg dir imageName secrets noCache separateWeights useCudaBaseImage
    progressOutput schemaFile dockerfileFile useCogBaseImage strip precompile
    fastFlag annotations localImage (initial files persisted env) = (r, w') ->
  (forall g bc,
     In (EBuildContexts g (Ok bc)) (trace w') ->
     exists rc warn rest,
       cleanups (trace w')
       = [(configured strip precompile useCudaBaseImage useCogBaseImage g, rc)]
       /\ trace w'
          = (warn ++ ECleanup (configured strip precompile useCudaBaseImage
                                 useCogBaseImage g) rc :: rest)%list
       /\ forall e, In e warn -> exists msg, e = EConsole "warn" msg)
  /\ ((forall g bc, ~ In (EBuildContexts g (Ok bc)) (trace w')) ->
      cleanups (trace w') = []).
Proof.
  intros Hrun. build_stages Hrun.
  all: assert (D1 : defers w1 = [])
    by (destruct F as (_ & _ & _ & _ & D); apply D; reflexivity).
  all: assert (C1 : cleanups (trace w1) = [])
    by (rewrite (cleanups_frame _ _ _ F) by reflexivity; reflexivity).
  all: try (destruct (Build_image_defers _ _ _ Him) as (new & Tn & Hone & Hnone);
            rewrite D1 in Hone, Hnone;
            assert (C2 : cleanups (trace w2) = [])
              by (rewrite (cleanups_frame _ _ _ F0) by reflexivity; exact C1)).
  all: try (assert (D3 : defers w3 = defers w2)
              by (destruct F1 as (_ & _ & _ & _ & D); apply D; reflexivity);
            assert (C3 : cleanups (trace w3) = [])
              by (rewrite (cleanups_frame _ _ _ F1) by reflexivity; exact C2)).
  all: try (assert (D4 : defers w4 = defers w3)
              by (destruct F2 as (_ & _ & _ & _ & D); apply D; reflexivity);
            assert (C4 : cleanups (trace w4) = [])
              by (rewrite (cleanups_frame _ _ _ F2) by reflexivity; exact C3)).
  all: split.
  all: try (intros g bc Hin; trace_back Hin; fail).
  all: try (intros _; rewrite D1; cbn [run_defers trace set_defers]; exact C1).
  all: rewrite ?D4, ?D3.
  all: lazymatch goal with
       | |- (forall g bc, ~ _) -> _ =>
           intros Hno; rewrite Hnone;
           [ cbn [run_defers trace set_defers]; assumption |];
           intros g bc Hin; apply (Hno g bc);
           assert (Hin' : In (EBuildContexts g (Ok bc)) (trace w2))
             by (rewrite Tn; apply in_or_app; left; exact Hin);
           trace_fwd
       | |- context [run_defers X _ (set_defers [] ?wN)] =>
           intros g bc Hin; trace_back Hin; rewrite Tn in Hin;
           (apply in_app_or in Hin as [Hin | Hin]; [| trace_back Hin]);
           rewrite (Hone _ _ Hin);
           destruct (run_defers_one
                       (configured strip precompile useCudaBaseImage useCogBaseImage g)
                       (set_defers [] wN) eq_refl)
             as (rc & warn & Tw & Hw & Cw);
           exists rc, warn, (trace wN);
           rewrite Tw; cbn [trace set_defers];
           (split; [| split; [reflexivity | exact Hw]]);
           rewrite cleanups_app, Cw; cbn [cleanups app];
           repeat match goal with Hc : cleanups _ = [] |- _ => rewrite Hc end;
           reflexivity
       end.
Qed.

End Cleanup.

(** ** The successful path of a program *)

Lemma bind_Ok {A B} (m : M A) (k : A -> M B) w b w' :
  bind m k w = (Ok b, w') ->
  exists a w1, m w = (Ok a, w1) /\ k a w1 = (Ok b, w').
Proof.
  unfold bind. destruct (m w) as [[a | e] w1]; [eauto | discriminate].
Qed.

Lemma wrap_Ok {A} (f : error -> error) (m : M A) w a w' :
  wrap f m w = (Ok a, w') -> m w = (Ok a, w').
Proof.
  unfold wrap. destruct (m w) as [[a0 | e] w1]; [auto | discriminate].
Qed.

Lemma ret_Ok {A} (a b : A) w w' : ret a w = (Ok b, w') -> a = b /\ w = w'.
Proof. intros [= -> ->]. auto. Qed.

Lemma extern_Ok {A} (oracle : State -> Res A) (ev : Res A -> Event) w a w' :
  extern oracle ev w = (Ok a, w') -> oracle w = Ok a /\ w' = push (ev (Ok a)) w.
Proof.
  unfold extern. intros [= H <-]. rewrite H. auto.
Qed.

Lemma os_ReadFile_Ok X path w data w' :
  os_ReadFile X path w = (Ok data, w') -> fs w !! path = Some data /\ w' = w.
Proof.
  unfold os_ReadFile. destruct (os_fault X _ w); [discriminate |].
  destruct (fs w !! path); intros [= <- <-]; auto.
Qed.

Lemma os_WriteFile_Ok X path data perm w u w' :
  os_WriteFile X path data perm w = (Ok u, w') -> w' = set_fs (insert path data) w.
Proof.
  unfold os_WriteFile. destruct (os_fault X _ w); intros H; congruence.
Qed.

Lemma emit_Ok e w u w' : emit e w = (Ok u, w') -> w' = push e w.
Proof. intros H. injection H as _ <-. reflexivity. Qed.

(** Follow [H : m w = (Ok a, w')] along the binds of [m]. *)
Ltac ok_path H :=
  lazymatch type of H with
  | bind _ _ _ = (Ok _, _) =>
      let H1 := fresh "Hok" in
      let H2 := fresh "Hok" in
      apply bind_Ok in H as (? & ? & H1 & H2); ok_path H1; ok_path H2
  | wrap _ _ _ = (Ok _, _) => apply wrap_Ok in H; ok_path H
  | ret _ _ = (Ok _, _) => apply ret_Ok in H as [? ?]; subst
  | extern _ _ _ = (Ok _, _) =>
      let Ho := fresh "Hcall" in apply extern_Ok in H as [Ho ?]; subst
  | (if ?b then _ else _) _ = (Ok _, _) => destruct b eqn:?; ok_path H
  | (match ?x with _ => _ end) _ = (Ok _, _) => destruct x eqn:?; ok_path H
  | fail _ _ = (Ok _, _) => discriminate H
  | emit _ _ = (Ok _, _) => apply emit_Ok in H; subst
  | os_ReadFile _ _ _ = (Ok _, _) =>
      let Hr := fresh "Hread" in apply os_ReadFile_Ok in H as [Hr ?]; subst
  | os_WriteFile _ _ _ _ _ = (Ok _, _) => apply os_WriteFile_Ok in H; subst
  | _ => idtac
  end.

(** Find an event in a list of events and of blocks of events. *)
Ltac in_new := repeat first [left; reflexivity | right | apply in_or_app; right].

Section OkPath.

Variable X : Externals.

Variables (cfg : Config) (dir imageName : string) (secrets : list string)
  (noCache separateWeights : bool)
  (useCudaBaseImage progressOutput schemaFile dockerfileFile : string)
  (useCogBaseImage : option bool) (strip precompile fastFlag : bool)
  (annotations : gmap string string) (localImage : bool).

(** The image phase succeeds only when the image named [imageName] was
    built. *)
Lemma Build_image_ok w name w' :
  Build_image X cfg dir imageName secrets noCache separateWeights useCudaBaseImage
    progressOutput dockerfileFile useCogBaseImage strip precompile fastFlag
    localImage w = (Ok name, w') ->
  exists a, In (EDockerBuild a (Ok tt)) (trace w') /\ b_imageName a = imageName.
Proof.
  intros H.
  unfold Build_image, Build_withGenerator, Build_withDockerfile,
    Build_withSeparateWeights, Build_withoutSeparateWeights, buildRunnerImage in H.
  autounfold with build_calls in H.
  ok_path H.
  all: repeat match goal with
         | H : restoreDockerignore _ _ = _ |- _ =>
             apply restoreDockerignore_frame, within_silent in H;
             [rewrite H; clear H | reflexivity]
         end.
  all: repeat match goal with u : unit |- _ => destruct u end.
  all: eexists; split; [left; reflexivity | reflexivity].
Qed.

(** The schema phase succeeds only when the document it returns was
    stored, loaded and validated. *)
Lemma Build_schema_ok w js w' :
  Build_schema X cfg imageName schemaFile w = (Ok js, w') ->
  fs w' !! bundledSchemaFile = Some js
  /\ (schemaFile <> "" -> fs w !! schemaFile = Some js)
  /\ exists doc,
       In (ELoadFromData js (Ok doc)) (trace w')
       /\ In (EValidate doc (Ok tt)) (trace w').
Proof.
  intros H. unfold Build_schema in H. autounfold with build_calls in H.
  ok_path H.
  all: repeat match goal with u : unit |- _ => destruct u end.
  all: cbn [fs trace push set_fs].
  all: split; [apply lookup_insert_eq |].
  all: cbn [fs trace push set_fs] in *.
  all: split; [intros; first [assumption | contradiction] |].
  all: eexists; split; [right; left; reflexivity | left; reflexivity].
Qed.

(** The labels that are attached: the base labels, but for the keys set
    later and for the annotations. *)
Lemma Build_labels_attached name js w r w' :
  Build_labels X cfg dir imageName fastFlag annotations name js w = (r, w') ->
  exists new,
    trace w' = (new ++ trace w)%list
    /\ (forall n L s p ra, In (EAddLabels n L s p ra) new ->
          exists configJSON pipFreeze,
            In (EMarshalConfig cfg (Ok configJSON)) new
            /\ In (EGeneratePipFreeze imageName fastFlag (Ok pipFreeze)) new
            /\ forall k, ~ In k (late_keys X) ->
                 L !! k
                 = Build_annotate annotations
                     (Build_baseLabels X configJSON js pipFreeze) !! k)
    /\ (r = Ok tt ->
        exists L, In (EAddLabels imageName L bundledSchemaFile bundledSchemaPy (Ok tt)) new).
Proof.
  intros H. unfold Build_labels in H. run H.
  all: repeat match goal with
    | H : Build_cogBaseImageLabels _ _ _ _ = _ |- _ =>
        apply Build_cogBaseImageLabels_run in H as (nl & Tl & Al & _ & _ & _ & _ & _ & Hl4)
    | H : Build_provenanceLabels _ _ _ _ = _ |- _ =>
        apply Build_provenanceLabels_run in H as (Lp & np & Hp0 & Tp & Ap & _ & _ & Hp3)
    end; simplify_eq.
  all: cbn [trace push] in *;
    eexists; (split; [rewrite ?Tp, ?Tl; new_events |]).
  all: split; [| intros Hr; try discriminate Hr].
  all: try (intros ? ? ? ? ? Hin; in_labels Hin; simplify_eq).
  all: try (do 2 eexists;
            split; [in_new |]; split; [in_new |];
            intros k Hk; rewrite !Build_annotate_lookup;
            destruct (annotations !! k); [reflexivity |];
            unfold late_keys in Hk; cbn [In] in Hk;
            rewrite Hp3, (Hl4 _ eq_refl) by naive_solver; reflexivity).
  all: repeat match goal with u : unit |- _ => destruct u end.
  all: eexists; left; reflexivity.
Qed.

End OkPath.

(** ** What a successful run has done, and the labels of the image *)

Lemma namespaced_keys_not_late X :
  ~ In (schema_key X) (late_keys X)
  /\ ~ In (freeze_key X) (late_keys X)
  /\ ~ In (init_key X) (late_keys X).
Proof.
  unfold schema_key, freeze_key, init_key, late_keys. cbn [In].
  repeat split; intros [H | [H | [H | [H | [H | []]]]]]; revert H; keys_differ.
Qed.

Lemma Build_baseLabels_namespaced X configJSON schemaJSON pipFreeze :
  Build_baseLabels X configJSON schemaJSON pipFreeze !! schema_key X = Some schemaJSON
  /\ Build_baseLabels X configJSON schemaJSON pipFreeze !! freeze_key X = Some pipFreeze
  /\ Build_baseLabels X configJSON schemaJSON pipFreeze !! init_key X = Some "true".
Proof.
  unfold Build_baseLabels, schema_key, freeze_key, init_key. repeat split.
  - rewrite !lookup_insert_ne by keys_differ. apply lookup_insert_eq.
  - rewrite lookup_insert_ne by keys_differ. apply lookup_insert_eq.
  - apply lookup_insert_eq.
Qed.

Section Outcome.

Variable X : Externals.

Variables (cfg : Config) (dir imageName : string) (secrets : list string)
  (noCache separateWeights : bool)
  (useCudaBaseImage progressOutput schemaFile dockerfileFile : string)
  (useCogBaseImage : option bool) (strip precompile fastFlag : bool)
  (annotations : gmap string string) (localImage : bool).

(** X10. [Build] returns [nil] only when the image named [imageName] was
    built, the schema document was stored in the bundled schema file,
    loaded and found valid, and the labels were attached to that image. *)
Theorem Build_succeeds_only_when_built_validated_and_labelled
    files persisted env w' :
  Build X cfg dir imageName secrets noCache separateWeights useCudaBaseImage
    progressOutput schemaFile dockerfileFile useCogBaseImage strip precompile
    fastFlag annotations localImage (initial files persisted env) = (Ok tt, w') ->
  (exists a, In (EDockerBuild a (Ok tt)) (trace w') /\ b_imageName a = imageName)
  /\ (exists js doc,
        fs w' !! bundledSchemaFile = Some js
        /\ In (ELoadFromData js (Ok doc)) (trace w')
        /\ In (EValidate doc (Ok tt)) (trace w'))
  /\ exists L,
       In (EAddLabels imageName L bundledSchemaFile bundledSchemaPy (Ok tt)) (trace w').
Proof.
  intros Hrun. remember (Ok tt) as r eqn:Er in Hrun.
  build_stages Hrun; try discriminate Er. subst r4.
  apply Build_image_ok in Him as (a & Ha & Hn).
  apply Build_schema_ok in Hs as (Hfs & _ & doc & Hld & Hv).
  apply Build_labels_attached in Hl as (new & Tn & _ & Hat).
  destruct (Hat eq_refl) as [L HL].
  assert (HL' : In (EAddLabels imageName L bundledSchemaFile bundledSchemaPy (Ok tt))
                   (trace w4))
    by (rewrite Tn; apply in_or_app; left; exact HL).
  split; [exists a; split; [trace_fwd | exact Hn] |].
  split; [| exists L; trace_fwd].
  exists js, doc. split; [| split; trace_fwd].
  destruct (run_defers_frame X (defers w4) (set_defers [] w4)) as (_ & P & _).
  rewrite P by reflexivity. cbn [fs set_defers].
  destruct F2 as (_ & P2 & _). rewrite P2 by reflexivity. exact Hfs.
Qed.

(** X11. The labels handed to the build engine carry, under the private
    namespace, the schema document that the bundled schema file holds,
    the package list of [GeneratePipFreeze] and the mark [has_init],
    wherever the annotations of the caller do not set these keys. *)
Theorem namespaced_labels_describe_the_image
    files persisted env r w' n L s p ra :
  Build X cfg dir imageName secrets noCache separateWeights useCudaBaseImage
    progressOutput schemaFile dockerfileFile useCogBaseImage strip precompile
    fastFlag annotations localImage (initial files persisted env) = (r, w') ->
  In (EAddLabels n L s p ra) (trace w') ->
  exists js pipFreeze,
    fs w' !! bundledSchemaFile = Some js
    /\ In (EGeneratePipFreeze imageName fastFlag (Ok pipFreeze)) (trace w')
    /\ (annotations !! schema_key X = None -> L !! schema_key X = Some js)
    /\ (annotations !! freeze_key X = None -> L !! freeze_key X = Some pipFreeze)
    /\ (annotations !! init_key X = None -> L !! init_key X = Some "true").
Proof.
  intros Hrun Hin. build_stages Hrun; trace_back Hin.
  apply Build_schema_ok in Hs as (Hfs & _).
  apply Build_labels_attached in Hl as (new & Tn & Hat & _).
  rewrite Tn in Hin. apply in_app_or in Hin as [Hin | Hin]; [| trace_back Hin].
  destruct (Hat _ _ _ _ _ Hin) as (cj & pf & _ & Hpf & HL).
  assert (Hpf' : In (EGeneratePipFreeze imageName fastFlag (Ok pf)) (trace w4))
    by (rewrite Tn; apply in_or_app; left; exact Hpf).
  destruct (namespaced_keys_not_late X) as (K1 & K2 & K3).
  destruct (Build_baseLabels_namespaced X cj js pf) as (B1 & B2 & B3).
  exists js, pf. split; [| split; [trace_fwd |]].
  - destruct (run_defers_frame X (defers w4) (set_defers [] w4)) as (_ & P & _).
    rewrite P by reflexivity. cbn [fs set_defers].
    destruct F2 as (_ & P2 & _). rewrite P2 by reflexivity. exact Hfs.
  - repeat split; intros Hno.
    + rewrite (HL _ K1), Build_annotate_lookup, Hno. exact B1.
    + rewrite (HL _ K2), Build_annotate_lookup, Hno. exact B2.
    + rewrite (HL _ K3), Build_annotate_lookup, Hno. exact B3.
Qed.

End Outcome.

(** ** The bundled schema files *)

Section BundledSchema.

Variable X : Externals.
Hypothesis Hnf : no_faults X.

Variables (cfg : Config) (dir imageName : string) (secrets : list string)
  (noCache separateWeights : bool)
  (useCudaBaseImage progressOutput schemaFile dockerfileFile : string)
  (useCogBaseImage : option bool) (strip precompile fastFlag : bool)
  (annotations : gmap string string) (localImage : bool).

Lemma Build_init_removes w r w' :
  Build_init X dir imageName fastFlag w = (r, w') ->
  fs w' !! bundledSchemaFile = None /\ fs w' !! bundledSchemaPy = None.
Proof.
  intros H. unfold Build_init, checkCompatibleDockerIgnore in H.
  run_ops H (no_faults_load X Hnf).
  all: cbn [fs set_fs push].
  all: repeat match goal with
         | H : context [delete _ _ !! _] |- _ =>
             rewrite lookup_delete_ne in H by discriminate
         end.
  all: rewrite ?lookup_delete_eq, ?lookup_delete_ne by discriminate.
  all: rewrite ?lookup_delete_eq.
  all: split; assumption || reflexivity.
Qed.

Lemma Build_schema_stores w r w' :
  fs w !! bundledSchemaFile = None ->
  Build_schema X cfg imageName schemaFile w = (r, w') ->
  forall data, fs w' !! bundledSchemaFile = Some data ->
    exists rl, In (ELoadFromData data rl) (trace w').
Proof.
  intros Hb H. unfold Build_schema in H.
  run_ops H (no_faults_load X Hnf).
  all: cbn [fs set_fs push trace]; intros data Hd.
  all: rewrite ?lookup_insert_eq in Hd; try congruence.
  all: injection Hd as <-; eexists; in_new.
Qed.

(** X12. Bundled schema files left by an earlier build are removed first
    (lines 45-47). When the operating system refuses nothing, there is no
    [.cog/schema.py] after a run of [Build], and a bundled schema file
    that exists then holds the document that this run gave to the
    loader. *)
Theorem stale_bundled_schema_files_are_removed files persisted env r w' :
  Build X cfg dir imageName secrets noCache separateWeights useCudaBaseImage
    progressOutput schemaFile dockerfileFile useCogBaseImage strip precompile
    fastFlag annotations localImage (initial files persisted env) = (r, w') ->
  fs w' !! bundledSchemaPy = None
  /\ forall data, fs w' !! bundledSchemaFile = Some data ->
       exists rl, In (ELoadFromData data rl) (trace w').
Proof.
  intros Hrun. build_stages Hrun.
  all: destruct (Build_init_removes _ _ _ Hi) as [R1 R2].
  all: match goal with
       | |- context [run_defers X ?ds ?w] =>
           destruct (run_defers_frame X ds w) as (_ & Pd & _);
           rewrite !Pd by reflexivity; cbn [fs set_defers]
       end.
  all: try (assert (P2 : fs w2 !! bundledSchemaFile = None
                         /\ fs w2 !! bundledSchemaPy = None)
              by (destruct F0 as (_ & P & _); rewrite !P by reflexivity; auto);
            destruct P2 as [R3 R4]).
  all: try (pose proof (Build_schema_stores _ _ _ R3 Hs) as Hst;
            assert (R5 : fs w3 !! bundledSchemaPy = None)
              by (destruct F1 as (_ & P & _); rewrite P by reflexivity; exact R4)).
  all: try (assert (R6 : forall p, fs w4 !! p = fs w3 !! p)
              by (intros p; destruct F2 as (_ & P & _); apply P; reflexivity);
            rewrite !R6).
  all: split; [assumption |].
  all: intros data Hd; try congruence.
  all: destruct (Hst _ Hd) as [rl Hin]; exists rl; trace_fwd.
Qed.

End BundledSchema.

(** ** The schema given by the caller *)

Section SchemaFile.

Variable X : Externals.

Variables (cfg : Config) (dir imageName : string) (secrets : list string)
  (noCache separateWeights : bool)
  (useCudaBaseImage progressOutput schemaFile dockerfileFile : string)
  (useCogBaseImage : option bool) (strip precompile fastFlag : bool)
  (annotations : gmap string string) (localImage : bool).

Hypothesis Hgiven : schemaFile <> "".



End SchemaFile.

(** ** An ignore file that cannot be compiled *)

Section MatcherError.

Variable X : Externals.

Variables (cfg : Config) (dir imageName : string) (secrets : list string)
  (noCache separateWeights : bool)
  (useCudaBaseImage progressOutput schemaFile dockerfileFile : string)
  (useCogBaseImage : option bool) (strip precompile fastFlag : bool)
  (annotations : gmap string string) (localImage : bool).

(** X14. When [CreateMatcher] fails, [Build] returns its error as it is, not
    wrapped, and has by then only written to the console and called
    [CreateMatcher]. *)
Theorem matcher_error_is_returned_unwrapped files persisted env r w' d e :
  Build X cfg dir imageName secrets noCache separateWeights useCudaBaseImage
    progressOutput schemaFile dockerfileFile useCogBaseImage strip precompile
    fastFlag annotations localImage (initial files persisted env) = (r, w') ->
  In (ECreateMatcher d (Err e)) (trace w') ->
  r = Err e /\ forall ev, In ev (trace w') -> in_phase PCheck ev = true.
Proof.
  intros Hrun Hin. build_stages Hrun;
    pose proof (Build_init_run _ _ _ _ _ _ _ Hi) as (new & Tn & _ & Hm);
    trace_back Hin; rewrite Tn in Hin;
    (apply in_app_or in Hin as [Hin | Hin]; [| destruct Hin]);
    destruct (Hm _ _ Hin) as [_ Hr]; try discriminate Hr.
  injection Hr as ->. split; [reflexivity |].
  destruct F as ([n [T A]] & _ & _ & _ & D). specialize (D eq_refl).
  rewrite D. cbn [defers initial run_defers trace set_defers].
  rewrite T. cbn [trace initial]. rewrite app_nil_r.
  intros ev He. eapply forallb_In; eassumption.
Qed.

End MatcherError.

(** ** The arguments of the builds *)

(** As [frame], for a frame whose events are checked by [tac]. *)
Ltac frame_step_with tac :=
  lazymatch goal with
  | |- run_rel (bind _ _) _ => apply rr_bind; [| intros ?]
  | |- run_rel (ret _) _ => apply rr_ret
  | |- run_rel (fail _) _ => apply rr_fail
  | |- run_rel (wrap _ _) _ => apply rr_wrap
  | |- run_rel (try _) _ => apply rr_try
  | |- run_rel (ignore _) _ => apply rr_ignore
  | |- run_rel (emit _) _ => apply rr_emit; tac
  | |- run_rel (extern _ _) _ => apply rr_extern; intros ?; tac
  | |- run_rel (os_Stat _ _) _ => apply rr_os_Stat
  | |- run_rel (os_ReadFile _ _) _ => apply rr_os_ReadFile
  | |- run_rel (os_LookupEnv _) _ => apply rr_os_LookupEnv
  | |- run_rel (os_WriteFile _ _ _ _) _ => apply rr_os_WriteFile; reflexivity
  | |- run_rel (os_Remove _ _) _ => apply rr_os_Remove; reflexivity
  | |- run_rel (os_Rename _ _ _) _ => apply rr_os_Rename; reflexivity
  | |- run_rel (weights_LoadManifest _ _) _ => apply rr_LoadManifest; intros ?; tac
  | |- run_rel (Manifest_Save _ _ _) _ =>
      apply rr_Manifest_Save; [reflexivity | intros ?; tac]
  | |- run_rel (defer_Cleanup _) _ => apply rr_defer_Cleanup; reflexivity
  | |- run_rel (match ?x with _ => _ end) _ => destruct x
  | |- run_rel _ _ => progress (autounfold with build_unfold; cbv zeta)
  end.

Ltac caller_args_event :=
  first [ reflexivity
        | apply bool_decide_eq_true; unfold caller_args; cbn; auto 10 ].

Section BuildArguments.

Variable X : Externals.

Variables (cfg : Config) (dir imageName : string) (secrets : list string)
  (noCache separateWeights : bool)
  (useCudaBaseImage progressOutput schemaFile dockerfileFile : string)
  (useCogBaseImage : option bool) (strip precompile fastFlag : bool)
  (annotations : gmap string string) (localImage : bool).

Lemma Build_image_args :
  run_rel (Build_image X cfg dir imageName secrets noCache separateWeights
             useCudaBaseImage progressOutput dockerfileFile useCogBaseImage
             strip precompile fastFlag localImage)
          (within (F_args X dir imageName secrets noCache progressOutput)).
Proof. repeat frame_step_with caller_args_event. Qed.

(** X15. Every build that a run of [Build] asks the build engine for is given
    the directory, the secrets, the cache flag and the progress output
    of the caller and the fixed source epoch, and builds the image named
    [imageName] or its weights image. *)
Theorem every_build_gets_the_callers_arguments files persisted env r w' a rb :
  Build X cfg dir imageName secrets noCache separateWeights useCudaBaseImage
    progressOutput schemaFile dockerfileFile useCogBaseImage strip precompile
    fastFlag annotations localImage (initial files persisted env) = (r, w') ->
  In (EDockerBuild a rb) (trace w') ->
  caller_args X dir imageName secrets noCache progressOutput a.
Proof.
  intros Hrun Hin.
  pose proof (Build_within X _ _ _ _ _ _ _ _ _ _ _ _ _ _ _ _
                (F_args X dir imageName secrets noCache progressOutput)
                (F_args X dir imageName secrets noCache progressOutput) _ _ _
                Build_image_args
                ltac:(frame_incl) ltac:(frame_incl) ltac:(frame_incl)
                ltac:(frame_incl) ltac:(frame_incl) eq_refl Hrun)
    as ([new [T A]] & _).
  rewrite T in Hin. cbn [trace initial] in Hin. rewrite app_nil_r in Hin.
  apply (forallb_In _ _ _ A) in Hin. cbn in Hin.
  apply bool_decide_eq_true in Hin. exact Hin.
Qed.

End BuildArguments.

(** * [BuildBase] *)

(** Evaluate the deferred cleanup at the end of an explicit run. *)
Ltac run_cleanup :=
  cbn [run_defers defers set_defers initial push];
  unfold generator_Cleanup, extern, console_Warn, emit;
  repeat match goal with
    | |- context [x_Cleanup ?X ?g ?w] => destruct (x_Cleanup X g w) eqn:?
    end;
  cbn [fst snd trace fs manifests push set_defers initial].

Section BuildBaseFacts.

Variable X : Externals.
Variable BaseDockerImageName : string -> string.
Variable x_GenerateModelBase : Generator -> State -> Res string.

Variables (cfg : Config) (dir useCudaBaseImage : string)
  (useCogBaseImage : option bool) (progressOutput : string).

(** X17. [BuildBase] changes no file and no manifest, creates its generator
    for a build that is neither fast nor local, and asks the build engine
    for at most one build: of the image named after the directory, with
    no secrets and with the cache, in the directory of the caller. It
    returns that name exactly when the build succeeded, and the wrapped
    error of the build when it failed. *)
Theorem BuildBase_builds_one_image files persisted env r w' :
  BuildBase X BaseDockerImageName x_GenerateModelBase cfg dir useCudaBaseImage
    useCogBaseImage progressOutput (initial files persisted env) = (r, w') ->
  fs w' = files /\ manifests w' = persisted
  /\ (forall c d f l rg, In (ENewGenerator c d f l rg) (trace w') ->
        f = false /\ l = false)
  /\ (forall a rb, In (EDockerBuild a rb) (trace w') ->
        docker_builds (trace w') = [(a, rb)]
        /\ b_dir a = dir /\ b_imageName a = BaseDockerImageName dir
        /\ b_secrets a = [] /\ b_noCache a = false
        /\ b_progressOutput a = progressOutput
        /\ r = match rb with
               | Ok _ => Ok (BaseDockerImageName dir)
               | Err e => Err (Errorf_w "Failed to build Docker image: " e)
               end)
  /\ (forall name, r = Ok name ->
        name = BaseDockerImageName dir
        /\ exists a, In (EDockerBuild a (Ok tt)) (trace w')).
Proof.
  intros H. unfold BuildBase, BuildBase_body, generator_GenerateModelBase in H.
  run H.
  all: run_cleanup.
  all: split; [reflexivity |]; split; [reflexivity |].
  all: split; [intros c d f l rg Hin; in_events Hin; simplify_eq; auto |].
  all: split; [intros ba rb Hin; in_events Hin; simplify_eq; repeat split |].
  all: intros name Hr; simplify_eq.
  all: repeat match goal with u : unit |- _ => destruct u end.
  all: split; [reflexivity | eexists; in_new].
Qed.

(** X18. The cleanup of the generator is deferred in [BuildBase] too (lines
    279-283): once the build contexts were obtained it is called exactly
    once, on the generator as the setters left it, whether the build
    fails or not; before that there is no cleanup. *)
Theorem BuildBase_cleans_up_once files persisted env r w' :
  BuildBase X BaseDockerImageName x_GenerateModelBase cfg dir useCudaBaseImage
    useCogBaseImage progressOutput (initial files persisted env) = (r, w') ->
  (forall g bc, In (EBuildContexts g (Ok bc)) (trace w') ->
     exists rc,
       cleanups (trace w') = [(configured_base useCudaBaseImage useCogBaseImage g, rc)])
  /\ ((forall g bc, ~ In (EBuildContexts g (Ok bc)) (trace w')) ->
      cleanups (trace w') = []).
Proof.
  intros H. unfold BuildBase, BuildBase_body, generator_GenerateModelBase in H.
  run H.
  all: run_cleanup.
  all: split;
    [ intros g bc Hin; in_events Hin; simplify_eq; eexists; reflexivity
    | intros Hno; first [reflexivity | exfalso; eapply Hno; in_new] ].
Qed.

End BuildBaseFacts.

(** ** The name of the managed base image *)

Section BaseImageName.

Variable X : Externals.

Variables (cfg : Config) (dir imageName : string) (secrets : list string)
  (noCache separateWeights : bool)
  (useCudaBaseImage progressOutput schemaFile dockerfileFile : string)
  (useCogBaseImage : option bool) (strip precompile fastFlag : bool)
  (annotations : gmap string string) (localImage : bool).

Lemma Build_image_base_name w r w' :
  Build_image X cfg dir imageName secrets noCache separateWeights useCudaBaseImage
    progressOutput dockerfileFile useCogBaseImage strip precompile fastFlag
    localImage w = (r, w') ->
  exists new,
    trace w' = (new ++ trace w)%list
    /\ forall g e, In (EBaseImage g (Err e)) new ->
         r = Err (ErrMsg ("Failed to get cog base image name: " ++ err_text e))
         /\ docker_builds_rev new = []
         /\ forallb (fun ev => negb (is_weights_event ev)) new = true.
Proof.
  intros H. unfold Build_image, Build_withGenerator, Build_withDockerfile in H. run H.
  all: repeat match goal with
         | H : Build_withSeparateWeights _ _ _ _ _ _ _ _ _ _ = _ |- _ =>
             apply Build_withSeparateWeights_built in H;
             destruct H as ([nb [Tb Ab]] & _)
         | H : Build_withoutSeparateWeights _ _ _ _ _ _ _ _ _ _ = _ |- _ =>
             apply Build_withoutSeparateWeights_built in H;
             destruct H as ([nb [Tb Ab]] & _)
         end.
  all: eexists; (split; [rewrite ?Tb; new_events |]).
  all: intros gb eb Hin; in_events Hin;
    try (apply (forallb_In _ _ _ Ab) in Hin; discriminate Hin);
    simplify_eq.
  all: repeat split.
Qed.

(** X16. When the generator uses a managed base image and cannot name it,
    [Build] returns an error that holds the text of the cause, not the
    cause itself (line 92 formats it with [%s]), and no image was built
    and no call of the weights path made. *)
Theorem unnamed_base_image_stops_before_any_build files persisted env r w' g e :
  Build X cfg dir imageName secrets noCache separateWeights useCudaBaseImage
    progressOutput schemaFile dockerfileFile useCogBaseImage strip precompile
    fastFlag annotations localImage (initial files persisted env) = (r, w') ->
  In (EBaseImage g (Err e)) (trace w') ->
  r = Err (ErrMsg ("Failed to get cog base image name: " ++ err_text e))
  /\ docker_builds (trace w') = []
  /\ forall ev, In ev (trace w') -> is_weights_event ev = false.
Proof.
  intros Hrun Hin. build_stages Hrun; trace_back Hin.
  all: destruct (Build_image_base_name _ _ _ Him) as (new & Tn & Hb).
  all: rewrite Tn in Hin; (apply in_app_or in Hin as [Hin | Hin]; [| trace_back Hin]).
  all: destruct (Hb _ _ Hin) as (Hr & Hnone & Hw); try discriminate Hr.
  injection Hr as ->. split; [reflexivity |].
  assert (B1 : docker_builds_rev (trace w1) = [])
    by (destruct F as ([n1 [T1 A1]] & _); rewrite T1; cbn [trace initial];
        rewrite app_nil_r; eapply docker_builds_rev_none; [exact A1 | reflexivity]).
  split.
  - rewrite (docker_builds_frame _ _ _ (run_defers_frame X _ _)) by reflexivity.
    cbn [trace set_defers]. unfold docker_builds.
    rewrite Tn, docker_builds_rev_app, B1, Hnone. reflexivity.
  - intros ev He.
    apply (within_trace_In _ _ _ _ (run_defers_frame X _ _)) in He as [He | He];
      [destruct ev; try reflexivity; discriminate He |].
    cbn [trace set_defers] in He. rewrite Tn in He.
    apply in_app_or in He as [He | He].
    + apply (forallb_In _ _ _ Hw) in He.
      destruct (is_weights_event ev); [discriminate He | reflexivity].
    + apply (within_trace_In _ _ _ _ F) in He as [He | He];
        [destruct ev; try reflexivity; discriminate He | destruct He].
Qed.

End BaseImageName.

(** ** Files and subprocesses of a run *)


Section RunInvariants.

Variable X : Externals.

Variables (cfg : Config) (dir imageName : string) (secrets : list string)
  (noCache separateWeights : bool)
  (useCudaBaseImage progressOutput schemaFile dockerfileFile : string)
  (useCogBaseImage : option bool) (strip precompile fastFlag : bool)
  (annotations : gmap string string) (localImage : bool).


Lemma git_call_b_spec t argv : git_call_b dir t argv = true -> git_call dir t argv.
Proof.
  unfold git_call_b, git_call. intros H. apply andb_true_iff in H as [Ht Ha].
  apply bool_decide_eq_true in Ht. split; [exact Ht |].
  destruct argv as [| a [| b [| c rest]]]; try discriminate Ha.
  apply andb_true_iff in Ha as [Ha Hc]. apply andb_true_iff in Ha as [Ha Hb].
  apply bool_decide_eq_true in Ha, Hb, Hc. subst. eexists. reflexivity.
Qed.

Lemma Build_labels_git cogBaseImageName schemaJSON :
  run_rel (Build_labels X cfg dir imageName fastFlag annotations cogBaseImageName schemaJSON)
          (within (F_git_calls dir)).
Proof.
  repeat frame_step_with
    ltac:(first [ reflexivity
                | cbn; unfold git_call_b; cbn;
                  rewrite !bool_decide_eq_true_2 by reflexivity; reflexivity ]).
Qed.

(** X20. Every subprocess that a run of [Build] starts is [git -C dir ...]
    under a timeout of three seconds. *)
Theorem every_subprocess_is_git_under_a_timeout files persisted env r w' t argv re :
  Build X cfg dir imageName secrets noCache separateWeights useCudaBaseImage
    progressOutput schemaFile dockerfileFile useCogBaseImage strip precompile
    fastFlag annotations localImage (initial files persisted env) = (r, w') ->
  In (EExec t argv re) (trace w') ->
  git_call dir t argv.
Proof.
  intros Hrun Hin. build_stages Hrun.
  1-3: trace_back Hin.
  apply (within_trace_In _ _ _ _ (run_defers_frame X _ _)) in Hin as [Hin | Hin];
    [discriminate Hin |].
  cbn [trace set_defers] in Hin.
  apply Build_labels_git in Hl.
  apply (within_trace_In _ _ _ _ Hl) in Hin as [Hin | Hin].
  - apply git_call_b_spec. exact Hin.
  - trace_back Hin.
Qed.

End RunInvariants.

(** ** Commit and tag from the environment *)

Section CiEnvironment.

Variable X : Externals.

Variables (cfg : Config) (dir imageName : string) (secrets : list string)
  (noCache separateWeights : bool)
  (useCudaBaseImage progressOutput schemaFile dockerfileFile : string)
  (useCogBaseImage : option bool) (strip precompile fastFlag : bool)
  (annotations : gmap string string) (localImage : bool).

Variables (commit tag : string).
Hypothesis Hcommit : commit <> "".
Hypothesis Htag : tag <> "".

Lemma Build_provenanceLabels_env labels w :
  environ w !! "GITHUB_SHA" = Some commit ->
  environ w !! "GITHUB_REF_NAME" = Some tag ->
  Build_provenanceLabels X dir labels w
  = (Ok (<[version_key := tag]> (<[revision_key := commit]> labels)), w).
Proof.
  intros Hsha Href. unfold Build_provenanceLabels, bind, try.
  rewrite (gitHead_env X dir w commit) by assumption.
  cbn [res_value is_ok]. rewrite bool_decide_eq_true_2 by assumption.
  cbn [andb ret]. rewrite (gitTag_env X dir w tag) by assumption.
  cbn [res_value is_ok]. rewrite bool_decide_eq_true_2 by assumption.
  reflexivity.
Qed.

Lemma Build_cogBaseImageLabels_frame name labels :
  run_rel (Build_cogBaseImageLabels X name labels) (within F_lineage).
Proof. frame. Qed.

Lemma Build_labels_env name js w r w' :
  environ w !! "GITHUB_SHA" = Some commit ->
  environ w !! "GITHUB_REF_NAME" = Some tag ->
  Build_labels X cfg dir imageName fastFlag annotations name js w = (r, w') ->
  exists new,
    trace w' = (new ++ trace w)%list
    /\ forallb (fun e => negb (is_exec e)) new = true
    /\ forall n L s p ra, In (EAddLabels n L s p ra) new ->
         (annotations !! revision_key = None -> L !! revision_key = Some commit)
         /\ (annotations !! version_key = None -> L !! version_key = Some tag).
Proof.
  intros Hsha Href H. unfold Build_labels in H. run H.
  all: repeat match goal with
    | H : Build_cogBaseImageLabels _ _ _ _ = _ |- _ =>
        apply Build_cogBaseImageLabels_frame in H;
        destruct H as ([nl [Tl Al]] & _ & _ & El & _); cbn [environ push] in El;
        cbn [f_event F_lineage] in Al
    end.
  all: try match goal with
    | H : Build_provenanceLabels _ _ _ _ = _ |- _ =>
        rewrite Build_provenanceLabels_env in H by (rewrite El; assumption);
        simplify_eq
    end.
  all: cbn [trace push] in *;
    eexists; (split; [rewrite ?Tl; new_events |]).
  all: split;
    [ apply forallb_forall; intros ev Hev; in_events Hev; subst; try reflexivity;
      apply (forallb_In _ _ _ Al) in Hev; destruct ev; try discriminate Hev; reflexivity |].
  all: intros n' L s p ra Hin; in_events Hin;
    try (apply (forallb_In _ _ _ Al) in Hin; discriminate Hin);
    simplify_eq.
  all: rewrite !Build_annotate_lookup; split; intros ->.
  all: rewrite ?lookup_insert_ne by discriminate; apply lookup_insert_eq.
Qed.

(** X21. When the environment gives a commit in [GITHUB_SHA] and a ref name
    in [GITHUB_REF_NAME], both not empty, a run of [Build] starts no
    subprocess, and the labels handed to the build engine carry them as
    [org.opencontainers.image.revision] and [org.opencontainers.image.version],
    wherever the annotations of the caller do not set these keys. *)
Theorem ci_environment_gives_the_provenance_labels files persisted env r w' :
  env !! "GITHUB_SHA" = Some commit ->
  env !! "GITHUB_REF_NAME" = Some tag ->
  Build X cfg dir imageName secrets noCache separateWeights useCudaBaseImage
    progressOutput schemaFile dockerfileFile useCogBaseImage strip precompile
    fastFlag annotations localImage (initial files persisted env) = (r, w') ->
  (forall t argv re, ~ In (EExec t argv re) (trace w'))
  /\ forall n L s p ra, In (EAddLabels n L s p ra) (trace w') ->
       (annotations !! revision_key = None -> L !! revision_key = Some commit)
       /\ (annotations !! version_key = None -> L !! version_key = Some tag).
Proof.
  intros Hsha Href Hrun. build_stages Hrun.
  1-3: split; [intros t argv re Hin | intros n L s p ra Hin]; trace_back Hin.
  assert (E3 : environ w3 = env).
  { destruct F as (_ & _ & _ & E & _), F0 as (_ & _ & _ & E0 & _),
      F1 as (_ & _ & _ & E1 & _). rewrite E1, E0, E. reflexivity. }
  destruct (Build_labels_env _ _ _ _ _ ltac:(rewrite E3; exact Hsha)
              ltac:(rewrite E3; exact Href) Hl) as (new & Tn & An & Hat).
  split.
  - intros t argv re Hin.
    apply (within_trace_In _ _ _ _ (run_defers_frame X _ _)) in Hin as [Hin | Hin];
      [discriminate Hin |].
    cbn [trace set_defers] in Hin. rewrite Tn in Hin.
    apply in_app_or in Hin as [Hin | Hin]; [| trace_back Hin].
    apply (forallb_In _ _ _ An) in Hin. discriminate Hin.
  - intros n L s p ra Hin. trace_back Hin. rewrite Tn in Hin.
    apply in_app_or in Hin as [Hin | Hin]; [| trace_back Hin].
    exact (Hat _ _ _ _ _ Hin).
Qed.

End CiEnvironment.

Section EmptyEnvironmentValue.

Variable X : Externals.

(** X22. A variable that is set but empty does not count: with
    [GITHUB_SHA] (for the tag: [GITHUB_REF_NAME]) set to the empty string,
    the commit (the tag) is looked up as if the variable were not set, by
    probing the work tree first. *)
Theorem empty_environment_value_is_ignored dir w :
  (environ w !! "GITHUB_SHA" = Some "" ->
   exists r rp w', gitHead X dir w = (r, w')
                   /\ In (EExec 3 (git_probe dir) rp) (trace w'))
  /\ (environ w !! "GITHUB_REF_NAME" = Some "" ->
      exists r rp w', gitTag X dir w = (r, w')
                      /\ In (EExec 3 (git_probe dir) rp) (trace w')).
Proof.
  split; intros He.
  - destruct (gitHead X dir w) as [r w'] eqn:E. exists r.
    apply gitHead_run in E as [(v & Hv & Hne & _) | [H | H]].
    + rewrite He in Hv. injection Hv as <-. contradiction.
    + destruct H as (rp & -> & _). exists rp. eexists. split; [reflexivity |].
      left. reflexivity.
    + destruct H as (out & rq & _ & -> & _). exists (Ok out). eexists.
      split; [reflexivity |]. right. left. reflexivity.
  - destruct (gitTag X dir w) as [r w'] eqn:E. exists r.
    apply gitTag_run in E as [(v & Hv & Hne & _) | [H | H]].
    + rewrite He in Hv. injection Hv as <-. contradiction.
    + destruct H as (rp & -> & _). exists rp. eexists. split; [reflexivity |].
      left. reflexivity.
    + destruct H as (out & rq & _ & -> & _). exists (Ok out). eexists.
      split; [reflexivity |]. right. left. reflexivity.
Qed.

End EmptyEnvironmentValue.

(** ** A build that fails *)

Section FailedBuild.

Variable X : Externals.
Hypothesis Hlf : only_load_faults X.

Variables (cfg : Config) (dir imageName : string) (secrets : list string)
  (noCache separateWeights : bool)
  (useCudaBaseImage progressOutput schemaFile dockerfileFile : string)
  (useCogBaseImage : option bool) (strip precompile fastFlag : bool)
  (annotations : gmap string string) (localImage : bool).

Lemma Build_withSeparateWeights_failed g ctx bc w r w' :
  Build_withSeparateWeights X dir imageName secrets noCache progressOutput g ctx bc w
  = (r, w') ->
  exists new,
    trace w' = (new ++ trace w)%list
    /\ forall a e, In (EDockerBuild a (Err e)) new ->
         exists e', r = Err e' /\ cause e' = cause e.
Proof.
  intros H.
  unfold Build_withSeparateWeights, buildWeightsImage, makeDockerignoreForWeightsImage,
    buildRunnerImage in H.
  run_ops H Hlf.
  all: eexists; (split; [new_events |]).
  all: intros ba eb Hin; in_events Hin.
  all: simplify_eq; eexists; split; reflexivity.
Qed.

Lemma Build_image_failed w r w' :
  Build_image X cfg dir imageName secrets noCache separateWeights useCudaBaseImage
    progressOutput dockerfileFile useCogBaseImage strip precompile fastFlag
    localImage w = (r, w') ->
  exists new,
    trace w' = (new ++ trace w)%list
    /\ forall a e, In (EDockerBuild a (Err e)) new ->
         exists e', r = Err e' /\ cause e' = cause e.
Proof.
  intros H.
  unfold Build_image, Build_withGenerator, Build_withDockerfile,
    Build_withoutSeparateWeights in H.
  run H.
  all: try match goal with
         | H : Build_withSeparateWeights _ _ _ _ _ _ _ _ _ _ = _ |- _ =>
             apply Build_withSeparateWeights_failed in H as (nb & Tb & Hb)
         end.
  all: eexists; (split; [rewrite ?Tb; new_events |]).
  all: intros ba eb Hin; in_events Hin.
  all: try (destruct (Hb _ _ Hin) as (e' & He' & Hc);
            first [ discriminate He'
                  | injection He' as <-; eexists; split; [reflexivity | exact Hc] ]).
  all: simplify_eq; eexists; split; reflexivity.
Qed.

(** X23. When a build fails, [Build] returns an error that wraps the
    error of the build engine, so that the cause can still be
    unwrapped, and the run ends there: no call of the schema phase or of
    the labelling phase is made. The operating system refuses no
    operation on the ignore file. *)
Theorem failed_build_stops_the_run files persisted env r w' a e :
  Build X cfg dir imageName secrets noCache separateWeights useCudaBaseImage
    progressOutput schemaFile dockerfileFile useCogBaseImage strip precompile
    fastFlag annotations localImage (initial files persisted env) = (r, w') ->
  In (EDockerBuild a (Err e)) (trace w') ->
  (exists e', r = Err e' /\ cause e' = cause e)
  /\ forall ev, In ev (trace w') -> after_image ev = false.
Proof.
  intros Hrun Hin. build_stages Hrun; trace_back Hin.
  all: destruct (Build_image_failed _ _ _ Him) as (new & Tn & Hf).
  all: rewrite Tn in Hin; (apply in_app_or in Hin as [Hin | Hin]; [| trace_back Hin]).
  all: destruct (Hf _ _ Hin) as (e' & He' & Hc); try discriminate He'.
  injection He' as <-. split; [exists e2; split; [reflexivity | exact Hc] |].
  intros ev He.
  apply (within_trace_In _ _ _ _ (run_defers_frame X _ _)) in He as [He | He];
    [destruct ev; try reflexivity; discriminate He |].
  cbn [trace set_defers] in He.
  apply (within_trace_In _ _ _ _ F0) in He as [He | He];
    [destruct ev; try reflexivity; discriminate He |].
  apply (within_trace_In _ _ _ _ F) in He as [He | He];
    [destruct ev; try reflexivity; discriminate He | destruct He].
Qed.

End FailedBuild.

(** * The properties above on the instance *)

Lemma ignore_file_operations_touch_two_files_witness :
  let X := demo (fun _ => false) [] false true false in
  let w := initial {[ dockerignoreBackupPath := "*.pyc" ]} ∅ ∅ in
  let run := writeDockerignore X "weights/" w in
  same_but_ignore_files w (snd run)
  /\ fs (snd run) !! dockerignoreBackupPath = fs w !! dockerignoreBackupPath.
Proof.
  intros X w run.
  destruct (ignore_file_operations_touch_two_files X "weights/" w (fst run) (snd run)
              (or_intror (or_introl (surjective_pairing run)))) as [H1 H2].
  split; [exact H1 | apply H2, surjective_pairing].
Defined.

Lemma backup_write_restore_round_trip_witness :
  let X := demo (fun _ => false) [] false true false in
  let w := initial {[ dockerignorePath := "*.pyc" ]} ∅ ∅ in
  no_faults X
  /\ fs w !! dockerignoreBackupPath = None
  /\ scoped_write X "weights/" w = (Ok tt, w).
Proof.
  intros X w.
  assert (Hnf : no_faults X) by apply demo_no_faults.
  assert (Hb : fs w !! dockerignoreBackupPath = None) by reflexivity.
  split; [exact Hnf |]. split; [exact Hb |].
  apply (backup_write_restore_round_trip X "weights/" w Hnf Hb).
Defined.

Lemma stale_backup_becomes_the_ignore_file_witness :
  let X := demo (fun _ => false) [] false true false in
  let w := initial {[ dockerignoreBackupPath := "*.pyc" ]} ∅ ∅ in
  no_faults X
  /\ fs w !! dockerignorePath = None
  /\ fs w !! dockerignoreBackupPath = Some "*.pyc"
  /\ exists w',
       scoped_write X "weights/" w = (Ok tt, w')
       /\ fs w' !! dockerignorePath = Some "*.pyc"
       /\ fs w' !! dockerignoreBackupPath = None.
Proof.
  intros X w.
  assert (Hnf : no_faults X) by apply demo_no_faults.
  assert (Hd : fs w !! dockerignorePath = None) by reflexivity.
  assert (Hb : fs w !! dockerignoreBackupPath = Some "*.pyc") by reflexivity.
  split; [exact Hnf |]. split; [exact Hd |]. split; [exact Hb |].
  apply (stale_backup_becomes_the_ignore_file X "weights/" w "*.pyc" Hnf Hd Hb).
Defined.

Lemma restoreDockerignore_needs_an_ignore_file_witness :
  let X := demo (fun _ => false) [] false true false in
  let w := initial {[ dockerignoreBackupPath := "*.pyc" ]} ∅ ∅ in
  fs w !! dockerignorePath = None
  /\ exists e, restoreDockerignore X w = (Err e, w).
Proof.
  intros X w.
  assert (Hd : fs w !! dockerignorePath = None) by reflexivity.
  split; [exact Hd |].
  apply (restoreDockerignore_needs_an_ignore_file X w Hd).
Defined.

Lemma backupDockerignore_moves_once_witness :
  let X := demo (fun _ => false) [] false true false in
  let w := initial {[ dockerignorePath := "*.pyc" ]} ∅ ∅ in
  no_faults X
  /\ exists w1,
       backupDockerignore X w = (Ok tt, w1)
       /\ ignore_pair w1 = (None, Some "*.pyc")
       /\ backupDockerignore X w1 = (Ok tt, w1).
Proof.
  intros X w.
  assert (Hnf : no_faults X) by apply demo_no_faults.
  split; [exact Hnf |].
  apply (backupDockerignore_moves_once X Hnf w).
Defined.

Lemma makeDockerignoreForWeightsImage_keeps_exclusions_witness :
  let X := demo (fun _ => false) [] false true false in
  let w := initial {[ dockerignorePath := "*.pyc" ]} ∅ ∅ in
  no_faults X
  /\ exists w',
       makeDockerignoreForWeightsImage X w = (Ok tt, w')
       /\ same_but_ignore_files w w'
       /\ fs w' !! dockerignorePath
          = Some ("*.pyc" ++ newline ++ "# generated by replicate/cog").
Proof.
  intros X w.
  assert (Hnf : no_faults X) by apply demo_no_faults.
  split; [exact Hnf |].
  apply (makeDockerignoreForWeightsImage_keeps_exclusions X Hnf w).
Defined.

Lemma built_runner_image_means_ignore_file_restored_witness :
  let X := demo (fun _ => false) [] false true false in
  let files : gmap string string := {[ dockerignorePath := "*.pyc" ]} in
  let run := demo_Build X true "" "" ∅ files ∅ in
  let a := mkBuildArgs "." "FROM model-weights" "model" [] false "auto" 0
             ".cog/tmp/build" ∅ in
  only_load_faults X
  /\ files !! dockerignoreBackupPath = None
  /\ In (EDockerBuild a (Ok tt)) (trace (snd run))
  /\ fs (snd run) !! dockerignorePath = files !! dockerignorePath
  /\ fs (snd run) !! dockerignoreBackupPath = None.
Proof.
  intros X files run a.
  assert (Hlf : only_load_faults X) by apply no_faults_load, demo_no_faults.
  assert (Hb : files !! dockerignoreBackupPath = None) by reflexivity.
  assert (Hin : In (EDockerBuild a (Ok tt)) (trace (snd run))) by find_event.
  split; [exact Hlf |]. split; [exact Hb |]. split; [exact Hin |].
  apply (built_runner_image_means_ignore_file_restored
           X Hlf demo_cfg "." "model" [] false "" "auto" "" None
           false false false ∅ false files ∅ ∅ (fst run) (snd run) a Hb
           (surjective_pairing run) Hin eq_refl).
Defined.

Lemma plain_build_is_one_build_of_the_generated_dockerfile_witness :
  let X := demo (fun _ => false) [] false true false in
  let run := demo_Build X false "" "" ∅ ∅ ∅ in
  let g := mkGenerator demo_cfg "." false false false false "" false in
  In (EGenerateDockerfileWithoutSeparateWeights g (Ok "FROM python:3.12")) (trace (snd run))
  /\ manifests (snd run) = ∅
  /\ exists g0 ctx bc rb,
       In (EBuildDir g0 (Ok ctx)) (trace (snd run))
       /\ In (EBuildContexts g0 (Ok bc)) (trace (snd run))
       /\ docker_builds (trace (snd run))
          = [(mkBuildArgs "." "FROM python:3.12" "model" [] false "auto" 0 ctx bc, rb)].
Proof.
  intros X run g.
  assert (Hin : In (EGenerateDockerfileWithoutSeparateWeights g (Ok "FROM python:3.12"))
                   (trace (snd run))) by find_event.
  split; [exact Hin |].
  destruct (plain_build_is_one_build_of_the_generated_dockerfile
              X demo_cfg "." "model" [] false "" "auto" "" None
              false false false ∅ false ∅ ∅ ∅ (fst run) (snd run)
              (surjective_pairing run))
    as (_ & _ & _ & Hm & Hone & _).
  split; [exact Hm |]. exact (Hone _ _ Hin).
Defined.

Lemma deferred_cleanup_runs_once_on_every_path_witness :
  let X := demo (fun n => bool_decide (n = "model")) [] false true false in
  let run := demo_Build X false "" "" ∅ ∅ ∅ in
  let g := mkGenerator demo_cfg "." false false false false "" false in
  In (EBuildContexts g (Ok ∅)) (trace (snd run))
  /\ exists rc warn rest,
       cleanups (trace (snd run)) = [(configured false false "" None g, rc)]
       /\ trace (snd run)
          = (warn ++ ECleanup (configured false false "" None g) rc :: rest)%list
       /\ forall e, In e warn -> exists msg, e = EConsole "warn" msg.
Proof.
  intros X run g.
  assert (Hin : In (EBuildContexts g (Ok ∅)) (trace (snd run))) by find_event.
  split; [exact Hin |].
  destruct (deferred_cleanup_runs_once_on_every_path
              X demo_cfg "." "model" [] false false "" "auto" "" "" None
              false false false ∅ false ∅ ∅ ∅ (fst run) (snd run)
              (surjective_pairing run))
    as (Hone & _).
  exact (Hone _ _ Hin).
Defined.

Lemma Build_succeeds_only_when_built_validated_and_labelled_witness :
  let X := demo (fun _ => false) [] false true false in
  let run := demo_Build X false "" "" ∅ ∅ ∅ in
  fst run = Ok tt
  /\ (exists a, In (EDockerBuild a (Ok tt)) (trace (snd run)) /\ b_imageName a = "model")
  /\ exists L,
       In (EAddLabels "model" L bundledSchemaFile bundledSchemaPy (Ok tt)) (trace (snd run)).
Proof.
  intros X run.
  assert (Hf : fst run = Ok tt) by (vm_compute; reflexivity).
  split; [exact Hf |].
  pose proof (surjective_pairing run) as Hp. rewrite Hf in Hp.
  destruct (Build_succeeds_only_when_built_validated_and_labelled
              X demo_cfg "." "model" [] false false "" "auto" "" "" None
              false false false ∅ false ∅ ∅ ∅ (snd run) Hp)
    as (Hb & _ & Hl).
  split; [exact Hb | exact Hl].
Defined.

Lemma namespaced_labels_describe_the_image_witness :
  let X := demo (fun _ => false) [] false true false in
  let run := demo_Build X false "" "" ∅ ∅ ∅ in
  exists n L s p ra js pipFreeze,
    In (EAddLabels n L s p ra) (trace (snd run))
    /\ fs (snd run) !! bundledSchemaFile = Some js
    /\ L !! schema_key X = Some js
    /\ L !! freeze_key X = Some pipFreeze
    /\ L !! init_key X = Some "true".
Proof.
  intros X run.
  assert (Hex : existsb is_attach (trace (snd run)) = true) by (vm_compute; reflexivity).
  apply existsb_exists in Hex as (e & Hin & He).
  destruct e; try discriminate He.
  destruct (namespaced_labels_describe_the_image
              X demo_cfg "." "model" [] false false "" "auto" "" "" None
              false false false ∅ false ∅ ∅ ∅ (fst run) (snd run) _ _ _ _ _
              (surjective_pairing run) Hin)
    as (js & pf & Hfs & _ & H1 & H2 & H3).
  do 7 eexists. split; [exact Hin |]. split; [exact Hfs |].
  split; [apply H1; reflexivity |]. split; [apply H2; reflexivity | apply H3; reflexivity].
Defined.

Lemma stale_bundled_schema_files_are_removed_witness :
  let X := demo (fun _ => false) [] false true false in
  let files : gmap string string :=
    {[ bundledSchemaPy := "import cog"; bundledSchemaFile := "{}" ]} in
  let run := demo_Build X false "" "" ∅ files ∅ in
  no_faults X
  /\ fs (snd run) !! bundledSchemaPy = None
  /\ forall data, fs (snd run) !! bundledSchemaFile = Some data ->
       exists rl, In (ELoadFromData data rl) (trace (snd run)).
Proof.
  intros X files run.
  assert (Hnf : no_faults X) by apply demo_no_faults.
  split; [exact Hnf |].
  apply (stale_bundled_schema_files_are_removed
           X Hnf demo_cfg "." "model" [] false false "" "auto" "" "" None
           false false false ∅ false files ∅ ∅ (fst run) (snd run)
           (surjective_pairing run)).
Defined.


Lemma matcher_error_is_returned_unwrapped_witness :
  let e := ErrMsg "invalid pattern" in
  let X := demo_failing (Some e) None in
  let run := demo_Build X false "" "" ∅ ∅ ∅ in
  In (ECreateMatcher "." (Err e)) (trace (snd run))
  /\ fst run = Err e
  /\ forall ev, In ev (trace (snd run)) -> in_phase PCheck ev = true.
Proof.
  intros e X run.
  assert (Hin : In (ECreateMatcher "." (Err e)) (trace (snd run))) by find_event.
  split; [exact Hin |].
  apply (matcher_error_is_returned_unwrapped
           X demo_cfg "." "model" [] false false "" "auto" "" "" None
           false false false ∅ false ∅ ∅ ∅ (fst run) (snd run) "." e
           (surjective_pairing run) Hin).
Defined.

Lemma every_build_gets_the_callers_arguments_witness :
  let X := demo (fun _ => false) [] false true false in
  let run := demo_Build X false "" "" ∅ ∅ ∅ in
  let a := mkBuildArgs "." "FROM python:3.12" "model" [] false "auto" 0
             ".cog/tmp/build" ∅ in
  In (EDockerBuild a (Ok tt)) (trace (snd run))
  /\ caller_args X "." "model" [] false "auto" a.
Proof.
  intros X run a.
  assert (Hin : In (EDockerBuild a (Ok tt)) (trace (snd run))) by find_event.
  split; [exact Hin |].
  apply (every_build_gets_the_callers_arguments
           X demo_cfg "." "model" [] false false "" "auto" "" "" None
           false false false ∅ false ∅ ∅ ∅ (fst run) (snd run) a (Ok tt)
           (surjective_pairing run) Hin).
Defined.

Lemma BuildBase_builds_one_image_witness :
  let X := demo (fun _ => false) [] false true false in
  let name := fun d : string => "cog-" ++ d ++ "-base" in
  let run :=
    BuildBase X name (fun _ _ => Ok "FROM python:3.12") demo_cfg "." "" None "auto"
      (initial ∅ ∅ ∅) in
  fs (snd run) = ∅ /\ manifests (snd run) = ∅
  /\ forall n, fst run = Ok n ->
       n = "cog-.-base" /\ exists a, In (EDockerBuild a (Ok tt)) (trace (snd run)).
Proof.
  intros X name run.
  destruct (BuildBase_builds_one_image
              X name (fun _ _ => Ok "FROM python:3.12") demo_cfg "." "" None "auto"
              ∅ ∅ ∅ (fst run) (snd run) (surjective_pairing run))
    as (H1 & H2 & _ & _ & H5).
  split; [exact H1 |]. split; [exact H2 | exact H5].
Defined.

Lemma BuildBase_cleans_up_once_witness :
  let X := demo (fun _ => true) [] false true false in
  let name := fun d : string => "cog-" ++ d ++ "-base" in
  let run :=
    BuildBase X name (fun _ _ => Ok "FROM python:3.12") demo_cfg "." "" None "auto"
      (initial ∅ ∅ ∅) in
  let g := mkGenerator demo_cfg "." false false false false "" false in
  In (EBuildContexts g (Ok ∅)) (trace (snd run))
  /\ exists rc, cleanups (trace (snd run)) = [(configured_base "" None g, rc)].
Proof.
  intros X name run g.
  assert (Hin : In (EBuildContexts g (Ok ∅)) (trace (snd run))) by find_event.
  split; [exact Hin |].
  destruct (BuildBase_cleans_up_once
              X name (fun _ _ => Ok "FROM python:3.12") demo_cfg "." "" None "auto"
              ∅ ∅ ∅ (fst run) (snd run) (surjective_pairing run))
    as (Hone & _).
  exact (Hone _ _ Hin).
Defined.

Lemma unnamed_base_image_stops_before_any_build_witness :
  let e := ErrMsg "no base image for this configuration" in
  let X := demo_failing None (Some e) in
  let run := demo_Build X true "" "" ∅ ∅ ∅ in
  let g := mkGenerator demo_cfg "." false false false false "" true in
  In (EBaseImage g (Err e)) (trace (snd run))
  /\ fst run
     = Err (ErrMsg "Failed to get cog base image name: no base image for this configuration")
  /\ docker_builds (trace (snd run)) = []
  /\ forall ev, In ev (trace (snd run)) -> is_weights_event ev = false.
Proof.
  intros e X run g.
  assert (Hin : In (EBaseImage g (Err e)) (trace (snd run))) by find_event.
  split; [exact Hin |].
  apply (unnamed_base_image_stops_before_any_build
           X demo_cfg "." "model" [] false true "" "auto" "" "" None
           false false false ∅ false ∅ ∅ ∅ (fst run) (snd run) g e
           (surjective_pairing run) Hin).
Defined.


Lemma every_subprocess_is_git_under_a_timeout_witness :
  let X := demo (fun _ => false) [] false true true in
  let run := demo_Build X false "" "" ∅ ∅ ∅ in
  In (EExec 3 (git_head ".") (Ok "4f2a9c1")) (trace (snd run))
  /\ git_call "." 3 (git_head ".").
Proof.
  intros X run.
  assert (Hin : In (EExec 3 (git_head ".") (Ok "4f2a9c1")) (trace (snd run)))
    by find_event.
  split; [exact Hin |].
  apply (every_subprocess_is_git_under_a_timeout
           X demo_cfg "." "model" [] false false "" "auto" "" "" None
           false false false ∅ false ∅ ∅ ∅ (fst run) (snd run) _ _ _
           (surjective_pairing run) Hin).
Defined.

Lemma ci_environment_gives_the_provenance_labels_witness :
  let X := demo (fun _ => false) [] false true false in
  let env : gmap string string :=
    {[ "GITHUB_SHA" := "4f2a9c1"; "GITHUB_REF_NAME" := "v1.2.0" ]} in
  let run :=
    Build X demo_cfg "." "model" [] false false "" "auto" "" "" None
      false false false ∅ false (initial ∅ ∅ env) in
  (forall t argv re, ~ In (EExec t argv re) (trace (snd run)))
  /\ exists n L s p ra,
       In (EAddLabels n L s p ra) (trace (snd run))
       /\ L !! revision_key = Some "4f2a9c1"
       /\ L !! version_key = Some "v1.2.0".
Proof.
  intros X env run.
  assert (Hc : "4f2a9c1" <> "") by discriminate.
  assert (Ht : "v1.2.0" <> "") by discriminate.
  destruct (ci_environment_gives_the_provenance_labels
              X demo_cfg "." "model" [] false false "" "auto" "" "" None
              false false false ∅ false "4f2a9c1" "v1.2.0" Hc Ht ∅ ∅ env
              (fst run) (snd run) eq_refl eq_refl (surjective_pairing run))
    as (Hno & Hat).
  split; [exact Hno |].
  assert (Hex : existsb is_attach (trace (snd run)) = true) by (vm_compute; reflexivity).
  apply existsb_exists in Hex as (e & Hin & He).
  destruct e; try discriminate He.
  do 5 eexists. split; [exact Hin |].
  destruct (Hat _ _ _ _ _ Hin) as [H1 H2].
  split; [apply H1; reflexivity | apply H2; reflexivity].
Defined.

Lemma empty_environment_value_is_ignored_witness :
  let X := demo (fun _ => false) [] false true true in
  let w := initial ∅ ∅ {[ "GITHUB_SHA" := "" ]} in
  environ w !! "GITHUB_SHA" = Some ""
  /\ exists r rp w', gitHead X "." w = (r, w')
                     /\ In (EExec 3 (git_probe ".") rp) (trace w').
Proof.
  intros X w.
  assert (He : environ w !! "GITHUB_SHA" = Some "") by reflexivity.
  split; [exact He |].
  apply (proj1 (empty_environment_value_is_ignored X "." w) He).
Defined.

Lemma failed_build_stops_the_run_witness :
  let X := demo (fun n => bool_decide (n = "model")) [] false true false in
  let run := demo_Build X false "" "" ∅ ∅ ∅ in
  let a := mkBuildArgs "." "FROM python:3.12" "model" [] false "auto" 0
             ".cog/tmp/build" ∅ in
  only_load_faults X
  /\ In (EDockerBuild a (Err (ErrMsg "exit status 1"))) (trace (snd run))
  /\ (exists e', fst run = Err e' /\ cause e' = ErrMsg "exit status 1")
  /\ forall ev, In ev (trace (snd run)) -> after_image ev = false.
Proof.
  intros X run a.
  assert (Hlf : only_load_faults X) by apply no_faults_load, demo_no_faults.
  assert (Hin : In (EDockerBuild a (Err (ErrMsg "exit status 1"))) (trace (snd run)))
    by find_event.
  split; [exact Hlf |]. split; [exact Hin |].
  apply (failed_build_stops_the_run
           X Hlf demo_cfg "." "model" [] false false "" "auto" "" "" None
           false false false ∅ false ∅ ∅ ∅ (fst run) (snd run) a _
           (surjective_pairing run) Hin).
Defined.

(** * The check of the ignore file is always made *)

Lemma within_later F w w' :
  within F w w' -> exists later, trace w' = (later ++ trace w)%list.
Proof. intros ([new [T _]] & _). eauto. Qed.

Lemma later_trans (t1 t2 t3 : list Event) :
  (exists l, t2 = (l ++ t1)%list) -> (exists l, t3 = (l ++ t2)%list) ->
  exists l, t3 = (l ++ t1)%list.
Proof. intros [l1 ->] [l2 ->]. exists (l2 ++ l1)%list. apply app_assoc. Qed.

Section CheckIsMade.

Variable X : Externals.

Variables (cfg : Config) (dir imageName : string) (secrets : list string)
  (noCache separateWeights : bool)
  (useCudaBaseImage progressOutput schemaFile dockerfileFile : string)
  (useCogBaseImage : option bool) (strip precompile fastFlag : bool)
  (annotations : gmap string string) (localImage : bool).

(** [Build_init] compiles the ignore file on every path, after console
    output only, and its outcome is decided by the matcher. *)
Lemma Build_init_check w r w' :
  Build_init X dir imageName fastFlag w = (r, w') ->
  exists rm pre,
    trace w' = (ECreateMatcher dir rm :: pre ++ trace w)%list
    /\ (forall e, In e pre -> exists level msg, e = EConsole level msg)
    /\ r = match rm with
           | Err e => Err e
           | Ok None => Ok tt
           | Ok (Some m) =>
               if MatchesPath m ".cog"
               then Err (ErrMsg "The .cog tmp path cannot be ignored by docker in .dockerignore.")
               else Ok tt
           end.
Proof.
  intros H. unfold Build_init, checkCompatibleDockerIgnore in H. run H.
  all: do 2 eexists; (split; [cbn [trace push set_fs]; f_equal; new_events |]).
  all: split; [intros ev He; in_events He; subst; eauto |].
  all: repeat match goal with u : unit |- _ => destruct u end;
    try match goal with H : MatchesPath _ _ = _ |- _ => rewrite H end; reflexivity.
Qed.

(** C4. Every run of [Build] compiles the ignore file of the source
    directory, once, and before anything but console output. When the
    matcher it gets matches [.cog], [Build] returns the error of the
    check, and all it has done is to write to the console and to compile
    the ignore file: no instructions were generated, no build was
    started. When there is no ignore file, or it does not match [.cog],
    the pipeline goes on to its first step: the generator is created or,
    with a Dockerfile of the caller, that file is read and built. *)
Theorem ignored_cog_directory_fails_fast files persisted env r w' :
  Build X cfg dir imageName secrets noCache separateWeights useCudaBaseImage
    progressOutput schemaFile dockerfileFile useCogBaseImage strip precompile
    fastFlag annotations localImage (initial files persisted env) = (r, w') ->
  exists rm pre later,
    trace w' = (later ++ ECreateMatcher dir rm :: pre)%list
    /\ (forall e, In e pre -> exists level msg, e = EConsole level msg)
    /\ (forall d rm', In (ECreateMatcher d rm') (trace w') -> d = dir /\ rm' = rm)
    /\ (forall m, rm = Ok (Some m) -> MatchesPath m ".cog" = true ->
          r = Err (ErrMsg "The .cog tmp path cannot be ignored by docker in .dockerignore.")
          /\ forall e, In e (trace w') -> in_phase PCheck e = true)
    /\ (rm = Ok None \/ (exists m, rm = Ok (Some m) /\ MatchesPath m ".cog" = false) ->
          (dockerfileFile = "" ->
             exists rg, In (ENewGenerator cfg dir fastFlag localImage rg) (trace w'))
          /\ (dockerfileFile <> "" ->
                (exists a rb, In (EDockerBuild a rb) (trace w'))
                \/ exists e,
                     r = Err (Errorf_w ("Failed to read Dockerfile at "
                                          ++ dockerfileFile ++ ": ") e))).
Proof.
  intros Hrun. build_stages Hrun.
  all: destruct (Build_init_check _ _ _ Hi) as (rm & pre & T1 & Hpre & Hr).
  all: cbn [trace initial] in T1; rewrite app_nil_r in T1.
  all: exists rm, pre.
  all: match goal with
       | |- context [trace (run_defers X ?ds ?w)] =>
           assert (Hlater : exists later,
                     trace (run_defers X ds w) = (later ++ trace w1)%list)
             by (eapply later_trans;
                   [| apply (within_later _ _ _ (run_defers_frame X _ _))];
                 cbn [trace set_defers];
                 repeat first
                   [ solve [exists []; reflexivity]
                   | match goal with
                     | Fr : within _ ?a ?b |- exists l, trace ?b = _ =>
                         first [ exact (within_later _ _ _ Fr)
                               | eapply later_trans; [| exact (within_later _ _ _ Fr)] ]
                     end ])
       end.
  all: destruct Hlater as [later Tl]; exists later.
  all: rewrite T1 in Tl; split; [exact Tl |]; split; [exact Hpre |].
  all: split;
    [ intros d rm' Hin; trace_back Hin; rewrite T1 in Hin;
      destruct Hin as [Hin | Hin];
      [ injection Hin as <- <-; split; reflexivity
      | apply Hpre in Hin as (? & ? & Hin); discriminate Hin ] |].
  all: split;
    [ intros m -> Hmatch; rewrite Hmatch in Hr; try discriminate Hr
    | intros Hpass;
      try (destruct Hpass as [-> | (m & -> & Hno)]; [| rewrite Hno in Hr];
           discriminate Hr) ].
  - (* the check fails: nothing else was done *)
    injection Hr as ->. split; [reflexivity |].
    destruct F as ([n [T A]] & _ & _ & _ & D). specialize (D eq_refl).
    rewrite D. cbn [defers initial run_defers trace set_defers].
    rewrite T. cbn [trace initial]. rewrite app_nil_r.
    intros e He. eapply forallb_In; eassumption.
  - (* the image phase fails *)
    destruct (Build_image_starts _ _ _ _ _ _ _ _ _ _ _ _ _ _ _ _ _ _ Him) as [Hgen Hdf].
    split; intros Hd.
    + destruct (Hgen Hd) as [rg Hg]. exists rg. trace_fwd.
    + destruct (Hdf Hd) as [(a & rb & Hb) | [e He]].
      * left. exists a, rb. trace_fwd.
      * right. exists e. injection He as ->. reflexivity.
  - (* the schema phase fails *)
    destruct (Build_image_starts _ _ _ _ _ _ _ _ _ _ _ _ _ _ _ _ _ _ Him) as [Hgen Hdf].
    split; intros Hd.
    + destruct (Hgen Hd) as [rg Hg]. exists rg. trace_fwd.
    + destruct (Hdf Hd) as [(a & rb & Hb) | [e He]]; [| discriminate He].
      left. exists a, rb. trace_fwd.
  - (* the labelling phase is reached *)
    destruct (Build_image_starts _ _ _ _ _ _ _ _ _ _ _ _ _ _ _ _ _ _ Him) as [Hgen Hdf].
    split; intros Hd.
    + destruct (Hgen Hd) as [rg Hg]. exists rg. trace_fwd.
    + destruct (Hdf Hd) as [(a & rb & Hb) | [e He]]; [| discriminate He].
      left. exists a, rb. trace_fwd.
Qed.

End CheckIsMade.

(** * The lineage labels follow the name of the base image *)

Section LineageOfName.

Variable X : Externals.


Variables (cfg : Config) (dir imageName : string) (secrets : list string)
  (noCache separateWeights : bool)
  (useCudaBaseImage progressOutput schemaFile dockerfileFile : string)
  (useCogBaseImage : option bool) (strip precompile fastFlag : bool)
  (annotations : gmap string string) (localImage : bool).




End LineageOfName.

(** * From a commit or tag that is not resolved to the label left out *)

Section Unresolved.

Variable X : Externals.

(** Lines 238-248 never fail, and log the note whenever the commit (the
    tag) is not resolved. *)
Lemma Build_provenanceLabels_unresolved dir labels w r w' :
  Build_provenanceLabels X dir labels w = (r, w') ->
  exists L new,
    r = Ok L /\ trace w' = (new ++ trace w)%list
    /\ forallb is_provenance_event new = true
    /\ (commit_unresolved X dir (environ w) new -> In commit_note new)
    /\ (tag_unresolved X dir (environ w) new -> In tag_note new).
Proof.
  intros H. unfold Build_provenanceLabels in H. run H.
  all: apply gitHead_run in Heqp
    as [(v & Hv & Hne & -> & ->) | [(rp & -> & Hp & ->) | (out & rq & Ho & -> & ->)]].
  all: apply gitTag_run in Heqp0
    as [(v' & Hv' & Hne' & -> & ->) | [(rp' & -> & Hp' & ->) | (out' & rq' & Ho' & -> & ->)]].
  all: try destruct rq as [o | e]; try destruct rq' as [o' | e'].
  all: cbn [res_value is_ok andb environ push] in *;
    rewrite ?andb_true_r, ?andb_false_r in *;
    try discriminate; decide_hyps.
  all: do 2 eexists; (split; [reflexivity |]); (split; [new_events |]).
  all: split; [reflexivity |].
  all: split; intros [He Hx];
    first [ solve [in_new]
          | exfalso;
            match goal with
            | Hn : _ <> "" |- _ =>
                apply Hn; first [ solve [eapply He; eassumption] | solve [apply Hx; in_new] ]
            end ].
Qed.

(** The lineage block succeeds when no image is looked up, and when the
    digest of the last layer was read. *)
Lemma Build_cogBaseImageLabels_passed name labels w r w' :
  Build_cogBaseImageLabels X name labels w = (r, w') ->
  exists new,
    trace w' = (new ++ trace w)%list
    /\ forallb is_lineage_event new = true
    /\ environ w' = environ w
    /\ (lineage_passed new -> exists L, r = Ok L).
Proof.
  intros H. unfold Build_cogBaseImageLabels in H. run H.
  all: eexists; (split; [new_events |]).
  all: split; [reflexivity |]. all: split; [reflexivity |].
  all: intros Hpass; try (eexists; reflexivity).
  all: exfalso; destruct Hpass as [Hno | (l & d & Hd)];
    [ eapply Hno; in_new | in_events Hd ].
Qed.

Variables (cfg : Config) (dir imageName : string) (secrets : list string)
  (noCache separateWeights : bool)
  (useCudaBaseImage progressOutput schemaFile dockerfileFile : string)
  (useCogBaseImage : option bool) (strip precompile fastFlag : bool)
  (annotations : gmap string string) (localImage : bool).

(** Once the package list is there and the lineage block has not failed,
    the labelling phase gets to its last step whatever the resolution of
    commit and tag gives, and a commit or a tag that is not resolved is
    noted. *)
Lemma Build_labels_best_effort name js w r w' :
  Build_labels X cfg dir imageName fastFlag annotations name js w = (r, w') ->
  exists new,
    trace w' = (new ++ trace w)%list
    /\ forall pf, In (EGeneratePipFreeze imageName fastFlag (Ok pf)) new ->
         lineage_passed new ->
         exists L ra,
           In (EAddLabels imageName L bundledSchemaFile bundledSchemaPy ra) new
           /\ r = attach_result ra
           /\ (commit_unresolved X dir (environ w) new -> In commit_note new)
           /\ (tag_unresolved X dir (environ w) new -> In tag_note new).
Proof.
  intros H. unfold Build_labels in H. run H.
  all: repeat match goal with
    | H : Build_cogBaseImageLabels _ _ _ _ = _ |- _ =>
        apply Build_cogBaseImageLabels_passed in H as (nl & Tl & Al & El & Cp)
    | H : Build_provenanceLabels _ _ _ _ = _ |- _ =>
        apply Build_provenanceLabels_unresolved in H
          as (Lp & np & Hp0 & Tp & Ap & Hcu & Htu)
    end; simplify_eq.
  all: cbn [trace push environ] in *;
    eexists; (split; [rewrite ?Tp, ?Tl; new_events |]).
  all: intros pf Hin Hpass; in_labels Hin.
  all: assert (Hnl : lineage_passed nl)
    by (destruct Hpass as [Hno | (l & d & Hd)];
        [ left; intros n rr Hn; eapply Hno;
          rewrite ?in_app_iff; cbn [In]; rewrite ?in_app_iff; eauto 6
        | right; exists l, d; in_labels Hd; exact Hd ]).
  all: destruct (Cp Hnl) as [L0 HL0]; try discriminate HL0.
  all: do 2 eexists; split; [left; reflexivity |].
  all: split; [repeat match goal with u : unit |- _ => destruct u end; reflexivity |].
  all: rewrite El in Hcu, Htu.
  all: split; intros [He Hx]; right; apply in_or_app; left;
    [ apply Hcu | apply Htu ]; (split; [exact He |]);
    intros out Ho; apply Hx; right; apply in_or_app; left; exact Ho.
Qed.

(** C7. Commit and tag resolution returns the value of the environment
    when it is present and not empty, and then runs no subprocess;
    otherwise it probes the work tree, fails when the probe does not
    answer [true], and queries [git] only when it does. A resolution
    that fails is not fatal: once the labelling phase has the package
    list and the lineage block has not failed, [Build] gets to its last
    step, whose outcome is the outcome of [Build], whatever the
    resolution gives; and when the commit (the tag) is not resolved,
    [Build] logs the note and leaves the label out. *)
Theorem provenance_resolution_is_best_effort files persisted env r w' :
  label_keys_apart X ->
  Build X cfg dir imageName secrets noCache separateWeights useCudaBaseImage
    progressOutput schemaFile dockerfileFile useCogBaseImage strip precompile
    fastFlag annotations localImage (initial files persisted env) = (r, w') ->
  (forall w v, environ w !! "GITHUB_SHA" = Some v -> v <> "" ->
     gitHead X dir w = (Ok v, w))
  /\ (forall w v, environ w !! "GITHUB_REF_NAME" = Some v -> v <> "" ->
     gitTag X dir w = (Ok v, w))
  /\ (forall w rh wh, gitHead X dir w = (rh, wh) ->
        (exists v, environ w !! "GITHUB_SHA" = Some v /\ v <> ""
                   /\ rh = Ok v /\ wh = w)
        \/ (exists rp, wh = push (EExec 3 (git_probe dir) rp) w
              /\ (forall out, rp = Ok out -> TrimSpace X out <> "true")
              /\ rh = Err (Errorf_w "Failed to find HEAD commit: " errGit))
        \/ (exists out rq, TrimSpace X out = "true"
              /\ wh = push (EExec 3 (git_head dir) rq)
                        (push (EExec 3 (git_probe dir) (Ok out)) w)
              /\ rh = match rq with Ok o => Ok (TrimSpace X o) | Err e => Err e end))
  /\ (forall w rt wt, gitTag X dir w = (rt, wt) ->
        (exists v, environ w !! "GITHUB_REF_NAME" = Some v /\ v <> ""
                   /\ rt = Ok v /\ wt = w)
        \/ (exists rp, wt = push (EExec 3 (git_probe dir) rp) w
              /\ (forall out, rp = Ok out -> TrimSpace X out <> "true")
              /\ rt = Err (Errorf_w "Failed to find ref name: " errGit))
        \/ (exists out rq, TrimSpace X out = "true"
              /\ wt = push (EExec 3 (git_describe dir) rq)
                        (push (EExec 3 (git_probe dir) (Ok out)) w)
              /\ rt = match rq with Ok o => Ok (TrimSpace X o) | Err e => Err e end))
  /\ (In commit_note (trace w') \/ In tag_note (trace w') ->
        exists L ra,
          In (EAddLabels imageName L bundledSchemaFile bundledSchemaPy ra) (trace w')
          /\ r = attach_result ra
          /\ (In commit_note (trace w') ->
                L !! revision_key = annotations !! revision_key)
          /\ (In tag_note (trace w') ->
                L !! version_key = annotations !! version_key))
  /\ (forall pf,
        In (EGeneratePipFreeze imageName fastFlag (Ok pf)) (trace w') ->
        lineage_passed (trace w') ->
        exists L ra,
          In (EAddLabels imageName L bundledSchemaFile bundledSchemaPy ra) (trace w')
          /\ r = attach_result ra
          /\ (commit_unresolved X dir env (trace w') ->
                In commit_note (trace w')
                /\ L !! revision_key = annotations !! revision_key)
          /\ (tag_unresolved X dir env (trace w') ->
                In tag_note (trace w')
                /\ L !! version_key = annotations !! version_key)).
Proof.
  intros Hkeys Hrun.
  split; [intros; apply gitHead_env; assumption |].
  split; [intros; apply gitTag_env; assumption |].
  split; [intros w rh wh H; apply gitHead_run in H; exact H |].
  split; [intros w rt wt H; apply gitTag_run in H; exact H |].
  build_stages Hrun.
  1-3: split;
    [ intros Hnote; destruct Hnote as [Hn | Hn]; trace_back Hn
    | intros pf Hn; trace_back Hn ].
  pose proof (Build_labels_best_effort _ _ _ _ _ Hl) as (new' & Tn' & Hbest).
  apply Build_labels_run in Hl as (new & Tn & Hat & Hreach & _).
  assert (new' = new) by (rewrite Tn in Tn'; apply app_inv_tail in Tn'; auto).
  subst new'. clear Tn'.
  assert (Hnew : forall e, in_phase PLabels e = true ->
                   in_phase PCleanup e = false -> in_phase PSchema e = false ->
                   in_phase PImage e = false -> in_phase PCheck e = false ->
                   In e (trace (run_defers X (defers w4) (set_defers [] w4))) -> In e new).
  { intros e _ H1 H2 H3 H4 Hin.
    apply (within_trace_In _ _ _ _ (run_defers_frame _ _ _)) in Hin as [Hin | Hin];
      [simpl in Hin; congruence |].
    cbn [trace set_defers] in Hin. rewrite Tn in Hin.
    apply in_app_or in Hin as [Hin | Hin]; [assumption |].
    apply (within_trace_In _ _ _ _ F1) in Hin as [Hin | Hin]; [simpl in Hin; congruence |].
    apply (within_trace_In _ _ _ _ F0) in Hin as [Hin | Hin]; [simpl in Hin; congruence |].
    apply (within_trace_In _ _ _ _ F) in Hin as [Hin | Hin]; [simpl in Hin; congruence |].
    contradiction. }
  assert (Hfin : forall e, In e new ->
                   In e (trace (run_defers X (defers w4) (set_defers [] w4)))).
  { intros e Hin. eapply within_trace_mono; [apply run_defers_frame |].
    cbn [trace set_defers]. rewrite Tn. apply in_or_app. left. exact Hin. }
  assert (Hlab : forall L ra,
            In (EAddLabels imageName L bundledSchemaFile bundledSchemaPy ra) new ->
            (In commit_note new -> L !! revision_key = annotations !! revision_key)
            /\ (In tag_note new -> L !! version_key = annotations !! version_key)).
  { intros L ra Hin.
    destruct (Hat _ _ _ _ _ Hin) as (_ & _ & _ & _ & Lp & cj & pf & -> & Hc & Ht & _).
    split; intros Hn; rewrite Build_annotate_lookup.
    - rewrite Hc by assumption.
      rewrite Build_baseLabels_provenance by (try assumption; simpl; auto).
      destruct (annotations !! revision_key); reflexivity.
    - rewrite Ht by assumption.
      rewrite Build_baseLabels_provenance by (try assumption; simpl; auto).
      destruct (annotations !! version_key); reflexivity. }
  assert (E3 : environ w3 = env).
  { destruct F as (_ & _ & _ & E & _), F0 as (_ & _ & _ & E0 & _),
      F1 as (_ & _ & _ & E1 & _). rewrite E1, E0, E. reflexivity. }
  split.
  - intros Hnote.
    destruct Hreach as (L & ra & Hin).
    { destruct Hnote as [Hn | Hn]; [left | right]; apply Hnew; auto. }
    destruct (Hat _ _ _ _ _ Hin) as (_ & _ & _ & Hr & _).
    destruct (Hlab _ _ Hin) as [Hc Ht].
    exists L, ra. split; [apply Hfin; exact Hin |]. split; [exact Hr |].
    split; intros Hn; [apply Hc | apply Ht]; apply Hnew; auto.
  - intros pf Hp Hpass. apply Hnew in Hp; try reflexivity.
    assert (Hpass' : lineage_passed new).
    { destruct Hpass as [Hno | (l & d & Hd)].
      - left. intros n rr Hn. eapply Hno, Hfin, Hn.
      - right. exists l, d. apply Hnew; auto. }
    destruct (Hbest _ Hp Hpass') as (L & ra & Hin & Hr & Hcu & Htu).
    destruct (Hlab _ _ Hin) as [Hc Ht].
    rewrite E3 in Hcu, Htu.
    exists L, ra. split; [apply Hfin; exact Hin |]. split; [exact Hr |].
    split; intros [He Hx].
    + assert (Hn : In commit_note new)
        by (apply Hcu; split; [exact He | intros out Ho; apply Hx, Hfin, Ho]).
      split; [apply Hfin; exact Hn | apply Hc; exact Hn].
    + assert (Hn : In tag_note new)
        by (apply Htu; split; [exact He | intros out Ho; apply Hx, Hfin, Ho]).
      split; [apply Hfin; exact Hn | apply Ht; exact Hn].
Qed.

End Unresolved.

(** * Reading the outcomes off an evaluated trace *)


Lemma In_exec_reads t n argv r : In (EExec n argv r) t -> In (argv, r) (exec_reads t).
Proof.
  induction t as [| e t IH]; [intros [] |].
  intros [-> | Hin]; [left; reflexivity |].
  destruct e; simpl; auto.
Qed.

(** * The restated claims on the sample instance *)

Lemma ignored_cog_directory_fails_fast_witness :
  let X := demo (fun _ => false) [] false true false in
  let stopped := demo_Build X false "" "" ∅ {[ dockerignorePath := ".cog" ]} ∅ in
  let passed := demo_Build X false "" "" ∅ ∅ ∅ in
  (fst stopped
   = Err (ErrMsg "The .cog tmp path cannot be ignored by docker in .dockerignore.")
   /\ forall e, In e (trace (snd stopped)) -> in_phase PCheck e = true)
  /\ exists rg,
       In (ENewGenerator demo_cfg "." false false rg) (trace (snd passed)).
Proof.
  intros X stopped passed. split.
  - destruct (ignored_cog_directory_fails_fast
                X demo_cfg "." "model" [] false false "" "auto" "" "" None
                false false false ∅ false {[ dockerignorePath := ".cog" ]} ∅ ∅
                (fst stopped) (snd stopped) (surjective_pairing stopped))
      as (rm & pre & later & _ & _ & Hone & Hstop & _).
    assert (Hin : In (ECreateMatcher "." (Ok (Some (fun p => bool_decide (p = ".cog")))))
                     (trace (snd stopped)))
      by find_event.
    destruct (Hone _ _ Hin) as [_ Hrm].
    apply (Hstop _ (eq_sym Hrm)). reflexivity.
  - destruct (ignored_cog_directory_fails_fast
                X demo_cfg "." "model" [] false false "" "auto" "" "" None
                false false false ∅ false ∅ ∅ ∅
                (fst passed) (snd passed) (surjective_pairing passed))
      as (rm & pre & later & _ & _ & Hone & _ & Hpass).
    assert (Hin : In (ECreateMatcher "." (Ok None)) (trace (snd passed)))
      by find_event.
    destruct (Hone _ _ Hin) as [_ Hrm].
    destruct (Hpass (or_introl (eq_sym Hrm))) as [Hgen _].
    apply Hgen. reflexivity.
Defined.


Lemma provenance_resolution_is_best_effort_witness :
  let X := demo (fun _ => false) ["layer0"] true true false in
  let run := demo_Build X false "" "" ∅ ∅ ∅ in
  label_keys_apart X
  /\ In (EGeneratePipFreeze "model" false (Ok "pip==24.0")) (trace (snd run))
  /\ lineage_passed (trace (snd run))
  /\ commit_unresolved X "." ∅ (trace (snd run))
  /\ In commit_note (trace (snd run))
  /\ exists L ra,
       In (EAddLabels "model" L bundledSchemaFile bundledSchemaPy ra) (trace (snd run))
       /\ fst run = attach_result ra
       /\ L !! revision_key = None.
Proof.
  intros X run.
  assert (Hk : label_keys_apart X) by apply demo_keys_apart.
  assert (Hp : In (EGeneratePipFreeze "model" false (Ok "pip==24.0")) (trace (snd run)))
    by find_event.
  assert (Hpass : lineage_passed (trace (snd run))).
  { right. exists "layer0", "sha256:layer0". find_event. }
  assert (Hu : commit_unresolved X "." ∅ (trace (snd run))).
  { split; [intros v Hv; rewrite lookup_empty in Hv; discriminate Hv |].
    intros out Hin. apply In_exec_reads in Hin. revert Hin. vm_compute.
    intros Hin.
    repeat (destruct Hin as [Hin | Hin]; [discriminate Hin |]).
    destruct Hin. }
  split; [exact Hk |]. split; [exact Hp |]. split; [exact Hpass |].
  split; [exact Hu |].
  destruct (provenance_resolution_is_best_effort
              X demo_cfg "." "model" [] false false "" "auto" "" "" None
              false false false ∅ false ∅ ∅ ∅ (fst run) (snd run) Hk
              (surjective_pairing run))
    as (_ & _ & _ & _ & _ & Hb).
  destruct (Hb _ Hp Hpass) as (L & ra & Hin & Hr & Hc & _).
  destruct (Hc Hu) as [Hn Hrev].
  split; [exact Hn |].
  exists L, ra. split; [exact Hin |]. split; [exact Hr |].
  rewrite Hrev. reflexivity.
Defined.

